(** * Split-CUB zero-shot-transfer driver: a shallow embedding

    The development follows [conv_split_cub_zst.py]: the Evaluator
    [test_task_sequence], the Task Sequencer [train_task_sequence] and
    the entry point [main].
    The script is Python 2 ([/] on two ints is floor division), the
    network, the optimiser and the dataset helpers of [utils] are outside
    the file and appear here as oracles. *)

From Stdlib Require Import ZArith QArith Lia.
From stdpp Require Import list strings.

Open Scope Z_scope.

(** ** Python values *)

Inductive exn :=
| UnboundLocalError (name : string)
| ZeroDivisionError
| IndexError
| SystemExit (code : Z).

Inductive result (A : Type) :=
| Ok (a : A)
| Raise (e : exn).
Arguments Ok {A} a.
Arguments Raise {A} e.

Definition rbind {A B} (r : result A) (f : A -> result B) : result B :=
  match r with
  | Ok a => f a
  | Raise e => Raise e
  end.

Notation "'let*' x := r 'in' k" := (rbind r (fun x => k))
  (at level 10, x pattern, r at level 100, k at level 200).

(** A local variable of a Python function is unbound until its first
    assignment; reading it then raises [UnboundLocalError]. *)
Definition read_local {A} (name : string) (v : option A) : result A :=
  match v with
  | Some a => Ok a
  | None => Raise (UnboundLocalError name)
  end.

(** [range(n)] *)
Definition py_range (n : Z) : list Z := map Z.of_nat (seq 0 (Z.to_nat n)).

(** Bounds of a slice [a[lo:hi]] on a sequence of length [n]: a negative
    bound counts from the end, and both are clipped to [0, n]. *)
Definition clamp_index (n i : Z) : Z :=
  if i <? 0 then Z.max (i + n) 0 else Z.min i n.

Definition py_slice {A} (l : list A) (lo hi : Z) : list A :=
  let n := Z.of_nat (length l) in
  let lo' := clamp_index n lo in
  let hi' := clamp_index n hi in
  take (Z.to_nat (hi' - lo')) (drop (Z.to_nat lo') l).

(** [a[lo:hi] = v] on a numpy array, for [v] of the shape of the slice. *)
Definition py_setslice {A} (l : list A) (lo hi : Z) (v : list A) : list A :=
  let n := Z.of_nat (length l) in
  let lo' := clamp_index n lo in
  take (Z.to_nat lo') l ++ v ++ drop (Z.to_nat lo' + length v) l.

(** [l[i]] *)
Definition py_getitem {A} (l : list A) (i : Z) : result A :=
  let j := if i <? 0 then i + Z.of_nat (length l) else i in
  if j <? 0 then Raise IndexError
  else match l !! Z.to_nat j with
       | Some a => Ok a
       | None => Raise IndexError
       end.

(** [a % b] and [a // b] on Python ints: the sign follows the divisor,
    as for [Z.modulo] and [Z.div]. *)
Definition py_mod (a b : Z) : result Z :=
  if b =? 0 then Raise ZeroDivisionError else Ok (a mod b).

Definition py_floordiv (a b : Z) : result Z :=
  if b =? 0 then Raise ZeroDivisionError else Ok (a / b).

(** ** Floats, as far as the driver looks at them *)

Inductive float_val :=
| NaN
| NegInf
| Fin (q : Q)
| PosInf.

Definition isnan (x : float_val) : bool :=
  match x with
  | NaN => true
  | _ => false
  end.

Definition Qltb (x y : Q) : bool := negb (Qle_bool y x).

(** [a < b]: false as soon as one side is NaN *)
Definition float_ltb (a b : float_val) : bool :=
  match a, b with
  | NaN, _ | _, NaN => false
  | _, NegInf => false
  | NegInf, _ => true
  | PosInf, _ => false
  | Fin _, PosInf => true
  | Fin x, Fin y => Qltb x y
  end.

(** ** Data *)

Abbreviation image := Z (only parsing).
Abbreviation label := Z (only parsing).
Abbreviation matrix := (list (list Q)) (only parsing).

(** [{'images': ..., 'labels': ...}] *)
Record split := { images : list image; labels : list label }.

(** [{'train': ..., 'test': ...}] *)
Record task_data := { train : split; test : split }.

Inductive test_set_key := TrainKey | TestKey.

Definition get_split (d : task_data) (k : test_set_key) : split :=
  match k with
  | TrainKey => train d
  | TestKey => test d
  end.

(** [acc = total_corrects / float(total_test_samples)], kept as the two
    operands of the float division. *)
Abbreviation accuracy := (Z * Z)%type (only parsing).

(** ** The attribute mask (lines 240-243 and 429-431) *)

Definition zeros_like (m : matrix) : matrix := map (map (fun _ => 0%Q)) m.

Definition attr_mask (class_attrs : matrix) (task num_classes_per_task : Z) : matrix :=
  let masked_class_attrs := zeros_like class_attrs in
  let attr_offset := task * num_classes_per_task in
  py_setslice masked_class_attrs attr_offset (attr_offset + num_classes_per_task)
    (py_slice class_attrs attr_offset (attr_offset + num_classes_per_task)).

(** ** The Evaluator: [test_task_sequence] (lines 411-462) *)

Definition samples_at_a_time : Z := 10.

(** [np.sum] of a vector of booleans *)
Fixpoint np_sum (bs : list bool) : Z :=
  match bs with
  | [] => 0
  | b :: bs' => (if b then 1 else 0) + np_sum bs'
  end.

(** The two locals of [test_task_sequence] that are read on a path where
    they may not have been assigned. *)
Record eval_locals := {
  var_i : option Z;
  var_masked_class_attrs : option matrix
}.

Section Evaluator.

(** The network in inference mode ([train_phase] off): whether one
    example is classified correctly under a class-attribute matrix. *)
Variable predict : matrix -> image -> label -> bool.

(** [sess.run(model.correct_predictions, feed_dict)] *)
Definition correct_predictions (class_attr : matrix)
    (x : list image) (y_ : list label) : list bool :=
  zip_with (predict class_attr) x y_.

(** [for i in range(total_test_samples / samples_at_a_time)] *)
Fixpoint score_chunks (x : list image) (y_ : list label)
    (masked : option matrix) (chunks : list Z)
    (i : option Z) (total_corrects : Z) : result (option Z * Z) :=
  match chunks with
  | [] => Ok (i, total_corrects)
  | i0 :: rest =>
      let offset := i0 * samples_at_a_time in
      let* m := read_local "masked_class_attrs" masked in
      score_chunks x y_ masked rest (Some i0)
        (total_corrects +
         np_sum (correct_predictions m
                   (py_slice x offset (offset + samples_at_a_time))
                   (py_slice y_ offset (offset + samples_at_a_time))))
  end.

(** One turn of [for task, labels in enumerate(test_tasks)] *)
Definition eval_one_task (test_data : list task_data) (class_attrs : matrix)
    (num_classes_per_task : Z) (test_set : test_set_key)
    (eval_single_head : bool) (task : Z) (loc : eval_locals)
    : result (eval_locals * accuracy) :=
  let masked :=
    if negb eval_single_head
    then Some (attr_mask class_attrs task num_classes_per_task)
    else var_masked_class_attrs loc in
  let* d := py_getitem test_data task in
  let task_test_images := images (get_split d test_set) in
  let task_test_labels := labels (get_split d test_set) in
  let total_test_samples := Z.of_nat (length task_test_images) in
  let total_corrects := 0 in
  let* (i, total_corrects) :=
      score_chunks task_test_images task_test_labels masked
        (py_range (total_test_samples / samples_at_a_time))
        (var_i loc) total_corrects in
  let* i' := read_local "i" i in
  let offset := (i' + 1) * samples_at_a_time in
  let num_residuals := total_test_samples mod samples_at_a_time in
  let* m := read_local "masked_class_attrs" masked in
  let total_corrects :=
    total_corrects +
    np_sum (correct_predictions m
              (py_slice task_test_images offset (offset + num_residuals))
              (py_slice task_test_labels offset (offset + num_residuals))) in
  Ok ({| var_i := i; var_masked_class_attrs := masked |},
      (total_corrects, total_test_samples)).

Fixpoint eval_tasks (test_data : list task_data) (class_attrs : matrix)
    (num_classes_per_task : Z) (test_set : test_set_key)
    (eval_single_head : bool) (test_tasks : list (list label))
    (task : Z) (loc : eval_locals) (list_acc : list accuracy)
    : result (list accuracy) :=
  match test_tasks with
  | [] => Ok list_acc
  | _ :: rest =>
      let* (loc', acc) :=
          eval_one_task test_data class_attrs num_classes_per_task
            test_set eval_single_head task loc in
      eval_tasks test_data class_attrs num_classes_per_task test_set
        eval_single_head rest (task + 1) loc' (list_acc ++ [acc])
  end.

Definition test_task_sequence (test_data : list task_data)
    (class_attrs : matrix) (num_classes_per_task : Z)
    (test_tasks : list (list label))
    (cross_validate_mode eval_single_head : bool)
    : result (list accuracy) :=
  let list_acc := [] in
  let test_set := if cross_validate_mode then TrainKey else TestKey in
  eval_tasks test_data class_attrs num_classes_per_task test_set
    eval_single_head test_tasks 0
    {| var_i := None; var_masked_class_attrs := None |} list_acc.

(** Scoring a whole set in one pass, the reference the chunked loop is
    compared with. *)
Definition whole_pass (class_attr : matrix) (s : split) : accuracy :=
  (np_sum (correct_predictions class_attr (images s) (labels s)),
   Z.of_nat (length (images s))).

End Evaluator.


(** ** The Task Sequencer: [train_task_sequence] (lines 150-409) *)

Inductive method := VAN | PI | EWC | MAS | GEM | RWALK.

(** The operations of the model that the driver hands to [sess.run]. *)
Module model.
Inductive op :=
| train
| reg_loss
| set_initial_running_fisher
| set_running_fisher
| reset_tmp_fisher
| set_tmp_fisher
| weights_old_ops_grouped
| update_small_omega
| train_first_task
| task_grads
| store_task_gradients
| gem_gradient_update
| store_grads
| train_subseq_tasks
| weights_delta_old_grouped
| update_big_omega_riemann
| reset_small_omega.
End model.

(** One entry of [task_based_memory]; the sampler may hand back nothing. *)
Record task_memory := {
  mem_images : option (list image);
  mem_labels : option (list label)
}.

(** The [feed_dict] of a [sess.run]. *)
Inductive feed :=
| no_feed
| batch_feed (x : list image) (y_ : list label) (class_attr : matrix)
    (sample_weights : list Q) (training_iters train_step : Z)
    (task_id : option Z)
| memory_feed (entry : task_memory) (task_id : Z)
| task_id_feed (task_id : Z).

(** What the driver asks of its collaborators, in program order. *)
Inductive event :=
| init_run (runid : Z)
| restore (runid task : Z)
| sess_run (runid task iters : Z) (fetches : list model.op) (fd : feed)
| evaluate (runid task : Z) (iters : option Z) (cross_validate_mode : bool)
| task_updates (runid task : Z)
| reset_optimizer (runid task : Z).

(** A computation of the driver: the events so far and how it ended. *)
Definition M (A : Type) : Type := (list event * result A)%type.

Definition ret {A} (a : A) : M A := ([], Ok a).

Definition bind {A B} (m : M A) (f : A -> M B) : M B :=
  match m with
  | (tr, Ok a) => let '(tr', r) := f a in (tr ++ tr', r)
  | (tr, Raise e) => (tr, Raise e)
  end.

Definition emit (e : event) : M unit := ([e], Ok tt).

Definition lift {A} (r : result A) : M A := ([], r).

Notation "'let+' x := m 'in' k" := (bind m (fun x => k))
  (at level 10, x pattern, m at level 100, k at level 200).

(** [for i in range: body], where the body may [break] *)
Fixpoint for_iters {S} (body : Z -> S -> M (S * bool)) (range : list Z) (s : S)
    : M (S * bool) :=
  match range with
  | [] => ret (s, false)
  | i :: rest =>
      let+ (s', brk) := body i s in
      if brk : bool then ret (s', true) else for_iters body rest s'
  end.

(** [for i in range: body] *)
Fixpoint for_range {S} (body : Z -> S -> M S) (range : list Z) (s : S) : M S :=
  match range with
  | [] => ret s
  | i :: rest => let+ s' := body i s in for_range body rest s'
  end.

(** [arr[perm]] on a numpy array *)
Fixpoint np_take {A} (arr : list A) (perm : list Z) : result (list A) :=
  match perm with
  | [] => Ok []
  | i :: perm' =>
      let* a := py_getitem arr i in
      let* rest := np_take arr perm' in
      Ok (a :: rest)
  end.

(** [np.random.shuffle]: for [i] from the last position down to 1, swap
    position [i] with a drawn position in [0, i]. *)
Definition swap {A} (l : list A) (i j : nat) : list A :=
  match l !! i, l !! j with
  | Some a, Some b => <[i := b]> (<[j := a]> l)
  | _, _ => l
  end.

Fixpoint shuffle_down {A} (draw : nat -> nat) (i : nat) (l : list A) : list A :=
  match i with
  | O => l
  | S i' => shuffle_down draw i' (swap l i (draw i mod (i + 1))%nat)
  end.

Definition np_random_shuffle {A} (draw : nat -> nat) (l : list A) : list A :=
  shuffle_down draw (length l - 1) l.

(** [loss_world.max()] and [np.argmax(loss_world)]; a NaN wins both. *)
Definition np_maximum (a b : float_val) : float_val :=
  if isnan a then a
  else if isnan b then b
  else if float_ltb a b then b else a.

Definition np_max (l : list float_val) : float_val :=
  match l with
  | [] => NaN
  | a :: l' => foldl np_maximum a l'
  end.

Fixpoint np_argmax_from (l : list float_val) (best : float_val)
    (best_i i : nat) : nat :=
  match l with
  | [] => best_i
  | a :: l' =>
      if negb (isnan best) && (isnan a || float_ltb best a)
      then np_argmax_from l' a i (S i)
      else np_argmax_from l' best best_i (S i)
  end.

Definition np_argmax (l : list float_val) : nat :=
  match l with
  | [] => 0%nat
  | a :: l' => np_argmax_from l' a 0%nat 1%nat
  end.

Definition my_threshold : nat := 4.

(** Lines 331-341: the new [loss_world] and [i_am_increasing], and whether
    the loop is left by [break]. *)
Definition early_stopping_check (iters : Z) (loss : float_val)
    (loss_world : list float_val) (i_am_increasing : nat)
    : list float_val * nat * bool :=
  if (1000 <? iters) && (iters mod 100 =? 0) then
    let '(loss_world, i_am_increasing) :=
      if float_ltb loss (np_max loss_world)
      then (<[np_argmax loss_world := loss]> loss_world, 0%nat)
      else (loss_world, S i_am_increasing) in
    (loss_world, i_am_increasing, (my_threshold <? i_am_increasing)%nat)
  else (loss_world, i_am_increasing, false).

(** The two places that call [sample_from_dataset] after a task. *)
Inductive sample_site := for_episodic_memory | for_replay_buffer.

(** The collaborators: the network behind [sess.run] and the helpers of
    [utils.utils], which are not part of the file.  The random ones are
    indexed by the point of the run at which they are consulted. *)
Record collaborators := {
  (** the value fetched for [model.reg_loss] at a training step *)
  loss_at : Z -> Z -> Z -> float_val;
  (** the network as it stands at an evaluation *)
  predict_at : Z -> Z -> option Z -> matrix -> image -> label -> bool;
  (** the draws of [np.random.shuffle] for a task of a run *)
  shuffle_draw : Z -> Z -> nat -> nat;
  sample_from_dataset :
    Z -> Z -> sample_site -> split -> list Q -> list label -> Z -> option split;
  concatenate_datasets :
    list image -> list label -> option (list image) -> option (list label) ->
    list image * list label;
  get_sample_weights : list label -> list label -> list Q
}.

(** The arguments of [train_task_sequence]; [imp_method] and
    [fisher_update_after] are the two attributes of [model] it reads. *)
Record params := {
  imp_method : method;
  fisher_update_after : Z;
  datasets : list task_data;
  class_attrs : matrix;
  num_classes_per_task : Z;
  task_labels : list (list label);
  cross_validate_mode : bool;
  train_single_epoch : bool;
  eval_single_head : bool;
  do_sampling : bool;
  samples_per_class : Z;
  train_iters : Z;
  batch_size : Z;
  num_runs : Z
}.

(** What a task leaves in [evals]: the snapshots taken along a single
    epoch, or the accuracies after training. *)
Inductive ftask_val :=
| snapshots (fbatches : list (list accuracy))
| final_acc (list_acc : list accuracy).

(** The variables of one run that live across its tasks. *)
Record run_state := {
  evals : list ftask_val;
  test_labels : list label;
  task_based_memory : list task_memory;
  last_task_x : option (list image);
  last_task_y_ : option (list label);
  loss_world : list float_val;
  i_am_increasing : nat
}.

(** What lines 196-243 prepare for the training loop of a task. *)
Record task_env := {
  task_train_images : list image;
  task_train_labels : list label;
  train_x : list image;
  train_y : list label;
  task_sample_weights : list Q;
  num_train_examples : Z;
  num_iters : Z;
  masked_class_attrs : matrix
}.

(** The variables the training loop of a task updates. *)
Record loop_state := {
  ftask : list (list accuracy);
  ls_loss_world : list float_val;
  ls_i_am_increasing : nat
}.

Section TaskSequencer.

Variable C : collaborators.
Variable P : params.

Definition len_datasets : Z := Z.of_nat (length (datasets P)).

(** A call of [test_task_sequence] from the sequencer. *)
Definition call_test_task_sequence (runid task : Z) (iters : option Z)
    (cross_validate : bool) : M (list accuracy) :=
  let+ _ := emit (evaluate runid task iters cross_validate) in
  lift (test_task_sequence (predict_at C runid task iters) (datasets P)
          (class_attrs P) (num_classes_per_task P) (task_labels P)
          cross_validate (eval_single_head P)).

(** Lines 200-243: the training set of the task, its weights, the
    shuffle and the attribute mask *)
Definition assemble_task (runid task : Z) (st : run_state)
    : result (task_env * run_state) :=
  let* d := py_getitem (datasets P) task in
  let '(task_train_images, task_train_labels) :=
    if do_sampling P && (0 <? task)
    then concatenate_datasets C (images (train d)) (labels (train d))
           (last_task_x st) (last_task_y_ st)
    else (images (train d), labels (train d)) in
  let* labels_t := py_getitem (task_labels P) task in
  let test_labels := test_labels st ++ labels_t in
  let task_sample_weights :=
    if do_sampling P
    then get_sample_weights C task_train_labels test_labels
    else replicate (length task_train_labels) 1%Q in
  let num_train_examples := Z.of_nat (length task_train_images) in
  let* num_iters :=
    if train_single_epoch P
    then py_floordiv num_train_examples (batch_size P)
    else Ok (train_iters P) in
  let perm :=
    np_random_shuffle (shuffle_draw C runid task)
      (py_range num_train_examples) in
  let* train_x := np_take task_train_images perm in
  let* train_y := np_take task_train_labels perm in
  let* task_sample_weights := np_take task_sample_weights perm in
  let masked_class_attrs :=
    attr_mask (class_attrs P) task (num_classes_per_task P) in
  Ok ({| task_train_images := task_train_images;
         task_train_labels := task_train_labels;
         train_x := train_x;
         train_y := train_y;
         task_sample_weights := task_sample_weights;
         num_train_examples := num_train_examples;
         num_iters := num_iters;
         masked_class_attrs := masked_class_attrs |},
      {| evals := evals st;
         test_labels := test_labels;
         task_based_memory := task_based_memory st;
         last_task_x := last_task_x st;
         last_task_y_ := last_task_y_ st;
         loss_world := loss_world st;
         i_am_increasing := i_am_increasing st |}).

(** Lines 196-243 *)
Definition task_setup (runid task : Z) (st : run_state)
    : M (task_env * run_state) :=
  let+ _ := if 0 <? task then emit (restore runid task) else ret tt in
  lift (assemble_task runid task st).

(** Line 254 *)
Definition batch_offset (iters num_train_examples : Z) : result Z :=
  py_mod (iters * batch_size P) (num_train_examples - batch_size P).

(** Lines 256-260 *)
Definition batch_feed_dict (env : task_env) (iters offset : Z) : feed :=
  batch_feed
    (py_slice (train_x env) offset (offset + batch_size P))
    (py_slice (train_y env) offset (offset + batch_size P))
    (masked_class_attrs env)
    (py_slice (task_sample_weights env) offset (offset + batch_size P))
    (num_iters env) iters None.

Definition with_task_id (fd : feed) (task : Z) : feed :=
  match fd with
  | batch_feed x y_ a w n i _ => batch_feed x y_ a w n i (Some task)
  | _ => fd
  end.

(** Lines 289-294: the gradients on the episodic memory of the previous
    tasks *)
Definition gem_prev_task_grads (runid task iters : Z)
    (memory : list task_memory) : M unit :=
  for_range
    (fun prev_task _ =>
       let+ entry := lift (py_getitem memory prev_task) in
       emit (sess_run runid task iters
               [model.task_grads; model.store_task_gradients]
               (memory_feed entry prev_task)))
    (py_range task) tt.

(** Lines 262-322: the branch of the method; gives the loss *)
Definition method_step (runid task iters : Z) (memory : list task_memory)
    (fd : feed) : M float_val :=
  let run := sess_run runid task iters in
  let loss := loss_at C runid task iters in
  match imp_method P with
  | VAN =>
      let+ _ := emit (run [model.train; model.reg_loss] fd) in
      ret loss
  | EWC =>
      let+ _ :=
        if (task =? 0) && (iters =? 0)
        then emit (run [model.set_initial_running_fisher] fd)
        else ret tt in
      let+ r := lift (py_mod (iters + 1) (fisher_update_after P)) in
      let+ _ :=
        if r =? 0
        then let+ _ := emit (run [model.set_running_fisher] no_feed) in
             emit (run [model.reset_tmp_fisher] no_feed)
        else ret tt in
      let+ _ :=
        emit (run [model.set_tmp_fisher; model.train; model.reg_loss] fd) in
      ret loss
  | PI =>
      let+ _ :=
        emit (run [model.weights_old_ops_grouped; model.train;
                   model.update_small_omega; model.reg_loss] fd) in
      ret loss
  | MAS =>
      let+ _ := emit (run [model.train; model.reg_loss] fd) in
      ret loss
  | GEM =>
      if task =? 0 then
        let+ _ := emit (run [model.train_first_task; model.reg_loss] fd) in
        ret loss
      else
        let+ _ := gem_prev_task_grads runid task iters memory in
        let fd := with_task_id fd task in
        let+ _ :=
          emit (run [model.task_grads; model.store_task_gradients;
                     model.reg_loss] fd) in
        let+ _ :=
          emit (run [model.gem_gradient_update; model.store_grads]
                  (task_id_feed task)) in
        let+ _ := emit (run [model.train_subseq_tasks] no_feed) in
        ret loss
  | RWALK =>
      let+ _ :=
        if (task =? 0) && (iters =? 0)
        then let+ _ := emit (run [model.set_initial_running_fisher] fd) in
             emit (run [model.weights_delta_old_grouped] no_feed)
        else ret tt in
      let+ r := lift (py_mod (iters + 1) (fisher_update_after P)) in
      let+ _ :=
        if r =? 0
        then let+ _ := emit (run [model.update_big_omega_riemann] no_feed) in
             let+ _ := emit (run [model.set_running_fisher] no_feed) in
             let+ _ := emit (run [model.weights_delta_old_grouped] no_feed) in
             emit (run [model.reset_small_omega] no_feed)
        else ret tt in
      let+ _ :=
        emit (run [model.set_tmp_fisher; model.weights_old_ops_grouped;
                   model.train; model.update_small_omega; model.reg_loss]
                fd) in
      ret loss
  end.

(** Lines 248-322: the snapshot, the batch and the step of the method *)
Definition train_step (runid task : Z) (memory : list task_memory)
    (env : task_env) (iters : Z) (ftask : list (list accuracy))
    : M (list (list accuracy) * float_val) :=
  let+ ftask :=
    if train_single_epoch P && negb (cross_validate_mode P) then
      if ((iters <=? 50) && (iters mod 5 =? 0))
         || ((50 <? iters) && (iters mod 50 =? 0))
      then
        let+ fbatch :=
          call_test_task_sequence runid task (Some iters)
            (cross_validate_mode P) in
        ret (ftask ++ [fbatch])
      else ret ftask
    else ret ftask in
  let+ offset := lift (batch_offset iters (num_train_examples env)) in
  let feed_dict := batch_feed_dict env iters offset in
  let+ loss := method_step runid task iters memory feed_dict in
  ret (ftask, loss).

(** One turn of [for iters in range(num_iters)] (lines 246-341) *)
Definition train_iteration (runid task : Z) (memory : list task_memory)
    (env : task_env) (iters : Z) (ls : loop_state)
    : M (loop_state * bool) :=
  let+ (ftask, loss) := train_step runid task memory env iters (ftask ls) in
  let+ _ := if isnan loss then lift (Raise (SystemExit 0)) else ret tt in
  let '(loss_world, i_am_increasing, brk) :=
    early_stopping_check iters loss (ls_loss_world ls)
      (ls_i_am_increasing ls) in
  ret ({| ftask := ftask;
          ls_loss_world := loss_world;
          ls_i_am_increasing := i_am_increasing |}, brk).

Definition train_loop (runid task : Z) (memory : list task_memory)
    (env : task_env) (range : list Z) (ls : loop_state)
    : M (loop_state * bool) :=
  for_iters (train_iteration runid task memory env) range ls.

(** Lines 345-383: the updates between tasks, the episodic memory and
    the replay buffer *)
Definition task_boundary (runid task : Z) (st : run_state) : M run_state :=
  if task <? len_datasets - 1 then
    let+ labels_t := lift (py_getitem (task_labels P) task) in
    let+ _ := emit (task_updates runid task) in
    let+ d := lift (py_getitem (datasets P) task) in
    let importance_array := replicate (length (images (train d))) 1%Q in
    let task_based_memory :=
      match imp_method P with
      | GEM =>
          let imp :=
            sample_from_dataset C runid task for_episodic_memory (train d)
              importance_array labels_t (samples_per_class P) in
          task_based_memory st
            ++ [ {| mem_images := images <$> imp;
                    mem_labels := labels <$> imp |} ]
      | _ => task_based_memory st
      end in
    let '(last_task_x, last_task_y_) :=
      if do_sampling P then
        match sample_from_dataset C runid task for_replay_buffer (train d)
                importance_array labels_t (samples_per_class P) with
        | Some imp =>
            match last_task_x st with
            | None => (Some (images imp), Some (labels imp))
            | Some x =>
                (Some (x ++ images imp),
                 Some (default [] (last_task_y_ st) ++ labels imp))
            end
        | None => (last_task_x st, last_task_y_ st)
        end
      else (last_task_x st, last_task_y_ st) in
    ret {| evals := evals st;
           test_labels := test_labels st;
           task_based_memory := task_based_memory;
           last_task_x := last_task_x;
           last_task_y_ := last_task_y_;
           loss_world := loss_world st;
           i_am_increasing := i_am_increasing st |}
  else ret st.

(** Lines 385-400: the evaluation after the task *)
Definition task_evaluation (runid task : Z) (ftask : list (list accuracy))
    (st : run_state) : M run_state :=
  let+ ftask :=
    if train_single_epoch P && negb (cross_validate_mode P) then
      let+ fbatch :=
        call_test_task_sequence runid task None (cross_validate_mode P) in
      ret (snapshots (ftask ++ [fbatch]))
    else
      let+ _ := call_test_task_sequence runid task None true in
      let+ ftask :=
        call_test_task_sequence runid task None (cross_validate_mode P) in
      ret (final_acc ftask) in
  let+ _ := emit (reset_optimizer runid task) in
  ret {| evals := evals st ++ [ftask];
         test_labels := test_labels st;
         task_based_memory := task_based_memory st;
         last_task_x := last_task_x st;
         last_task_y_ := last_task_y_ st;
         loss_world := loss_world st;
         i_am_increasing := i_am_increasing st |}.

(** Lines 343-400 *)
Definition after_training (runid task : Z) (st : run_state)
    (ls : loop_state) : M run_state :=
  let st :=
    {| evals := evals st;
       test_labels := test_labels st;
       task_based_memory := task_based_memory st;
       last_task_x := last_task_x st;
       last_task_y_ := last_task_y_ st;
       loss_world := ls_loss_world ls;
       i_am_increasing := ls_i_am_increasing ls |} in
  let+ st := task_boundary runid task st in
  task_evaluation runid task (ftask ls) st.

(** One turn of [for task in range(len(datasets))] (lines 193-400) *)
Definition run_task (runid task : Z) (st : run_state) : M run_state :=
  let+ (env, st) := task_setup runid task st in
  let+ (ls, _) :=
    train_loop runid task (task_based_memory st) env
      (py_range (num_iters env))
      {| ftask := [];
         ls_loss_world := loss_world st;
         ls_i_am_increasing := i_am_increasing st |} in
  after_training runid task st ls.

(** Lines 172-190 *)
Definition initial_run_state : run_state :=
  {| evals := [];
     test_labels := [];
     task_based_memory := [];
     last_task_x := None;
     last_task_y_ := None;
     loss_world := replicate 4 PosInf;
     i_am_increasing := 0 |}.

Definition run_tasks (runid : Z) (tasks : list Z) (st : run_state)
    : M run_state :=
  for_range (run_task runid) tasks st.

(** One turn of [for runid in range(num_runs)] (lines 162-404) *)
Definition one_run (runid : Z) : M run_state :=
  let+ _ := emit (init_run runid) in
  run_tasks runid (py_range len_datasets) initial_run_state.

Definition train_task_sequence : M (list (list ftask_val)) :=
  for_range
    (fun runid runs =>
       let+ st := one_run runid in
       ret (runs ++ [evals st]))
    (py_range (num_runs P)) [].

End TaskSequencer.

(** ** Concrete inputs for the examples *)

(** A network that classifies every example correctly. *)
Definition always_correct : matrix -> image -> label -> bool :=
  fun _ _ _ => true.

(** [n] examples of class [c], numbered from [first]. *)
Definition examples_of (first : Z) (n : nat) (c : label) : split :=
  {| images := map (fun j => first + Z.of_nat j) (seq 0 n);
     labels := replicate n c |}.

Definition join_splits (a b : split) : split :=
  {| images := images a ++ images b; labels := labels a ++ labels b |}.

(** Four classes with two attributes each. *)
Definition attrs4 : matrix :=
  [[1; 2]; [3; 4]; [5; 6]; [7; 8]]%Q.

(** A task with ten examples and a task with three, for both sets. *)
Definition ten_examples : task_data :=
  {| train := examples_of 0 10 0; test := examples_of 0 10 0 |}.

Definition three_examples : task_data :=
  {| train := examples_of 100 3 2; test := examples_of 100 3 2 |}.

(** Modelled from the spec: [sample_from_dataset] of [utils/utils.py],
    which is not under src/.  The pool drawn from a task is bounded by a
    budget per class: for each label of the task it keeps [samples_count]
    examples of the dataset that carry the label (the first ones stand for
    the uniform draw), and it hands back nothing for a task without
    labels. *)
Definition sample_from_dataset_spec (dataset : split)
    (importance_array : list Q) (task : list label) (samples_count : Z)
    : option split :=
  match task with
  | [] => None
  | _ =>
      let examples := zip (images dataset) (labels dataset) in
      let drawn :=
        flat_map
          (fun l =>
             take (Z.to_nat samples_count)
               (filter (fun e => e.2 = l) examples))
          task in
      Some {| images := drawn.*1; labels := drawn.*2 |}
  end.

(** Modelled from the spec: [concatenate_datasets] of [utils/utils.py],
    which is not under src/: the training data of the current task
    followed by the replay buffer. *)
Definition concatenate_datasets_spec (current_images : list image)
    (current_labels : list label) (prev_images : option (list image))
    (prev_labels : option (list label)) : list image * list label :=
  (current_images ++ default [] prev_images,
   current_labels ++ default [] prev_labels).

(** Modelled from the spec: [get_sample_weights] of [utils/utils.py],
    which is not under src/: one positive weight per example. *)
Definition get_sample_weights_spec (labels tasks : list label) : list Q :=
  replicate (length labels) 1%Q.

Definition example_collaborators (loss : Z -> Z -> Z -> float_val)
    : collaborators :=
  {| loss_at := loss;
     predict_at := fun _ _ _ => always_correct;
     shuffle_draw := fun _ _ i => i;
     sample_from_dataset := fun _ _ _ => sample_from_dataset_spec;
     concatenate_datasets := concatenate_datasets_spec;
     get_sample_weights := get_sample_weights_spec |}.

(** Six classes with two attributes each, split into three tasks of two
    classes; every class has twelve training and ten test examples. *)
Definition attrs6 : matrix :=
  [[1; 2]; [3; 4]; [5; 6]; [7; 8]; [9; 10]; [11; 12]]%Q.

Definition two_class_task (c : label) : task_data :=
  {| train := join_splits (examples_of (100 * c) 12 c)
                (examples_of (100 * c + 100) 12 (c + 1));
     test := join_splits (examples_of (100 * c + 50) 10 c)
               (examples_of (100 * c + 150) 10 (c + 1)) |}.

Definition example_params (m : method) (iters : Z) (single_head sampling : bool)
    : params :=
  {| imp_method := m;
     fisher_update_after := 50;
     datasets := [two_class_task 0; two_class_task 2; two_class_task 4];
     class_attrs := attrs6;
     num_classes_per_task := 2;
     task_labels := [[0; 1]; [2; 3]; [4; 5]];
     cross_validate_mode := false;
     train_single_epoch := false;
     eval_single_head := single_head;
     do_sampling := sampling;
     samples_per_class := 3;
     train_iters := iters;
     batch_size := 4;
     num_runs := 1 |}.

Definition constant_loss (x : float_val) : Z -> Z -> Z -> float_val :=
  fun _ _ _ => x.

(** A loss that is NaN at one step and 1 elsewhere. *)
Definition nan_at (runid task iters : Z) : Z -> Z -> Z -> float_val :=
  fun r t i =>
    if (r =? runid) && (t =? task) && (i =? iters) then NaN else Fin 1.

(** The same arguments with another batch size. *)
Definition with_batch_size (P : params) (b : Z) : params :=
  {| imp_method := imp_method P;
     fisher_update_after := fisher_update_after P;
     datasets := datasets P;
     class_attrs := class_attrs P;
     num_classes_per_task := num_classes_per_task P;
     task_labels := task_labels P;
     cross_validate_mode := cross_validate_mode P;
     train_single_epoch := train_single_epoch P;
     eval_single_head := eval_single_head P;
     do_sampling := do_sampling P;
     samples_per_class := samples_per_class P;
     train_iters := train_iters P;
     batch_size := b;
     num_runs := num_runs P |}.

(** The same collaborators with other draws for the shuffle. *)
Definition with_shuffle_draw (C : collaborators)
    (draw : Z -> Z -> nat -> nat) : collaborators :=
  {| loss_at := loss_at C;
     predict_at := predict_at C;
     shuffle_draw := draw;
     sample_from_dataset := sample_from_dataset C;
     concatenate_datasets := concatenate_datasets C;
     get_sample_weights := get_sample_weights C |}.


(** A first task with three training examples, below the batch size of
    four, followed by a task of two classes; a single epoch under EWC. *)
Definition short_first_task : task_data :=
  {| train := examples_of 0 3 0; test := examples_of 50 10 0 |}.

Definition short_first_task_params : params :=
  {| imp_method := EWC;
     fisher_update_after := 50;
     datasets := [short_first_task; two_class_task 2];
     class_attrs := attrs4;
     num_classes_per_task := 2;
     task_labels := [[0; 1]; [2; 3]];
     cross_validate_mode := false;
     train_single_epoch := true;
     eval_single_head := false;
     do_sampling := false;
     samples_per_class := 3;
     train_iters := 10;
     batch_size := 4;
     num_runs := 1 |}.

(** A task without any example. *)
Definition no_examples : task_data :=
  {| train := examples_of 0 0 0; test := examples_of 0 0 0 |}.

(** ** Reading a trace *)

Definition is_reg_loss (o : model.op) : bool :=
  match o with
  | model.reg_loss => true
  | _ => false
  end.

(** The training step whose [sess.run] fetches the loss, if the event is
    one. *)
Definition fetches_loss (e : event) : option (Z * Z * Z) :=
  match e with
  | sess_run runid task iters fetches _ =>
      if existsb is_reg_loss fetches then Some (runid, task, iters) else None
  | _ => None
  end.

(** The event is a [sess.run] of step [iters] of [task] in run [runid]. *)
Definition of_step (runid task iters : Z) (e : event) : Prop :=
  match e with
  | sess_run r t i _ _ => r = runid /\ t = task /\ i = iters
  | _ => False
  end.

(** The loss fetched by the event is NaN. *)
Definition nan_loss_event (C : collaborators) (e : event) : bool :=
  match fetches_loss e with
  | Some (runid, task, iters) => isnan (loss_at C runid task iters)
  | None => false
  end.

(** A computation stops at a NaN loss: if it returns, no loss it fetched
    was NaN; if a fetched loss was NaN, it ends in [sys.exit(0)] and all it
    did afterwards belongs to the same step. *)
Definition stops_at_nan (C : collaborators) {A} (m : M A) : Prop :=
  match m.2 with
  | Ok _ => Forall (fun e => nan_loss_event C e = false) m.1
  | Raise ex =>
      forall pre e post,
        m.1 = pre ++ e :: post ->
        nan_loss_event C e = true ->
        ex = SystemExit 0
        /\ exists runid task iters,
             fetches_loss e = Some (runid, task, iters)
             /\ Forall (of_step runid task iters) post
  end.

(** The [sess.run]s of a trace: run, task, step and what was fetched. *)
Definition step_fetches (e : event) : list (Z * Z * Z * list model.op) :=
  match e with
  | sess_run runid task iters fetches _ => [(runid, task, iters, fetches)]
  | _ => []
  end.

Definition ops_of (tr : list event) : list (Z * Z * Z * list model.op) :=
  flat_map step_fetches tr.

Definition not_sess_run (e : event) : Prop :=
  match e with
  | sess_run _ _ _ _ _ => False
  | _ => True
  end.

(** What the claim on the Fisher estimates expects of step [iters] of
    [task] under EWC: the running estimate is set up at the first step of
    the first task, the temporary estimate is committed and reset when
    [iters + 1] is a multiple of 50, and every step accumulates the
    temporary estimate while it trains. *)
Definition ewc_step_ops (runid task iters : Z)
    : list (Z * Z * Z * list model.op) :=
  (if (task =? 0) && (iters =? 0)
   then [(runid, task, iters, [model.set_initial_running_fisher])]
   else [])
  ++ (if (iters + 1) mod 50 =? 0
      then [(runid, task, iters, [model.set_running_fisher]);
            (runid, task, iters, [model.reset_tmp_fisher])]
      else [])
  ++ [(runid, task, iters,
       [model.set_tmp_fisher; model.train; model.reg_loss])].

(** The steps [0 .. count-1] of a task, in order. *)
Definition ewc_task_ops (runid : Z) (task count : nat)
    : list (Z * Z * Z * list model.op) :=
  flat_map (ewc_step_ops runid (Z.of_nat task)) (py_range (Z.of_nat count)).

Definition is_set_initial_running_fisher (o : model.op) : bool :=
  match o with
  | model.set_initial_running_fisher => true
  | _ => false
  end.

Definition initialises_fisher (x : Z * Z * Z * list model.op) : bool :=
  existsb is_set_initial_running_fisher x.2.

(** How often a trace sets up the running Fisher estimate. *)
Definition times_initialised (ops : list (Z * Z * Z * list model.op)) : nat :=
  length (List.filter initialises_fisher ops).

(** The entry the sequencer stores in the episodic memory after task [k]
    (lines 352-362). *)
Definition gem_entry (C : collaborators) (P : params) (runid : Z) (k : nat)
    : option task_memory :=
  match datasets P !! k, task_labels P !! k with
  | Some d, Some labels_k =>
      let imp :=
        sample_from_dataset C runid (Z.of_nat k) for_episodic_memory (train d)
          (replicate (length (images (train d))) 1%Q) labels_k
          (samples_per_class P) in
      Some {| mem_images := images <$> imp; mem_labels := labels <$> imp |}
  | _, _ => None
  end.

(** The images the sequencer draws for the replay buffer after task [k]
    (lines 365-378); none when the sampler hands back nothing. *)
Definition replay_sample (C : collaborators) (P : params) (runid : Z) (k : nat)
    : list image :=
  match datasets P !! k, task_labels P !! k with
  | Some d, Some labels_k =>
      match sample_from_dataset C runid (Z.of_nat k) for_replay_buffer
              (train d) (replicate (length (images (train d))) 1%Q) labels_k
              (samples_per_class P) with
      | Some imp => images imp
      | None => []
      end
  | _, _ => []
  end.

(** The images held by the replay buffer; it is empty while [last_task_x]
    is [None]. *)
Definition replay_buffer (st : run_state) : list image :=
  default [] (last_task_x st).


(** The loop variables at the start of the training loop of a task
    (line 238 and the state the run carries over). *)
Definition loop_start (st : run_state) : loop_state :=
  {| ftask := [];
     ls_loss_world := loss_world st;
     ls_i_am_increasing := i_am_increasing st |}.

(** A step at which line 331 looks at the loss. *)
Definition checks_loss (iters : Z) : bool :=
  (1000 <? iters) && (iters mod 100 =? 0).



(** The score the multi-head Evaluator gives a set once [i] is bound: the
    whole-set score when the set has a full chunk, and no correct example
    at all when it has not. *)
Definition score_after_first
    (predict : matrix -> image -> label -> bool) (class_attrs : matrix)
    (num_classes_per_task : Z) (key : test_set_key) (task : nat)
    (d : task_data) : accuracy :=
  if 10 <=? Z.of_nat (length (images (get_split d key)))
  then whole_pass predict
         (attr_mask class_attrs (Z.of_nat task) num_classes_per_task)
         (get_split d key)
  else (0, Z.of_nat (length (images (get_split d key)))).




(** A step before which a single-epoch run snapshots the accuracies
    (line 249). *)
Definition snapshot_step (iters : Z) : bool :=
  ((iters <=? 50) && (iters mod 5 =? 0))
  || ((50 <? iters) && (iters mod 50 =? 0)).

(** The mode in which a task stores its snapshots (lines 248 and 385). *)
Definition snapshot_mode (P : params) : bool :=
  train_single_epoch P && negb (cross_validate_mode P).

(** An entry of [evals] with [K] accuracies in each of its rows. *)
Definition entry_covers (K : nat) (ft : ftask_val) : Prop :=
  match ft with
  | snapshots fbatches =>
      fbatches <> [] /\ Forall (fun row => length row = K) fbatches
  | final_acc list_acc => length list_acc = K
  end.

(** The number of turns of the training loop of the first task (lines
    224-228), whose training set is that of the task alone. *)
Definition first_task_iters (P : params) (d0 : task_data) : Z :=
  if train_single_epoch P
  then Z.of_nat (length (images (train d0))) / batch_size P
  else train_iters P.

(** ** The entry point: [main] (lines 464-598) *)

Definition VALID_OPTIMS : list string := ["SGD"; "MOMENTUM"; "ADAM"].
Definition VALID_ARCHS : list string := ["CNN"; "VGG"; "RESNET"].
Definition MODELS : list string := ["VAN"; "PI"; "EWC"; "MAS"; "GEM"; "RWALK"].
Definition TOTAL_CLASSES : Z := 200.
Definition NUM_TASKS : Z := 1.

(** The parsed command line, as far as the driver looks at it; the
    learning rate, the synaptic strength, the Fisher decay, the data
    directory and the checkpoint are only handed on to the optimiser, the
    model and the loaders. *)
Module args.
Record t := {
  cross_validate_mode : bool;
  train_single_epoch : bool;
  eval_single_head : bool;
  arch : string;
  num_runs : Z;
  train_iters : Z;
  batch_size : Z;
  optim : string;
  imp_method : string;
  fisher_update_after : Z;
  do_sampling : bool;
  mem_size : Z;
  log_dir : string
}.
End args.


(** What [main] can end in besides returning. *)
Inductive main_exn :=
| ValueError (msg : string)
| NameError (name : string)
| Uncaught (e : exn).

(** What [main] does to the world outside, in program order. *)
Inductive main_event :=
| makedirs (path : string)
| snapshot_experiment_meta_data
| construct_split_cub (task_labels : list (list label))
| create_optimizer (kind : string)
| create_model (imp_method arch : string)
| load_checkpoint
| assign_pretrained (i : Z)
| train_event (e : event)
| sess_close
| write_cross_validate_dump
| snapshot_experiment_eval.

(** What [main] finds outside: whether the log directory exists, the
    data set loader, the number of arrays in the file of pretrained
    weights, and the collaborators of the training. *)
Record environment := {
  log_dir_exists : bool;
  split_cub : list (list label) -> list task_data * matrix;
  pretrained_keys : Z;
  network : collaborators
}.

(** Lines 509-516: the labels of the tasks *)
Definition main_task_labels (total_classes num_tasks : Z)
    : result (Z * list (list label)) :=
  let label_array := py_range total_classes in
  let* num_classes_per_task := py_floordiv total_classes num_tasks in
  let task_labels :=
    map (fun i =>
           let jmp := num_classes_per_task in
           let offset := i * jmp in
           py_slice label_array offset (offset + jmp))
      (py_range num_tasks) in
  Ok (num_classes_per_task, task_labels).

(** Lines 542-552: the optimiser.  The branch for MOMENTUM reads
    [train_step] and [training_iters], which are names of neither [main]
    nor the module; after the check of line 481 one of the three branches
    is taken, otherwise [opt] would stay unbound. *)
Definition choose_optimizer (optim : string) : main_exn + string :=
  if bool_decide (optim = "ADAM") then inr "ADAM"
  else if bool_decide (optim = "SGD") then inr "SGD"
  else if bool_decide (optim = "MOMENTUM") then inl (NameError "train_step")
  else inl (Uncaught (UnboundLocalError "opt")).

(** [model.imp_method], as [train_task_sequence] compares it *)
Definition method_of_string (s : string) : option method :=
  if bool_decide (s = "VAN") then Some VAN
  else if bool_decide (s = "PI") then Some PI
  else if bool_decide (s = "EWC") then Some EWC
  else if bool_decide (s = "MAS") then Some MAS
  else if bool_decide (s = "GEM") then Some GEM
  else if bool_decide (s = "RWALK") then Some RWALK
  else None.

(** Lines 565-577: the pretrained weights *)
Definition load_pretrained (E : environment) (arch : string)
    : list main_event :=
  if bool_decide (arch = "RESNET") then [load_checkpoint]
  else if bool_decide (arch = "VGG")
       then map assign_pretrained (py_range (pretrained_keys E - 2))
       else [].

(** Lines 579-580: the arguments [main] hands to [train_task_sequence] *)
Definition training_params (a : args.t) (m : method)
    (datasets : list task_data) (CUB_attr : matrix)
    (num_classes_per_task : Z) (task_labels : list (list label)) : params :=
  {| imp_method := m;
     fisher_update_after := args.fisher_update_after a;
     datasets := datasets;
     class_attrs := CUB_attr;
     num_classes_per_task := num_classes_per_task;
     task_labels := task_labels;
     cross_validate_mode := args.cross_validate_mode a;
     train_single_epoch := args.train_single_epoch a;
     eval_single_head := args.eval_single_head a;
     do_sampling := args.do_sampling a;
     samples_per_class := args.mem_size a;
     train_iters := args.train_iters a;
     batch_size := args.batch_size a;
     num_runs := args.num_runs a |}.

(** Lines 584-598: the statistics and the report.  [runs.mean(0)] and
    [runs.std(0)] are reductions of numpy: they return on every array
    (NaN, with a warning, on an empty one), and their values only enter
    what is written, which the events stand for.  In cross-validation
    mode line 595 indexes [acc_mean[-1,:]], which needs two axes.  [runs]
    is the array of the runs and a run the array of its tasks; in this
    mode the entry of a task is its list of accuracies (lines 391-392),
    so [runs] has three axes, and [acc_mean] two, exactly when there is a
    run and the run has a task.  With no run [acc_mean] is a scalar, with
    runs of no task it has one axis, and the index raises [IndexError]
    after the session is closed and before anything is written. *)
Definition report (a : args.t) (runs : list (list ftask_val))
    : list main_event * option main_exn :=
  if args.cross_validate_mode a then
    match runs with
    | (_ :: _) :: _ =>
        ([write_cross_validate_dump; snapshot_experiment_eval], None)
    | _ => ([], Some (Uncaught IndexError))
    end
  else ([snapshot_experiment_eval], None).

Definition main_with (total_classes num_tasks : Z) (E : environment)
    (a : args.t) : list main_event * option main_exn :=
  if negb (bool_decide (args.arch a ∈ VALID_ARCHS)) then
    ([], Some (ValueError ("Network architecture " +:+ args.arch a
                           +:+ " is not supported!")))
  else if negb (bool_decide (args.imp_method a ∈ MODELS)) then
    ([], Some (ValueError ("Importance measure " +:+ args.imp_method a
                           +:+ " is undefined!")))
  else if negb (bool_decide (args.optim a ∈ VALID_OPTIMS)) then
    ([], Some (ValueError ("Optimizer " +:+ args.optim a
                           +:+ " is undefined!")))
  else
    let tr :=
      (if log_dir_exists E then [] else [makedirs (args.log_dir a)])
      ++ [snapshot_experiment_meta_data] in
    match main_task_labels total_classes num_tasks with
    | Raise e => (tr, Some (Uncaught e))
    | Ok (num_classes_per_task, task_labels) =>
        let '(datasets, CUB_attr) := split_cub E task_labels in
        let tr := tr ++ [construct_split_cub task_labels] in
        match choose_optimizer (args.optim a) with
        | inl e => (tr, Some e)
        | inr opt =>
            let tr :=
              tr ++ [create_optimizer opt;
                     create_model (args.imp_method a) (args.arch a)]
                 ++ load_pretrained E (args.arch a) in
            match method_of_string (args.imp_method a) with
            | None => (tr, Some (Uncaught (UnboundLocalError "loss")))
            | Some m =>
                let P :=
                  training_params a m datasets CUB_attr
                    num_classes_per_task task_labels in
                let '(tr_train, r) := train_task_sequence (network E) P in
                let tr := tr ++ map train_event tr_train in
                match r with
                | Raise e => (tr, Some (Uncaught e))
                | Ok runs =>
                    let '(tr_report, r) := report a runs in
                    (tr ++ [sess_close] ++ tr_report, r)
                end
            end
        end
    end.

Definition main (E : environment) (a : args.t)
    : list main_event * option main_exn :=
  main_with TOTAL_CLASSES NUM_TASKS E a.
(** ** Slices *)

Lemma py_slice_nonneg {A} (l : list A) (lo hi : Z) :
  0 <= lo ->
  0 <= hi ->
  py_slice l lo hi = take (Z.to_nat hi - Z.to_nat lo) (drop (Z.to_nat lo) l).
Proof.
  intros Hlo Hhi. unfold py_slice, clamp_index.
  destruct (Z.ltb_spec lo 0) as [?|_]; [lia|].
  destruct (Z.ltb_spec hi 0) as [?|_]; [lia|].
  destruct (Z.le_gt_cases (Z.of_nat (length l)) lo) as [Hge|Hlt].
  - rewrite !drop_ge by lia. by rewrite !take_nil.
  - rewrite (Z.min_l lo) by lia.
    destruct (Z.le_gt_cases hi (Z.of_nat (length l))) as [Hh|Hh].
    + rewrite Z.min_l by lia. f_equal. lia.
    + rewrite Z.min_r by lia.
      rewrite !take_ge; [done| |]; rewrite length_drop; lia.
Qed.

Lemma length_py_slice {A} (l : list A) (lo hi : Z) :
  0 <= lo -> lo <= hi -> hi <= Z.of_nat (length l) ->
  Z.of_nat (length (py_slice l lo hi)) = hi - lo.
Proof.
  intros. rewrite py_slice_nonneg by lia.
  rewrite length_take, length_drop. lia.
Qed.

Lemma py_slice_zip_with {A B C} (f : A -> B -> C) (x : list A) (y : list B)
    (lo hi : Z) :
  0 <= lo -> 0 <= hi ->
  zip_with f (py_slice x lo hi) (py_slice y lo hi)
  = py_slice (zip_with f x y) lo hi.
Proof.
  intros. rewrite !py_slice_nonneg by lia.
  by rewrite zip_with_drop, zip_with_take.
Qed.

Lemma np_sum_app (a b : list bool) : np_sum (a ++ b) = np_sum a + np_sum b.
Proof. induction a as [|x a IH]; simpl; [done|]. rewrite IH. lia. Qed.

Lemma py_slice_split {A} (l : list A) (a b c : Z) :
  0 <= a -> a <= b -> b <= c ->
  py_slice l a c = py_slice l a b ++ py_slice l b c.
Proof.
  intros. rewrite !py_slice_nonneg by lia.
  replace (Z.to_nat c - Z.to_nat a)%nat
    with ((Z.to_nat b - Z.to_nat a) + (Z.to_nat c - Z.to_nat b))%nat by lia.
  rewrite <- take_take_drop, drop_drop.
  do 3 f_equal. lia.
Qed.

Lemma py_slice_all {A} (l : list A) (n : Z) :
  Z.of_nat (length l) <= n -> py_slice l 0 n = l.
Proof.
  intros. rewrite py_slice_nonneg by lia. simpl.
  rewrite drop_0. apply take_ge. lia.
Qed.

Lemma py_slice_beyond {A} (l : list A) (lo hi : Z) :
  Z.of_nat (length l) <= lo -> 0 <= hi -> py_slice l lo hi = [].
Proof.
  intros. rewrite py_slice_nonneg by lia.
  rewrite drop_ge by lia. apply take_nil.
Qed.

(** ** The chunked scoring loop *)

Section EvaluatorFacts.

Variable predict : matrix -> image -> label -> bool.

Lemma py_range_seq (n : nat) : py_range (Z.of_nat n) = map Z.of_nat (seq 0 n).
Proof. unfold py_range. by rewrite Nat2Z.id. Qed.

(** With the mask bound, the chunks [a .. a+b-1] add the corrects of the
    examples [10a .. 10(a+b)-1], and [i] is left at the last chunk. *)
Lemma score_chunks_bound (x : list image) (y_ : list label) (m : matrix) :
  forall (b a : nat) (i : option Z) (total : Z),
    score_chunks predict x y_ (Some m) (map Z.of_nat (seq a b)) i total
    = Ok (match b with
          | O => i
          | S _ => Some (Z.of_nat (a + b) - 1)
          end,
          total + np_sum (py_slice (correct_predictions predict m x y_)
                            (Z.of_nat a * samples_at_a_time)
                            (Z.of_nat (a + b) * samples_at_a_time))).
Proof.
  unfold samples_at_a_time.
  induction b as [|b IH]; intros a i total.
  - simpl. rewrite py_slice_nonneg by lia.
    replace (a + 0)%nat with a by lia.
    rewrite Nat.sub_diag, take_0. simpl. do 2 f_equal. lia.
  - cbn [seq map score_chunks read_local rbind].
    rewrite IH. unfold correct_predictions, samples_at_a_time.
    rewrite py_slice_zip_with by lia.
    rewrite (py_slice_split _ (Z.of_nat a * 10) (Z.of_nat a * 10 + 10)
               (Z.of_nat (a + S b) * 10)) by lia.
    rewrite np_sum_app.
    replace (Z.of_nat (S a) * 10) with (Z.of_nat a * 10 + 10) by lia.
    replace (S a + b)%nat with (a + S b)%nat by lia.
    f_equal. f_equal; [|lia].
    destruct b; f_equal; lia.
Qed.

(** Multi-head evaluation of a task whose set has at least one full
    chunk scores every example once, whatever [i] held before. *)
Lemma eval_one_task_multi_head (test_data : list task_data)
    (class_attrs : matrix) (num_classes_per_task : Z) (key : test_set_key)
    (task : Z) (loc : eval_locals) (d : task_data) :
  py_getitem test_data task = Ok d ->
  10 <= Z.of_nat (length (images (get_split d key))) ->
  eval_one_task predict test_data class_attrs num_classes_per_task key
    false task loc
  = Ok ({| var_i :=
             Some (Z.of_nat (length (images (get_split d key))) / 10 - 1);
           var_masked_class_attrs :=
             Some (attr_mask class_attrs task num_classes_per_task) |},
        whole_pass predict (attr_mask class_attrs task num_classes_per_task)
          (get_split d key)).
Proof.
  intros Hd Hn. unfold eval_one_task. rewrite Hd. cbn [rbind negb].
  set (n := Z.of_nat (length (images (get_split d key)))) in *.
  set (m := attr_mask class_attrs task num_classes_per_task).
  unfold samples_at_a_time.
  assert (Hq : 1 <= n / 10) by (apply Z.div_le_lower_bound; lia).
  rewrite <- (Z2Nat.id (n / 10)) at 1 by lia.
  rewrite py_range_seq, score_chunks_bound.
  destruct (Z.to_nat (n / 10)) as [|q] eqn:Eq; [lia|].
  cbn [rbind read_local]. unfold whole_pass, correct_predictions.
  rewrite py_slice_zip_with by (pose proof (Z.mod_pos_bound n 10); lia).
  unfold samples_at_a_time.
  replace (Z.of_nat (0 + S q) - 1 + 1) with (Z.of_nat (0 + S q)) by lia.
  rewrite Z.add_0_l, <- np_sum_app, <- py_slice_split
    by (pose proof (Z.mod_pos_bound n 10); lia).
  assert (Hn' : Z.of_nat (0 + S q) * 10 + n mod 10 = n).
  { simpl (0 + S q)%nat. rewrite <- Eq, Z2Nat.id by lia.
    pose proof (Z.div_mod n 10). lia. }
  rewrite Hn'. simpl (Z.of_nat 0 * 10).
  rewrite py_slice_all.
  2: { rewrite length_zip_with. subst n. lia. }
  do 4 f_equal. simpl (0 + S q)%nat. rewrite <- Eq, Z2Nat.id by lia. done.
Qed.

End EvaluatorFacts.

(** ** The attribute mask *)

Lemma length_zeros_like (m : matrix) : length (zeros_like m) = length m.
Proof. unfold zeros_like. by rewrite length_map. Qed.

Lemma lookup_zeros_like (m : matrix) (r : nat) (row : list Q) :
  m !! r = Some row -> zeros_like m !! r = Some (map (fun _ => 0%Q) row).
Proof.
  intros H. unfold zeros_like.
  change (map (map (fun _ : Q => 0%Q)) m) with (map (fun _ : Q => 0%Q) <$> m).
  by rewrite list_lookup_fmap, H.
Qed.

Lemma length_attr_mask (class_attrs : matrix) (task num_classes_per_task : Z) :
  0 <= task -> 0 <= num_classes_per_task ->
  length (attr_mask class_attrs task num_classes_per_task)
  = length class_attrs.
Proof.
  intros Ht Hc. unfold attr_mask, py_setslice.
  assert (0 <= task * num_classes_per_task) by lia.
  rewrite py_slice_nonneg by lia.
  rewrite !length_app, length_take, !length_drop, length_take, length_drop,
    length_zeros_like.
  unfold clamp_index.
  destruct (Z.ltb_spec (task * num_classes_per_task) 0); lia.
Qed.

Lemma lookup_attr_mask (class_attrs : matrix) (task num_classes_per_task : Z)
    (r : nat) (row : list Q) :
  0 <= task -> 0 <= num_classes_per_task ->
  class_attrs !! r = Some row ->
  attr_mask class_attrs task num_classes_per_task !! r
  = Some (if (task * num_classes_per_task <=? Z.of_nat r)
             && (Z.of_nat r <? (task + 1) * num_classes_per_task)
          then row
          else map (fun _ => 0%Q) row).
Proof.
  intros Ht Hc Hrow. unfold attr_mask, py_setslice.
  set (lo := task * num_classes_per_task).
  assert (Hlo : 0 <= lo) by (subst lo; lia).
  replace ((task + 1) * num_classes_per_task)
    with (lo + num_classes_per_task) by (subst lo; lia).
  pose proof (lookup_lt_Some _ _ _ Hrow) as Hr.
  pose proof (lookup_zeros_like _ _ _ Hrow) as Hz.
  rewrite py_slice_nonneg by lia.
  rewrite length_zeros_like. unfold clamp_index.
  destruct (Z.ltb_spec lo 0) as [?|_]; [lia|].
  set (a := Z.to_nat (Z.min lo (Z.of_nat (length class_attrs)))).
  set (S := take (Z.to_nat (lo + num_classes_per_task) - Z.to_nat lo)
              (drop (Z.to_nat lo) class_attrs)).
  assert (HS : length S
               = Nat.min (Z.to_nat (lo + num_classes_per_task) - Z.to_nat lo)
                   (length class_attrs - Z.to_nat lo)).
  { subst S. by rewrite length_take, length_drop. }
  destruct (Z.leb_spec lo (Z.of_nat r)) as [Hle|Hgt]; simpl.
  - assert (Ha : a = Z.to_nat lo) by (subst a; lia).
    rewrite lookup_app_r by (rewrite length_take, length_zeros_like; lia).
    rewrite length_take, length_zeros_like.
    replace (Nat.min a (length class_attrs)) with a by lia.
    destruct (Z.ltb_spec (Z.of_nat r) (lo + num_classes_per_task)) as [Hin|Hout].
    + rewrite lookup_app_l by lia.
      subst S. rewrite lookup_take, lookup_drop.
      destruct (decide (r - a < Z.to_nat (lo + num_classes_per_task)
                                 - Z.to_nat lo)%nat) as [_|Hn]; [|lia].
      rewrite <- Hrow. f_equal. lia.
    + rewrite lookup_app_r by lia.
      rewrite lookup_drop, <- Hz. f_equal. lia.
  - rewrite lookup_app_l by (rewrite length_take, length_zeros_like; lia).
    rewrite lookup_take.
    destruct (decide (r < a)%nat) as [_|Hn]; [done|lia].
Qed.

(** ** Indexing *)

Lemma py_getitem_nat {A} (l : list A) (k : nat) :
  py_getitem l (Z.of_nat k)
  = match l !! k with
    | Some a => Ok a
    | None => Raise IndexError
    end.
Proof.
  unfold py_getitem.
  destruct (Z.ltb_spec (Z.of_nat k) 0) as [?|_]; [lia|].
  destruct (Z.ltb_spec (Z.of_nat k) 0) as [?|_]; [lia|].
  by rewrite Nat2Z.id.
Qed.

Lemma py_getitem_Some {A} (l : list A) (k : nat) (a : A) :
  l !! k = Some a -> py_getitem l (Z.of_nat k) = Ok a.
Proof. intros H. by rewrite py_getitem_nat, H. Qed.

(** ** The Evaluator over a task list *)

Section EvaluatorTasks.

Variable predict : matrix -> image -> label -> bool.

(** Multi-head evaluation from task [k] on: one accuracy per remaining
    entry of [test_tasks], each the whole-set score of its task. *)
Lemma eval_tasks_multi_head (test_data : list task_data)
    (class_attrs : matrix) (num_classes_per_task : Z) (key : test_set_key) :
  Forall (fun d => 10 <= Z.of_nat (length (images (get_split d key))))
    test_data ->
  forall (test_tasks : list (list label)) (k : nat) (loc : eval_locals)
         (list_acc : list accuracy),
    (k + length test_tasks <= length test_data)%nat ->
    eval_tasks predict test_data class_attrs num_classes_per_task key false
      test_tasks (Z.of_nat k) loc list_acc
    = Ok (list_acc ++
          imap (fun j d =>
                  whole_pass predict
                    (attr_mask class_attrs (Z.of_nat (k + j))
                       num_classes_per_task)
                    (get_split d key))
            (take (length test_tasks) (drop k test_data))).
Proof.
  intros Hall. induction test_tasks as [|labels rest IH];
    intros k loc list_acc Hlen.
  - simpl. by rewrite app_nil_r.
  - simpl in Hlen.
    destruct (test_data !! k) as [d|] eqn:Hd.
    2: { apply lookup_ge_None in Hd. lia. }
    cbn [eval_tasks].
    rewrite (eval_one_task_multi_head predict _ _ _ _ _ _ d).
    2: by apply py_getitem_Some.
    2: { rewrite Forall_lookup in Hall. by apply (Hall k). }
    cbn [rbind].
    replace (Z.of_nat k + 1) with (Z.of_nat (S k)) by lia.
    rewrite IH by lia.
    rewrite (drop_S _ _ _ Hd). cbn [length take imap].
    rewrite <- app_assoc. cbn [app]. do 3 f_equal.
    + do 3 f_equal. lia.
    + apply imap_ext. intros j d' _. simpl. do 3 f_equal. lia.
Qed.

End EvaluatorTasks.

(** ** Computations and their traces *)

Lemma fst_bind_Raise {A B} (m : M A) (f : A -> M B) (e : exn) :
  m.2 = Raise e -> bind m f = (m.1, Raise e).
Proof. destruct m as [tr [a|e']]; simpl; intros H; by inversion H. Qed.

Lemma bind_Ok {A B} (m : M A) (f : A -> M B) (a : A) :
  m.2 = Ok a -> bind m f = (m.1 ++ (f a).1, (f a).2).
Proof.
  destruct m as [tr [a'|e']]; simpl; intros H; inversion H; subst.
  by destruct (f a).
Qed.

Lemma bind_Ok_inv {A B} (m : M A) (f : A -> M B) (b : B) :
  (bind m f).2 = Ok b ->
  exists a, m.2 = Ok a /\ (f a).2 = Ok b
            /\ (bind m f).1 = m.1 ++ (f a).1.
Proof.
  destruct m as [tr [a|e]]; simpl.
  - destruct (f a) as [tr' r] eqn:E. simpl. intros ->.
    exists a. by rewrite E.
  - done.
Qed.

Lemma bind_lift {A B} (r : result A) (f : A -> M B) :
  bind (lift r) f = match r with
                    | Ok a => f a
                    | Raise e => ([], Raise e)
                    end.
Proof. destruct r as [a|e]; simpl; [|done]. by destruct (f a). Qed.

Lemma bind_ret {A B} (a : A) (f : A -> M B) : bind (ret a) f = f a.
Proof. unfold ret, bind. by destruct (f a). Qed.

Lemma bind_emit {B} (e : event) (f : unit -> M B) :
  bind (emit e) f = (e :: (f tt).1, (f tt).2).
Proof. unfold emit, bind. by destruct (f tt). Qed.

(** A property of every event passes through [bind] and the loops. *)
Lemma Forall_bind {A B} (Q : event -> Prop) (m : M A) (f : A -> M B) :
  Forall Q m.1 -> (forall a, Forall Q (f a).1) -> Forall Q (bind m f).1.
Proof.
  intros Hm Hf. destruct m as [tr [a|e]]; simpl in *; [|done].
  specialize (Hf a). destruct (f a) as [tr' r]. simpl in *.
  by apply Forall_app.
Qed.

Lemma Forall_for_range {S} (Q : event -> Prop) (body : Z -> S -> M S) :
  (forall i s, Forall Q (body i s).1) ->
  forall range s, Forall Q (for_range body range s).1.
Proof.
  intros Hb. induction range as [|i rest IH]; intros s; simpl.
  - constructor.
  - apply Forall_bind; [apply Hb|]. intros s'. apply IH.
Qed.


Lemma for_range_app {S} (body : Z -> S -> M S) (r1 r2 : list Z) (s : S) :
  for_range body (r1 ++ r2) s
  = bind (for_range body r1 s) (for_range body r2).
Proof.
  revert s. induction r1 as [|i r1 IH]; intros s; simpl.
  - by destruct (for_range body r2 s).
  - destruct (body i s) as [tr [s'|e]]; simpl; [|done].
    rewrite IH.
    destruct (for_range body r1 s') as [tr1 [s1|e1]]; simpl; [|done].
    destruct (for_range body r2 s1) as [tr2 r]. by rewrite app_assoc.
Qed.

Lemma for_iters_app {S} (body : Z -> S -> M (S * bool)) (r1 r2 : list Z)
    (s : S) :
  for_iters body (r1 ++ r2) s
  = bind (for_iters body r1 s)
      (fun '(s', brk) => if brk : bool then ret (s', true)
                         else for_iters body r2 s').
Proof.
  revert s. induction r1 as [|i r1 IH]; intros s; simpl.
  - by destruct (for_iters body r2 s).
  - destruct (body i s) as [tr [[s' [|]]|e]]; simpl; [ | |done].
    + by rewrite !app_nil_r.
    + rewrite IH.
      destruct (for_iters body r1 s') as [tr1 [[s1 [|]]|e1]]; simpl;
        [by rewrite !app_nil_r| |done].
      destruct (for_iters body r2 s1) as [tr2 r]. by rewrite app_assoc.
Qed.

Lemma py_range_S (n : nat) :
  py_range (Z.of_nat (S n)) = py_range (Z.of_nat n) ++ [Z.of_nat n].
Proof.
  rewrite !py_range_seq. rewrite seq_S, map_app. done.
Qed.

Lemma py_range_split (k n : Z) :
  0 <= k <= n ->
  py_range n
  = py_range k ++ map (fun j => k + Z.of_nat j) (seq 0 (Z.to_nat (n - k))).
Proof.
  intros H. unfold py_range.
  replace (Z.to_nat n) with (Z.to_nat k + Z.to_nat (n - k))%nat by lia.
  rewrite seq_app, map_app. f_equal.
  simpl (0 + _)%nat.
  rewrite <- (Nat.add_0_r (Z.to_nat k)) at 1.
  rewrite <- fmap_add_seq.
  change (map Z.of_nat (Nat.add (Z.to_nat k) <$> seq 0 (Z.to_nat (n - k))))
    with (Z.of_nat <$> (Nat.add (Z.to_nat k) <$> seq 0 (Z.to_nat (n - k)))).
  rewrite <- list_fmap_compose.
  apply list_fmap_ext. intros _ j _. simpl. lia.
Qed.

Lemma length_py_range (n : Z) : length (py_range n) = Z.to_nat n.
Proof. unfold py_range. by rewrite length_map, length_seq. Qed.

Lemma bind_assoc {A B D} (m : M A) (f : A -> M B) (g : B -> M D) :
  bind (bind m f) g = bind m (fun a => bind (f a) g).
Proof.
  destruct m as [tr [a|e]]; simpl; [|done].
  destruct (f a) as [tr1 [b|e]]; simpl; [|done].
  destruct (g b) as [tr2 r]. by rewrite app_assoc.
Qed.

Lemma unique_split {A} (Q : A -> Prop) (pre post pre0 post0 : list A)
    (e e0 : A) :
  pre ++ e :: post = pre0 ++ e0 :: post0 ->
  Forall (fun a => ~ Q a) pre ->
  Forall (fun a => ~ Q a) post ->
  Q e0 ->
  pre0 = pre /\ e0 = e /\ post0 = post.
Proof.
  revert pre0. induction pre as [|a pre IH]; intros pre0 Heq Hpre Hpost Hq.
  - destruct pre0 as [|b pre0]; simpl in Heq; inversion Heq; subst; [done|].
    apply Forall_app in Hpost as [_ Hpost].
    apply Forall_cons in Hpost as [Hn _]. done.
  - apply Forall_cons in Hpre as [Ha Hpre].
    destruct pre0 as [|b pre0]; simpl in Heq; inversion Heq; subst; [done|].
    destruct (IH pre0) as (-> & -> & ->); done.
Qed.

Lemma bind_ext {A B} (m : M A) (f g : A -> M B) :
  (forall a, f a = g a) -> bind m f = bind m g.
Proof. intros H. destruct m as [tr [a|e]]; simpl; [|done]. by rewrite H. Qed.

(** ** The assembled training set *)

Lemma length_np_take {A} (arr : list A) (perm : list Z) (l : list A) :
  np_take arr perm = Ok l -> length l = length perm.
Proof.
  revert l. induction perm as [|i perm IH]; intros l; simpl.
  - by intros [= <-].
  - destruct (py_getitem arr i) as [a|e]; simpl; [|done].
    destruct (np_take arr perm) as [rest|e]; simpl; [|done].
    intros [= <-]. simpl. f_equal. by apply IH.
Qed.

Lemma length_swap {A} (l : list A) (i j : nat) : length (swap l i j) = length l.
Proof.
  unfold swap. destruct (l !! i), (l !! j); try done.
  by rewrite !length_insert.
Qed.

Lemma length_shuffle_down {A} (draw : nat -> nat) (i : nat) (l : list A) :
  length (shuffle_down draw i l) = length l.
Proof.
  revert l. induction i as [|i IH]; intros l; simpl; [done|].
  by rewrite IH, length_swap.
Qed.

Lemma length_np_random_shuffle {A} (draw : nat -> nat) (l : list A) :
  length (np_random_shuffle draw l) = length l.
Proof. apply length_shuffle_down. Qed.

Ltac bind_inv H :=
  let a := fresh "a" in
  let Ha := fresh "Ha" in
  let Htr := fresh "Htr" in
  apply bind_Ok_inv in H as (a & Ha & H & Htr).

Section SetupFacts.

Variable C : collaborators.
Variable P : params.

Lemma task_setup_eq (runid task : Z) (st : run_state) :
  task_setup C P runid task st
  = (if 0 <? task then [restore runid task] else [],
     assemble_task C P runid task st).
Proof.
  unfold task_setup. destruct (0 <? task).
  - rewrite bind_emit. unfold lift. simpl. done.
  - by rewrite bind_ret.
Qed.

(** The three arrays the batches are cut from have as many entries as
    the assembled training set, and the run state only gains the labels
    of the task. *)
Lemma assemble_task_Ok (runid task : Z) (st st' : run_state)
    (env : task_env) :
  assemble_task C P runid task st = Ok (env, st') ->
  (0 <= num_train_examples env
   /\ length (train_x env) = Z.to_nat (num_train_examples env)
   /\ length (train_y env) = Z.to_nat (num_train_examples env)
   /\ length (task_sample_weights env) = Z.to_nat (num_train_examples env))
  /\ (task_based_memory st' = task_based_memory st
      /\ last_task_x st' = last_task_x st
      /\ last_task_y_ st' = last_task_y_ st
      /\ loss_world st' = loss_world st
      /\ i_am_increasing st' = i_am_increasing st
      /\ evals st' = evals st).
Proof.
  unfold assemble_task. intros H.
  destruct (py_getitem (datasets P) task) as [d|]; cbn [rbind] in H; [|done].
  destruct (if do_sampling P && (0 <? task) then _ else _)
    as [imgs lbls] in H.
  destruct (py_getitem (task_labels P) task) as [labels_t|];
    cbn [rbind] in H; [|done].
  destruct (if train_single_epoch P then _ else _) as [n|] in H;
    cbn [rbind] in H; [|done].
  destruct (np_take imgs _) as [x|] eqn:Hx; cbn [rbind] in H; [|done].
  destruct (np_take lbls _) as [y|] eqn:Hy; cbn [rbind] in H; [|done].
  destruct (np_take _ _) as [w|] eqn:Hw in H; cbn [rbind] in H; [|done].
  inversion H; subst; clear H. cbn.
  apply length_np_take in Hx, Hy, Hw.
  rewrite length_np_random_shuffle, length_py_range in Hx, Hy, Hw.
  repeat split; (lia || done).
Qed.

End SetupFacts.

(** ** A NaN loss ends the process *)

Lemma app_eq_app_cons {A} (l1 l2 pre post : list A) (e : A) :
  l1 ++ l2 = pre ++ e :: post ->
  e ∈ l1 \/ exists pre', pre = l1 ++ pre' /\ l2 = pre' ++ e :: post.
Proof.
  revert pre. induction l1 as [|a l1 IH]; intros pre H.
  - right. by exists pre.
  - destruct pre as [|b pre]; simpl in H; inversion H; subst.
    + left. constructor.
    + destruct (IH pre) as [Hin|(pre' & -> & ->)]; [done| |].
      * left. by constructor.
      * right. by exists pre'.
Qed.

Section NanFacts.

Variable C : collaborators.

Lemma stops_at_nan_bind {A B} (m : M A) (f : A -> M B) :
  stops_at_nan C m -> (forall a, stops_at_nan C (f a)) ->
  stops_at_nan C (bind m f).
Proof.
  intros Hm Hf. destruct m as [tr [a|ex]]; [|exact Hm].
  specialize (Hf a). unfold stops_at_nan in *. simpl in *.
  destruct (f a) as [tr' [b|ex]]; simpl in *.
  - by apply Forall_app.
  - intros pre ev post Heq Hnan.
    apply app_eq_app_cons in Heq as [Hin|(pre' & -> & ->)].
    + rewrite Forall_forall in Hm.
      specialize (Hm ev Hin). congruence.
    + by apply (Hf pre' ev post).
Qed.

Lemma stops_at_nan_quiet {A} (m : M A) :
  Forall (fun e => fetches_loss e = None) m.1 -> stops_at_nan C m.
Proof.
  intros H. unfold stops_at_nan.
  assert (Hq : Forall (fun e => nan_loss_event C e = false) m.1).
  { eapply Forall_impl; [exact H|]. intros e He. unfold nan_loss_event.
    by rewrite He. }
  destruct m.2; [done|].
  intros pre ev post Heq Hnan. rewrite Heq in Hq.
  apply Forall_app in Hq as [_ Hq]. apply Forall_cons in Hq as [Hq _].
  congruence.
Qed.

Lemma stops_at_nan_for_range {S} (body : Z -> S -> M S) :
  (forall i s, stops_at_nan C (body i s)) ->
  forall range s, stops_at_nan C (for_range body range s).
Proof.
  intros Hb. induction range as [|i rest IH]; intros s; simpl.
  - by apply stops_at_nan_quiet.
  - apply stops_at_nan_bind; [apply Hb|]. intros s'. apply IH.
Qed.

Lemma stops_at_nan_for_iters {S} (body : Z -> S -> M (S * bool)) :
  (forall i s, stops_at_nan C (body i s)) ->
  forall range s, stops_at_nan C (for_iters body range s).
Proof.
  intros Hb. induction range as [|i rest IH]; intros s; simpl.
  - by apply stops_at_nan_quiet.
  - apply stops_at_nan_bind; [apply Hb|].
    intros [s' [|]]; [by apply stops_at_nan_quiet|apply IH].
Qed.

End NanFacts.

Ltac split_trace_at_loss :=
  let finish :=
    (split; [reflexivity|];
     split; [by repeat constructor|];
     split; [reflexivity|];
     by repeat constructor) in
  first
    [ eexists [], _, _; finish
    | eexists [_], _, _; finish
    | eexists [_; _], _, _; finish
    | eexists [_; _; _], _, _; finish
    | eexists [_; _; _; _], _, _; finish
    | eexists [_; _; _; _; _], _, _; finish
    | eexists [_; _; _; _; _; _], _, _; finish ].

Section StepShape.

Variable C : collaborators.
Variable P : params.

Lemma gem_prev_task_grads_quiet (runid task iters : Z)
    (memory : list task_memory) :
  Forall (fun e => fetches_loss e = None)
    (gem_prev_task_grads runid task iters memory).1.
Proof.
  unfold gem_prev_task_grads. apply Forall_for_range.
  intros i []. rewrite bind_lift.
  destruct (py_getitem memory i); simpl; repeat constructor.
Qed.

(** The step of a method either raises before it fetches a loss, or
    fetches the loss of its step exactly once and then only finishes the
    step. *)
Lemma method_step_shape (runid task iters : Z) (memory : list task_memory)
    (fd : feed) :
  let m := method_step C P runid task iters memory fd in
  match m.2 with
  | Raise _ => Forall (fun e => fetches_loss e = None) m.1
  | Ok loss =>
      loss = loss_at C runid task iters
      /\ exists pre e post,
           m.1 = pre ++ e :: post
           /\ Forall (fun e' => fetches_loss e' = None) pre
           /\ fetches_loss e = Some (runid, task, iters)
           /\ Forall (fun e' => fetches_loss e' = None
                                /\ of_step runid task iters e') post
  end.
Proof.
  unfold method_step.
  destruct (imp_method P).
  - cbn. split; [done|]. split_trace_at_loss.
  - cbn. split; [done|]. split_trace_at_loss.
  - destruct ((task =? 0) && (iters =? 0));
      destruct (py_mod (iters + 1) (fisher_update_after P)) as [r|ex];
      cbn;
      repeat match goal with
             | |- context [if ?c then _ else _] => destruct c
             end;
      cbn; try (by repeat constructor);
      (split; [done|]); split_trace_at_loss.
  - cbn. split; [done|]. split_trace_at_loss.
  - destruct (task =? 0).
    + cbn. split; [done|]. split_trace_at_loss.
    + pose proof (gem_prev_task_grads_quiet runid task iters memory) as Hq.
      destruct (gem_prev_task_grads runid task iters memory)
        as [tr [[]|ex]]; cbn in *; [|done].
      split; [done|].
      eexists tr, _, _. split; [reflexivity|].
      split; [done|]. split; [reflexivity|]. by repeat constructor.
  - destruct ((task =? 0) && (iters =? 0));
      destruct (py_mod (iters + 1) (fisher_update_after P)) as [r|ex];
      cbn;
      repeat match goal with
             | |- context [if ?c then _ else _] => destruct c
             end;
      cbn; try (by repeat constructor);
      (split; [done|]); split_trace_at_loss.
Qed.

End StepShape.

Section NanRun.

Variable C : collaborators.
Variable P : params.

Lemma not_sess_run_quiet (tr : list event) :
  Forall not_sess_run tr -> Forall (fun e => fetches_loss e = None) tr.
Proof. intros H. eapply Forall_impl; [exact H|]. by intros []. Qed.

Lemma call_test_task_sequence_silent (runid task : Z) (iters : option Z)
    (cv : bool) :
  Forall not_sess_run (call_test_task_sequence C P runid task iters cv).1.
Proof.
  unfold call_test_task_sequence. rewrite bind_emit. simpl.
  by repeat constructor.
Qed.

Lemma call_test_task_sequence_quiet (runid task : Z) (iters : option Z)
    (cv : bool) :
  Forall (fun e => fetches_loss e = None)
    (call_test_task_sequence C P runid task iters cv).1.
Proof. apply not_sess_run_quiet, call_test_task_sequence_silent. Qed.

(** The step of the method followed by the NaN test of line 327 *)
Lemma method_step_then_check {A} (runid task iters : Z)
    (memory : list task_memory) (fd : feed) (k : float_val -> A) :
  stops_at_nan C
    (let+ loss := method_step C P runid task iters memory fd in
     let+ _ := if isnan loss then lift (Raise (SystemExit 0)) else ret tt in
     ret (k loss)).
Proof.
  pose proof (method_step_shape C P runid task iters memory fd) as H.
  cbv zeta in H.
  destruct (method_step C P runid task iters memory fd) as [tr [loss|ex]];
    cbn [fst snd] in H.
  - destruct H as (-> & pre & e & post & -> & Hpre & He & Hpost).
    cbn [bind]. destruct (isnan (loss_at C runid task iters)) eqn:Hnan.
    + cbn. rewrite app_nil_r. unfold stops_at_nan. cbn [fst snd].
      intros pre0 ev post0 Heq Hev. split; [done|].
      exists runid, task, iters.
      apply (unique_split (fun a => fetches_loss a <> None)) in Heq
        as (-> & -> & ->).
      * split; [done|]. eapply Forall_impl; [exact Hpost|]. by intros ? [].
      * eapply Forall_impl; [exact Hpre|]. intros a Ha Hn. done.
      * eapply Forall_impl; [exact Hpost|]. intros a [Ha _] Hn. done.
      * unfold nan_loss_event in Hev. by destruct (fetches_loss ev).
    + cbn. rewrite app_nil_r. unfold stops_at_nan. cbn [fst snd].
      apply Forall_app. split; [|apply Forall_cons; split].
      * eapply Forall_impl; [exact Hpre|]. intros a Ha.
        unfold nan_loss_event. by rewrite Ha.
      * unfold nan_loss_event. by rewrite He.
      * eapply Forall_impl; [exact Hpost|]. intros a [Ha _].
        unfold nan_loss_event. by rewrite Ha.
  - cbn [bind]. by apply stops_at_nan_quiet.
Qed.

Lemma train_iteration_stops_at_nan (runid task : Z)
    (memory : list task_memory) (env : task_env) (iters : Z)
    (ls : loop_state) :
  stops_at_nan C (train_iteration C P runid task memory env iters ls).
Proof.
  unfold train_iteration, train_step.
  rewrite !bind_assoc. apply stops_at_nan_bind.
  - apply stops_at_nan_quiet.
    destruct (train_single_epoch P && negb (cross_validate_mode P));
      [|constructor].
    destruct (_ || _); [|constructor].
    apply Forall_bind; [apply call_test_task_sequence_quiet|].
    intros a. constructor.
  - intros ft. rewrite bind_assoc. apply stops_at_nan_bind.
    + apply stops_at_nan_quiet. constructor.
    + intros offset. rewrite bind_assoc.
      pose proof (method_step_then_check runid task iters memory
                    (batch_feed_dict P env iters offset)
                    (fun loss =>
                       let '(loss_world, i_am_increasing, brk) :=
                         early_stopping_check iters loss (ls_loss_world ls)
                           (ls_i_am_increasing ls) in
                       ({| ftask := ft;
                           ls_loss_world := loss_world;
                           ls_i_am_increasing := i_am_increasing |}, brk)))
        as H.
      match goal with
      | |- stops_at_nan _ ?m =>
          match type of H with
          | stops_at_nan _ ?m' => replace m with m'; [exact H|]
          end
      end.
      apply bind_ext. intros loss. rewrite bind_ret.
      apply bind_ext. intros _.
      by destruct (early_stopping_check _ _ _ _) as [[? ?] ?].
Qed.

Lemma task_boundary_silent (runid task : Z) (st : run_state) :
  Forall not_sess_run (task_boundary C P runid task st).1.
Proof.
  unfold task_boundary. destruct (task <? len_datasets P - 1); [|constructor].
  rewrite bind_lift. destruct (py_getitem (task_labels P) task); [|constructor].
  rewrite bind_emit. cbn [fst]. constructor; [done|].
  rewrite bind_lift. destruct (py_getitem (datasets P) task); [|constructor].
  destruct (if do_sampling P then _ else _). constructor.
Qed.

Lemma task_evaluation_silent (runid task : Z) (ft : list (list accuracy))
    (st : run_state) :
  Forall not_sess_run (task_evaluation C P runid task ft st).1.
Proof.
  unfold task_evaluation. apply Forall_bind.
  - destruct (train_single_epoch P && negb (cross_validate_mode P)).
    + apply Forall_bind; [apply call_test_task_sequence_silent|].
      intros a. constructor.
    + apply Forall_bind; [apply call_test_task_sequence_silent|].
      intros _. apply Forall_bind; [apply call_test_task_sequence_silent|].
      intros a. constructor.
  - intros a. rewrite bind_emit. cbn. by repeat constructor.
Qed.

Lemma after_training_silent (runid task : Z) (st : run_state)
    (ls : loop_state) :
  Forall not_sess_run (after_training C P runid task st ls).1.
Proof.
  unfold after_training. apply Forall_bind.
  - apply task_boundary_silent.
  - intros st'. apply task_evaluation_silent.
Qed.

Lemma run_task_stops_at_nan (runid task : Z) (st : run_state) :
  stops_at_nan C (run_task C P runid task st).
Proof.
  unfold run_task. apply stops_at_nan_bind.
  - apply stops_at_nan_quiet. rewrite task_setup_eq. cbn [fst].
    destruct (0 <? task); by repeat constructor.
  - intros [env st']. apply stops_at_nan_bind.
    + apply stops_at_nan_for_iters. intros i s.
      apply train_iteration_stops_at_nan.
    + intros [ls brk]. apply stops_at_nan_quiet.
      apply not_sess_run_quiet, after_training_silent.
Qed.

Lemma one_run_stops_at_nan (runid : Z) :
  stops_at_nan C (one_run C P runid).
Proof.
  unfold one_run. apply stops_at_nan_bind.
  - apply stops_at_nan_quiet. by repeat constructor.
  - intros _. apply stops_at_nan_for_range. intros task st.
    apply run_task_stops_at_nan.
Qed.

Lemma train_task_sequence_stops_at_nan :
  stops_at_nan C (train_task_sequence C P).
Proof.
  unfold train_task_sequence. apply stops_at_nan_for_range.
  intros runid runs. apply stops_at_nan_bind.
  - apply one_run_stops_at_nan.
  - intros st. apply stops_at_nan_quiet. constructor.
Qed.

End NanRun.

(** ** The [sess.run]s of a run under EWC *)

Lemma ops_of_app (a b : list event) : ops_of (a ++ b) = ops_of a ++ ops_of b.
Proof. unfold ops_of. apply flat_map_app. Qed.

Lemma ops_of_silent (tr : list event) : Forall not_sess_run tr -> ops_of tr = [].
Proof.
  induction 1 as [|e tr He _ IH]; [done|].
  unfold ops_of in *. simpl. rewrite IH. by destruct e.
Qed.

Section EwcFacts.

Variable C : collaborators.
Variable P : params.
Hypothesis Hmethod : imp_method P = EWC.
Hypothesis Hafter : fisher_update_after P = 50.

Lemma method_step_ewc (runid task iters : Z) (memory : list task_memory)
    (fd : feed) :
  (method_step C P runid task iters memory fd).2
  = Ok (loss_at C runid task iters)
  /\ ops_of (method_step C P runid task iters memory fd).1
     = ewc_step_ops runid task iters.
Proof.
  unfold method_step, ewc_step_ops. rewrite Hmethod, Hafter.
  unfold py_mod. change (50 =? 0) with false. cbv iota.
  rewrite bind_lift.
  destruct ((task =? 0) && (iters =? 0));
    destruct ((iters + 1) mod 50 =? 0); cbn; done.
Qed.

(** A turn of the loop performs the [sess.run]s of its step, or none
    when it raises before the step. *)
Lemma train_iteration_ewc (runid task : Z) (memory : list task_memory)
    (env : task_env) (iters : Z) (ls : loop_state) :
  let m := train_iteration C P runid task memory env iters ls in
  ops_of m.1 = ewc_step_ops runid task iters
  \/ (ops_of m.1 = [] /\ exists ex, m.2 = Raise ex).
Proof.
  cbv zeta. unfold train_iteration, train_step.
  rewrite !bind_assoc.
  match goal with
  | |- context [bind ?m _] =>
      assert (Hs : Forall not_sess_run m.1);
      [|destruct m as [tr0 [ft|ex]]]
  end.
  { destruct (train_single_epoch P && negb (cross_validate_mode P));
      [|constructor].
    destruct (_ || _); [|constructor].
    apply Forall_bind; [apply call_test_task_sequence_silent|].
    intros a. constructor. }
  2: { right. cbn. split; [by apply ops_of_silent|eauto]. }
  cbn [fst] in Hs. apply ops_of_silent in Hs.
  cbn [bind]. rewrite bind_assoc, bind_lift.
  destruct (batch_offset P iters (num_train_examples env)) as [offset|ex].
  2: { right. cbn. rewrite app_nil_r. eauto. }
  rewrite bind_assoc.
  destruct (method_step_ewc runid task iters memory
              (batch_feed_dict P env iters offset)) as [Hr Hops].
  destruct (method_step C P runid task iters memory
              (batch_feed_dict P env iters offset)) as [tr1 r1].
  cbn [fst snd] in Hr, Hops. subst r1. cbn [bind].
  rewrite bind_ret.
  left.
  destruct (isnan (loss_at C runid task iters)).
  - cbn. rewrite app_nil_r, ops_of_app, Hs, Hops. done.
  - rewrite bind_ret.
    destruct (early_stopping_check _ _ _ _) as [[lw c] brk].
    cbn. rewrite !app_nil_r, ops_of_app, Hs, Hops. done.
Qed.

(** The loop performs the steps of an initial part of its range. *)
Lemma train_loop_ewc (runid task : Z) (memory : list task_memory)
    (env : task_env) :
  forall (range : list Z) (ls : loop_state),
    exists c : nat,
      (c <= length range)%nat
      /\ ops_of (train_loop C P runid task memory env range ls).1
         = flat_map (ewc_step_ops runid task) (take c range).
Proof.
  unfold train_loop.
  induction range as [|i rest IH]; intros ls.
  - exists 0%nat. by split.
  - cbn [for_iters].
    pose proof (train_iteration_ewc runid task memory env i ls) as Hit.
    cbv zeta in Hit.
    destruct (train_iteration C P runid task memory env i ls)
      as [tr [[ls' brk]|ex]]; cbn [fst snd] in Hit; cbn [bind].
    + destruct Hit as [Hit|[_ [ex Hex]]]; [|done].
      destruct brk.
      * exists 1%nat. cbn. rewrite !app_nil_r. split; [lia|done].
      * destruct (IH ls') as (c & Hc & Hops).
        destruct (for_iters _ rest ls') as [tr' r'].
        cbn [fst] in *. exists (S c). split; [simpl; lia|].
        rewrite ops_of_app, Hit, Hops. done.
    + destruct Hit as [Hit|[Hit _]].
      * exists 1%nat. cbn. rewrite !app_nil_r. split; [lia|done].
      * exists 0%nat. cbn. split; [lia|done].
Qed.

Lemma take_py_range (c : nat) (n : Z) :
  (c <= length (py_range n))%nat ->
  take c (py_range n) = py_range (Z.of_nat c).
Proof.
  rewrite length_py_range. intros Hc.
  rewrite py_range_seq. unfold py_range.
  rewrite firstn_map. f_equal.
  rewrite take_seq. f_equal. lia.
Qed.

Lemma run_task_ewc (runid : Z) (task : nat) (st : run_state) :
  exists c : nat,
    ops_of (run_task C P runid (Z.of_nat task) st).1
    = ewc_task_ops runid task c.
Proof.
  unfold run_task. rewrite task_setup_eq.
  set (tr0 := if 0 <? Z.of_nat task then _ else _).
  assert (H0 : ops_of tr0 = []).
  { subst tr0. by destruct (0 <? Z.of_nat task). }
  destruct (assemble_task C P runid (Z.of_nat task) st) as [[env st']|ex].
  2: { exists 0%nat. cbn. done. }
  cbn [bind].
  destruct (train_loop_ewc runid (Z.of_nat task) (task_based_memory st') env
              (py_range (num_iters env))
              {| ftask := [];
                 ls_loss_world := loss_world st';
                 ls_i_am_increasing := i_am_increasing st' |})
    as (c & Hc & Hops).
  rewrite take_py_range in Hops by done.
  exists c. unfold ewc_task_ops.
  destruct (train_loop _ _ _ _ _ _ _ _) as [tr1 [[ls brk]|ex]];
    cbn [fst snd] in *.
  - pose proof (after_training_silent C P runid (Z.of_nat task) st' ls) as Hs.
    apply ops_of_silent in Hs.
    cbn [fst snd bind] in *.
    destruct (after_training _ _ _ _ _ _) as [tr2 r2].
    cbn [fst snd] in *.
    rewrite !ops_of_app, H0, Hops, Hs, app_nil_r. done.
  - cbn. rewrite ops_of_app, H0, Hops. done.
Qed.

End EwcFacts.

Section EwcRun.

Variable C : collaborators.
Variable P : params.
Hypothesis Hmethod : imp_method P = EWC.
Hypothesis Hafter : fisher_update_after P = 50.

(** The tasks [k, k+1, ...] perform, one after the other, the steps of an
    initial part of their loops; a task that raises ends the list. *)
Lemma run_tasks_ewc (runid : Z) :
  forall (n k : nat) (st : run_state),
    exists counts : list nat,
      (length counts <= n)%nat
      /\ ops_of (run_tasks C P runid (map Z.of_nat (seq k n)) st).1
         = concat (imap (fun j c => ewc_task_ops runid (k + j) c) counts).
Proof.
  unfold run_tasks.
  induction n as [|n IH]; intros k st.
  - exists []. by split.
  - cbn [seq map for_range].
    destruct (run_task_ewc C P Hmethod Hafter runid k st) as [c Hc].
    destruct (run_task C P runid (Z.of_nat k) st) as [tr [st'|ex]];
      cbn [fst] in Hc; cbn [bind].
    + destruct (IH (S k) st') as (counts & Hlen & Hops).
      destruct (for_range _ _ st') as [tr' r']. cbn [fst snd] in *.
      exists (c :: counts). split; [simpl; lia|].
      rewrite ops_of_app, Hc, Hops. cbn [imap concat].
      rewrite Nat.add_0_r. f_equal. f_equal.
      apply imap_ext. intros j c' _. simpl. f_equal. lia.
    + exists [c]. split; [simpl; lia|].
      cbn [fst imap concat]. rewrite Hc, app_nil_r, Nat.add_0_r. done.
Qed.

Lemma one_run_ewc (runid : Z) :
  exists counts : list nat,
    (length counts <= length (datasets P))%nat
    /\ ops_of (one_run C P runid).1
       = concat (imap (ewc_task_ops runid) counts).
Proof.
  unfold one_run. rewrite bind_emit. cbn [fst].
  unfold len_datasets. rewrite py_range_seq.
  destruct (run_tasks_ewc runid (length (datasets P)) 0 initial_run_state)
    as (counts & Hlen & Hops).
  exists counts. split; [done|].
  change (init_run runid :: ?l) with ([init_run runid] ++ l).
  rewrite ops_of_app. cbn [ops_of flat_map step_fetches app].
  exact Hops.
Qed.

End EwcRun.

(** Only the first step of the first task sets up the running estimate. *)
Lemma times_initialised_app (a b : list (Z * Z * Z * list model.op)) :
  times_initialised (a ++ b) = (times_initialised a + times_initialised b)%nat.
Proof. unfold times_initialised. by rewrite List.filter_app, length_app. Qed.

Lemma times_initialised_step (runid task iters : Z) :
  times_initialised (ewc_step_ops runid task iters)
  = if (task =? 0) && (iters =? 0) then 1%nat else 0%nat.
Proof.
  unfold ewc_step_ops.
  destruct ((task =? 0) && (iters =? 0)); destruct ((iters + 1) mod 50 =? 0);
    reflexivity.
Qed.

Lemma times_initialised_steps (runid task : Z) (a c : nat) :
  times_initialised
    (flat_map (ewc_step_ops runid task) (map Z.of_nat (seq a c)))
  = if (task =? 0) && (a =? 0)%nat && negb (c =? 0)%nat then 1%nat else 0%nat.
Proof.
  revert a. induction c as [|c IH]; intros a.
  - cbn. by rewrite andb_false_r.
  - cbn [seq map flat_map]. rewrite times_initialised_app, IH,
      times_initialised_step.
    cbn [Nat.eqb negb]. rewrite andb_false_r, andb_true_r, Nat.add_0_r.
    destruct a as [|a]; [reflexivity|].
    destruct (Z.eqb_spec (Z.of_nat (S a)) 0) as [?|_]; [lia|].
    cbn [Nat.eqb]. by rewrite !andb_false_r.
Qed.

Lemma times_initialised_task (runid : Z) (task c : nat) :
  times_initialised (ewc_task_ops runid task c)
  = if (task =? 0)%nat && negb (c =? 0)%nat then 1%nat else 0%nat.
Proof.
  unfold ewc_task_ops. rewrite py_range_seq, times_initialised_steps.
  destruct task as [|task]; [by destruct c|].
  destruct (Z.eqb_spec (Z.of_nat (S task)) 0) as [?|_]; [lia|].
  done.
Qed.

Lemma times_initialised_later (runid : Z) (counts : list nat) (k : nat) :
  times_initialised
    (concat (imap (fun j c => ewc_task_ops runid (S k + j) c) counts))
  = 0%nat.
Proof.
  revert k. induction counts as [|c counts IH]; intros k; [done|].
  cbn [imap concat]. rewrite times_initialised_app, times_initialised_task.
  cbn [Nat.add Nat.eqb andb].
  erewrite imap_ext; [apply (IH (S k))|].
  intros j c' _. simpl. f_equal. lia.
Qed.

Lemma times_initialised_run (runid : Z) (counts : list nat) :
  times_initialised (concat (imap (ewc_task_ops runid) counts))
  = match counts with
    | S _ :: _ => 1%nat
    | _ => 0%nat
    end.
Proof.
  destruct counts as [|c counts]; [done|].
  cbn [imap concat]. rewrite times_initialised_app, times_initialised_task.
  pose proof (times_initialised_later runid counts 0) as H.
  erewrite imap_ext in H; [rewrite H|].
  - by destruct c.
  - intros j c' _. done.
Qed.

(** ** Early stopping *)

Lemma for_iters_break_prefix {S} (body : Z -> S -> M (S * bool))
    (r1 r2 : list Z) (s s' : S) :
  (for_iters body r1 s).2 = Ok (s', true) ->
  for_iters body (r1 ++ r2) s = for_iters body r1 s.
Proof.
  intros H. rewrite for_iters_app.
  destruct (for_iters body r1 s) as [tr [[s1 b]|e]]; simpl in H; [|done].
  injection H as -> ->. simpl. by rewrite app_nil_r.
Qed.

Lemma for_iters_continue {S} (body : Z -> S -> M (S * bool))
    (r1 r2 : list Z) (s s' : S) :
  (for_iters body r1 s).2 = Ok (s', false) ->
  for_iters body (r1 ++ r2) s
  = ((for_iters body r1 s).1 ++ (for_iters body r2 s').1,
     (for_iters body r2 s').2).
Proof.
  intros H. rewrite for_iters_app.
  destruct (for_iters body r1 s) as [tr [[s1 b]|e]]; simpl in H; [|done].
  injection H as -> ->. simpl. by destruct (for_iters body r2 s').
Qed.

Lemma for_iters_one {S} (body : Z -> S -> M (S * bool)) (i : Z) (s : S) :
  (for_iters body [i] s).2 = (body i s).2.
Proof.
  simpl. destruct (body i s) as [tr [[s' [|]]|e]]; done.
Qed.


Lemma early_stopping_check_skip (iters : Z) (loss : float_val)
    (world : list float_val) (c : nat) :
  checks_loss iters = false ->
  early_stopping_check iters loss world c = (world, c, false).
Proof.
  unfold early_stopping_check, checks_loss. by intros ->.
Qed.

Lemma early_stopping_check_flat (iters : Z) (loss : float_val)
    (world : list float_val) (c : nat) :
  checks_loss iters = true ->
  float_ltb loss (np_max world) = false ->
  early_stopping_check iters loss world c
  = (world, S c, (my_threshold <? S c)%nat).
Proof.
  unfold early_stopping_check, checks_loss. by intros -> ->.
Qed.

Section EarlyStop.

Variable C : collaborators.
Variable P : params.
Variables runid task : Z.
Variable memory : list task_memory.
Variable env : task_env.

Lemma train_step_loss (iters : Z) (ft : list (list accuracy))
    (r : list (list accuracy) * float_val) :
  (train_step C P runid task memory env iters ft).2 = Ok r ->
  r.2 = loss_at C runid task iters.
Proof.
  unfold train_step. intros H.
  apply bind_Ok_inv in H as (ft' & _ & H & _).
  apply bind_Ok_inv in H as (offset & _ & H & _).
  apply bind_Ok_inv in H as (loss & Hloss & H & _).
  injection H as <-. cbn [snd].
  pose proof (method_step_shape C P runid task iters memory
                (batch_feed_dict P env iters offset)) as Hshape.
  cbv zeta in Hshape. rewrite Hloss in Hshape. by destruct Hshape.
Qed.

(** A step that succeeds on a loss that is not NaN ends in the test of
    lines 331-341. *)
Lemma train_iteration_Ok (iters : Z) (ls : loop_state)
    (r : list (list accuracy) * float_val) :
  (train_step C P runid task memory env iters (ftask ls)).2 = Ok r ->
  isnan (loss_at C runid task iters) = false ->
  (train_iteration C P runid task memory env iters ls).2
  = Ok (let '(world, c, brk) :=
          early_stopping_check iters (loss_at C runid task iters)
            (ls_loss_world ls) (ls_i_am_increasing ls) in
        ({| ftask := r.1; ls_loss_world := world; ls_i_am_increasing := c |},
         brk)).
Proof.
  intros Hstep Hnan. pose proof (train_step_loss _ _ _ Hstep) as Hloss.
  unfold train_iteration.
  destruct (train_step C P runid task memory env iters (ftask ls))
    as [tr [[ft loss]|e]]; simpl in Hstep; [|done].
  injection Hstep as <-. simpl in Hloss. subst loss.
  cbn [bind]. rewrite Hnan, bind_ret.
  by destruct (early_stopping_check _ _ _ _) as [[world c] brk].
Qed.

Variable k : Z.
Variable world : list float_val.

Hypothesis Hwarm : 1000 < k.
Hypothesis Hmod : k mod 100 = 0.
Hypothesis Hstep :
  forall i ft,
    k <= i <= k + 400 ->
    exists r, (train_step C P runid task memory env i ft).2 = Ok r.
Hypothesis Hnan :
  forall i, k <= i <= k + 400 -> isnan (loss_at C runid task i) = false.
Hypothesis Hflat :
  forall c,
    0 <= c <= 4 ->
    float_ltb (loss_at C runid task (k + 100 * c)) (np_max world) = false.






End EarlyStop.

(** ** What follows the training loop *)

Section AfterLoop.

Variable C : collaborators.
Variable P : params.






End AfterLoop.

(** ** The state of a run across its tasks *)

Section StateFacts.

Variable C : collaborators.
Variable P : params.

(** What the updates between tasks add to the episodic memory and to
    the replay buffer. *)
Lemma task_boundary_Ok (runid : Z) (k : nat) (st st' : run_state) :
  (task_boundary C P runid (Z.of_nat k) st).2 = Ok st' ->
  task_based_memory st'
  = task_based_memory st
    ++ (if Z.of_nat k <? len_datasets P - 1
        then match imp_method P with
             | GEM => option_list (gem_entry C P runid k)
             | _ => []
             end
        else [])
  /\ replay_buffer st'
     = replay_buffer st
       ++ (if (Z.of_nat k <? len_datasets P - 1) && do_sampling P
           then replay_sample C P runid k
           else [])
  /\ evals st' = evals st.
Proof.
  unfold task_boundary, gem_entry, replay_sample, replay_buffer.
  destruct (Z.of_nat k <? len_datasets P - 1).
  2: { unfold ret. cbn [snd andb]. intros [= <-]. by rewrite !app_nil_r. }
  rewrite bind_lift, py_getitem_nat.
  destruct (task_labels P !! k) as [labels_k|]; [|done].
  rewrite bind_emit. cbn [snd].
  rewrite bind_lift, py_getitem_nat.
  destruct (datasets P !! k) as [d|]; [|done].
  cbn [andb]. unfold ret.
  destruct (do_sampling P).
  - destruct (sample_from_dataset C runid (Z.of_nat k) for_replay_buffer _ _ _ _)
      as [imp|].
    + destruct (last_task_x st) as [x|]; cbn [snd]; intros [= <-];
        cbn [task_based_memory last_task_x evals default];
        (split; [destruct (imp_method P);
                 cbn [option_list]; by rewrite ?app_nil_r|done]).
    + cbn [snd]. intros [= <-].
      cbn [task_based_memory last_task_x evals default].
      rewrite app_nil_r.
      split; [destruct (imp_method P);
              cbn [option_list]; by rewrite ?app_nil_r|done].
  - cbn [snd]. intros [= <-].
    cbn [task_based_memory last_task_x evals default].
    rewrite app_nil_r.
    split; [destruct (imp_method P);
            cbn [option_list]; by rewrite ?app_nil_r|done].
Qed.

Lemma task_evaluation_Ok (runid task : Z) (ft : list (list accuracy))
    (st st' : run_state) :
  (task_evaluation C P runid task ft st).2 = Ok st' ->
  task_based_memory st' = task_based_memory st
  /\ replay_buffer st' = replay_buffer st
  /\ length (evals st') = S (length (evals st)).
Proof.
  unfold task_evaluation. intros H.
  apply bind_Ok_inv in H as (fv & _ & H & _).
  rewrite bind_emit in H. cbn in H. injection H as <-. cbn.
  rewrite length_app. cbn. split; [done|]. split; [done|lia].
Qed.

(** A task that completes leaves the state of [task_boundary]. *)
Lemma run_task_Ok (runid : Z) (k : nat) (st st' : run_state) :
  (run_task C P runid (Z.of_nat k) st).2 = Ok st' ->
  task_based_memory st'
  = task_based_memory st
    ++ (if Z.of_nat k <? len_datasets P - 1
        then match imp_method P with
             | GEM => option_list (gem_entry C P runid k)
             | _ => []
             end
        else [])
  /\ replay_buffer st'
     = replay_buffer st
       ++ (if (Z.of_nat k <? len_datasets P - 1) && do_sampling P
           then replay_sample C P runid k
           else [])
  /\ length (evals st') = S (length (evals st)).
Proof.
  unfold run_task. intros H.
  apply bind_Ok_inv in H as ([env st0] & Hsetup & H & _).
  rewrite task_setup_eq in Hsetup. cbn [snd] in Hsetup.
  apply assemble_task_Ok in Hsetup
    as (_ & Hmem & Hx & _ & _ & _ & Hev).
  apply bind_Ok_inv in H as ([ls brk] & _ & H & _).
  unfold after_training in H.
  apply bind_Ok_inv in H as (st1 & Hb & H & _).
  apply task_boundary_Ok in Hb as (Hm1 & Hb1 & He1).
  apply task_evaluation_Ok in H as (Hm2 & Hb2 & He2).
  cbn in Hm1, Hb1, He1. unfold replay_buffer in *. cbn in Hb1.
  rewrite Hm2, Hm1, Hmem, Hb2, Hb1, Hx, He2, He1, Hev. done.
Qed.

(** The state when the tasks [0 .. t-1] are done. *)
Lemma run_tasks_Ok (runid : Z) :
  forall (t : nat) (st : run_state),
    (run_tasks C P runid (py_range (Z.of_nat t)) initial_run_state).2
    = Ok st ->
    task_based_memory st
    = flat_map (fun k =>
                  if Z.of_nat k <? len_datasets P - 1
                  then match imp_method P with
                       | GEM => option_list (gem_entry C P runid k)
                       | _ => []
                       end
                  else [])
        (seq 0 t)
    /\ replay_buffer st
       = flat_map (fun k =>
                     if (Z.of_nat k <? len_datasets P - 1) && do_sampling P
                     then replay_sample C P runid k
                     else [])
           (seq 0 t)
    /\ length (evals st) = t.
Proof.
  unfold run_tasks.
  induction t as [|t IH]; intros st H.
  - cbn in H. injection H as <-. done.
  - rewrite py_range_S, for_range_app in H.
    apply bind_Ok_inv in H as (st0 & H0 & H & _).
    cbn [for_range] in H.
    apply bind_Ok_inv in H as (st1 & H1 & H & _).
    cbn in H. injection H as <-.
    apply IH in H0 as (Hm & Hb & He).
    apply run_task_Ok in H1 as (Hm1 & Hb1 & He1).
    rewrite seq_S, !flat_map_app. cbn [flat_map Nat.add].
    rewrite !app_nil_r, Hm1, Hb1, He1, Hm, Hb, He. done.
Qed.

End StateFacts.

(** ** The episodic memory and the replay buffer across tasks *)

Lemma assemble_task_lookup (C : collaborators) (P : params) (runid : Z)
    (k : nat) (st : run_state) (r : task_env * run_state) :
  assemble_task C P runid (Z.of_nat k) st = Ok r ->
  is_Some (datasets P !! k) /\ is_Some (task_labels P !! k).
Proof.
  unfold assemble_task. rewrite !py_getitem_nat.
  destruct (datasets P !! k) as [d|]; cbn [rbind]; [|done].
  destruct (if do_sampling P && (0 <? Z.of_nat k) then _ else _)
    as [imgs lbls].
  destruct (task_labels P !! k) as [labels_k|]; cbn [rbind]; [|done].
  intros _. split; eauto.
Qed.

Lemma run_task_lookup (C : collaborators) (P : params) (runid : Z)
    (k : nat) (st st' : run_state) :
  (run_task C P runid (Z.of_nat k) st).2 = Ok st' ->
  is_Some (datasets P !! k) /\ is_Some (task_labels P !! k).
Proof.
  unfold run_task. intros H.
  apply bind_Ok_inv in H as (r & Hsetup & _).
  rewrite task_setup_eq in Hsetup. cbn [snd] in Hsetup.
  by apply assemble_task_lookup in Hsetup.
Qed.

(** The tasks that were run are tasks of the data and of the label list. *)
Lemma run_tasks_lookup (C : collaborators) (P : params) (runid : Z) :
  forall (t : nat) (st : run_state),
    (run_tasks C P runid (py_range (Z.of_nat t)) initial_run_state).2
    = Ok st ->
    forall k, (k < t)%nat ->
              is_Some (datasets P !! k) /\ is_Some (task_labels P !! k).
Proof.
  unfold run_tasks. induction t as [|t IH]; intros st H k Hk; [lia|].
  rewrite py_range_S, for_range_app in H.
  apply bind_Ok_inv in H as (st0 & H0 & H & _).
  cbn [for_range] in H.
  apply bind_Ok_inv in H as (st1 & H1 & _).
  destruct (decide (k = t)) as [->|Hne].
  - by apply run_task_lookup in H1.
  - apply (IH st0 H0). lia.
Qed.

Lemma gem_entry_is_Some (C : collaborators) (P : params) (runid : Z)
    (k : nat) :
  is_Some (datasets P !! k) -> is_Some (task_labels P !! k) ->
  is_Some (gem_entry C P runid k).
Proof. unfold gem_entry. intros [d ->] [l ->]. eauto. Qed.

(** A list built by appending one entry per index. *)
Lemma flat_map_option_list_seq {A} (h : nat -> option A) (t : nat) :
  (forall k, (k < t)%nat -> is_Some (h k)) ->
  length (flat_map (fun k => option_list (h k)) (seq 0 t)) = t
  /\ forall k, (k < t)%nat ->
               flat_map (fun k => option_list (h k)) (seq 0 t) !! k = h k.
Proof.
  induction t as [|t IH]; intros Hh.
  - split; [done|]. intros k Hk. lia.
  - destruct IH as [Hlen Hlook]; [intros k Hk; apply Hh; lia|].
    rewrite seq_S, flat_map_app. cbn [flat_map Nat.add].
    rewrite app_nil_r.
    destruct (Hh t) as [a Ha]; [lia|]. rewrite Ha. cbn [option_list].
    split.
    + rewrite length_app, Hlen. simpl. lia.
    + intros k Hk. destruct (decide (k = t)) as [->|Hne].
      * rewrite lookup_app_r by lia. rewrite Hlen, Nat.sub_diag. done.
      * rewrite lookup_app_l by lia. apply Hlook. lia.
Qed.

Lemma flat_map_ext_seq {A} (f g : nat -> list A) (t : nat) :
  (forall k, (k < t)%nat -> f k = g k) ->
  flat_map f (seq 0 t) = flat_map g (seq 0 t).
Proof.
  induction t as [|t IH]; intros H; [done|].
  rewrite seq_S, !flat_map_app. cbn [flat_map Nat.add].
  rewrite IH by (intros k Hk; apply H; lia).
  by rewrite (H t) by lia.
Qed.

(** The gradient loop over the previous tasks, when the memory holds an
    entry for each of them: one [sess.run] per previous task, on its own
    entry, and no error. *)
Lemma gem_prev_task_grads_loop (runid task iters : Z)
    (memory : list task_memory) :
  forall t : nat,
    (t <= length memory)%nat ->
    for_range
      (fun prev_task (_ : unit) =>
         let+ entry := lift (py_getitem memory prev_task) in
         emit (sess_run runid task iters
                 [model.task_grads; model.store_task_gradients]
                 (memory_feed entry prev_task)))
      (py_range (Z.of_nat t)) tt
    = (imap (fun k entry =>
               sess_run runid task iters
                 [model.task_grads; model.store_task_gradients]
                 (memory_feed entry (Z.of_nat k)))
         (take t memory),
       Ok tt).
Proof.
  induction t as [|t IH]; intros Ht; [done|].
  rewrite py_range_S, for_range_app, IH by lia.
  destruct (lookup_lt_is_Some_2 memory t) as [entry Hentry]; [lia|].
  rewrite (take_S_r _ _ _ Hentry), imap_app.
  cbn [for_range]. rewrite bind_lift, py_getitem_nat, Hentry.
  cbn. rewrite length_take, Nat.min_l by lia.
  by rewrite Nat.add_0_r.
Qed.

Lemma gem_prev_task_grads_Ok (runid iters : Z) (memory : list task_memory)
    (t : nat) :
  (t <= length memory)%nat ->
  gem_prev_task_grads runid (Z.of_nat t) iters memory
  = (imap (fun k entry =>
             sess_run runid (Z.of_nat t) iters
               [model.task_grads; model.store_task_gradients]
               (memory_feed entry (Z.of_nat k)))
       (take t memory),
     Ok tt).
Proof. apply gem_prev_task_grads_loop. Qed.

(** ** The steps a completed task performs *)

Lemma early_stopping_check_counts (iters : Z) (loss : float_val)
    (world : list float_val) (c : nat) :
  let '(world', c', brk) := early_stopping_check iters loss world c in
  (c' <= c + (if checks_loss iters then 1 else 0))%nat
  /\ (brk = true -> checks_loss iters = true /\ (my_threshold < c')%nat).
Proof.
  unfold early_stopping_check. fold (checks_loss iters).
  destruct (checks_loss iters); [|split; [lia|done]].
  destruct (float_ltb loss (np_max world)).
  - split; [lia|]. intros H. apply Nat.ltb_lt in H. unfold my_threshold in H.
    lia.
  - split; [lia|]. intros H. by apply Nat.ltb_lt in H.
Qed.

Lemma no_check_before_1100 (i : Z) : 0 <= i < 1100 -> checks_loss i = false.
Proof.
  intros Hi. unfold checks_loss.
  destruct (Z.ltb_spec 1000 i) as [Hlt|]; [|done].
  destruct (Z.eqb_spec (i mod 100) 0) as [Hmod|]; [|done].
  pose proof (Z.div_mod i 100). lia.
Qed.

Section LoopFacts.

Variable C : collaborators.
Variable P : params.
Variables runid task : Z.
Variable memory : list task_memory.
Variable env : task_env.

Lemma train_iteration_Ok_inv (iters : Z) (ls ls' : loop_state) (brk : bool) :
  (train_iteration C P runid task memory env iters ls).2 = Ok (ls', brk) ->
  exists loss ft,
    early_stopping_check iters loss (ls_loss_world ls) (ls_i_am_increasing ls)
    = (ls_loss_world ls', ls_i_am_increasing ls', brk)
    /\ ftask ls' = ft.
Proof.
  unfold train_iteration. intros H.
  apply bind_Ok_inv in H as ([ft loss] & _ & H & _).
  apply bind_Ok_inv in H as (_ & _ & H & _).
  destruct (early_stopping_check _ _ _ _) as [[w c] b] eqn:E.
  cbn in H. injection H as <- <-. by exists loss, ft.
Qed.

(** A loop leaves by [break] only at a step that looks at the loss. *)
Lemma train_loop_break_needs_check :
  forall (range : list Z) (ls ls' : loop_state),
    (train_loop C P runid task memory env range ls).2 = Ok (ls', true) ->
    exists i, In i range /\ checks_loss i = true.
Proof.
  unfold train_loop. induction range as [|i range IH]; intros ls ls' H.
  - cbn in H. by injection H.
  - cbn [for_iters] in H.
    apply bind_Ok_inv in H as ([s b] & Hit & H & _).
    destruct b.
    + apply train_iteration_Ok_inv in Hit as (loss & ft & Hesc & _).
      pose proof (early_stopping_check_counts i loss (ls_loss_world ls)
                    (ls_i_am_increasing ls)) as Hcount.
      rewrite Hesc in Hcount. destruct Hcount as [_ Hbrk].
      exists i. split; [by left|]. by apply Hbrk.
    + apply IH in H as (j & Hj & Hcheck). exists j. split; [by right|done].
Qed.

Lemma train_loop_short_runs_to_end (n : Z) (ls ls' : loop_state)
    (brk : bool) :
  n <= 1100 ->
  (train_loop C P runid task memory env (py_range n) ls).2 = Ok (ls', brk) ->
  brk = false.
Proof.
  intros Hn H. destruct brk; [|done].
  apply train_loop_break_needs_check in H as (i & Hi & Hcheck).
  unfold py_range in Hi. apply in_map_iff in Hi as (j & <- & Hj).
  apply in_seq in Hj. rewrite no_check_before_1100 in Hcheck by lia. done.
Qed.

End LoopFacts.

(** What lines 221-228 make of the number of steps. *)
Lemma assemble_task_iters (C : collaborators) (P : params) (runid : Z)
    (task : nat) (st st' : run_state) (env : task_env) :
  assemble_task C P runid (Z.of_nat task) st = Ok (env, st') ->
  (train_single_epoch P = false -> num_iters env = train_iters P)
  /\ (task = 0%nat ->
      forall d0, datasets P !! 0%nat = Some d0 ->
                 num_iters env = first_task_iters P d0).
Proof.
  unfold assemble_task, first_task_iters. rewrite !py_getitem_nat. intros H.
  destruct (datasets P !! task) as [d|] eqn:Hd; cbn [rbind] in H; [|done].
  destruct (if do_sampling P && (0 <? Z.of_nat task) then _ else _)
    as [imgs lbls] eqn:Himgs in H.
  destruct (task_labels P !! task) as [labels_k|]; cbn [rbind] in H; [|done].
  destruct (if train_single_epoch P then _ else _) as [n|] eqn:Hn in H;
    cbn [rbind] in H; [|done].
  destruct (np_take imgs _) as [x|] in H; cbn [rbind] in H; [|done].
  destruct (np_take lbls _) as [y|] in H; cbn [rbind] in H; [|done].
  destruct (np_take _ _) as [w|] in H; cbn [rbind] in H; [|done].
  inversion H; subst; clear H. cbn [num_iters]. split.
  - intros Hmode. rewrite Hmode in Hn. by injection Hn.
  - intros -> d0 Hd0. rewrite Hd0 in Hd. injection Hd as ->.
    change (0 <? Z.of_nat 0) with false in Himgs.
    rewrite andb_false_r in Himgs. injection Himgs as <- <-.
    destruct (train_single_epoch P); [|by injection Hn].
    unfold py_floordiv in Hn. destruct (batch_size P =? 0); [done|].
    by injection Hn.
Qed.

Section EwcCompleted.

Variable C : collaborators.
Variable P : params.
Hypothesis Hmethod : imp_method P = EWC.
Hypothesis Hafter : fisher_update_after P = 50.

(** A loop that returns has performed every step up to the one it left
    at. *)
Lemma train_loop_ewc_Ok (runid task : Z) (memory : list task_memory)
    (env : task_env) :
  forall (range : list Z) (ls ls' : loop_state) (brk : bool),
    (train_loop C P runid task memory env range ls).2 = Ok (ls', brk) ->
    exists c : nat,
      (c <= length range)%nat
      /\ ops_of (train_loop C P runid task memory env range ls).1
         = flat_map (ewc_step_ops runid task) (take c range)
      /\ (range <> [] -> (1 <= c)%nat)
      /\ (brk = false -> c = length range).
Proof.
  unfold train_loop.
  induction range as [|i rest IH]; intros ls ls' brk H.
  - exists 0%nat. cbn in H. injection H as _ <-. by repeat split.
  - cbn [for_iters] in *.
    pose proof (train_iteration_ewc C P Hmethod Hafter runid task memory env
                  i ls) as Hit.
    cbv zeta in Hit.
    destruct (train_iteration C P runid task memory env i ls)
      as [tr [[ls1 b1]|ex]]; cbn [fst snd] in Hit; cbn [bind] in *;
      [|done].
    destruct Hit as [Hit|[_ [ex Hex]]]; [|done].
    destruct b1.
    + cbn in H. injection H as _ <-.
      exists 1%nat. cbn. rewrite !app_nil_r.
      repeat split; [lia|done|lia|done].
    + destruct (for_iters _ rest ls1) as [tr' r'] eqn:Hrest.
      cbn [fst snd] in *.
      destruct (IH ls1 ls' brk) as (c & Hc & Hops & _ & Hend).
      { by rewrite Hrest. }
      rewrite Hrest in Hops. cbn [fst] in Hops.
      exists (S c). split; [simpl; lia|]. split.
      * rewrite ops_of_app, Hit, Hops. done.
      * split; [lia|]. intros Hb. simpl. f_equal. by apply Hend.
Qed.

(** The steps of a task that completes. *)
Lemma run_task_ewc_Ok (runid : Z) (task : nat) (st st' : run_state) :
  (run_task C P runid (Z.of_nat task) st).2 = Ok st' ->
  exists c : nat,
    ops_of (run_task C P runid (Z.of_nat task) st).1
    = ewc_task_ops runid task c
    /\ (train_single_epoch P = false ->
        train_iters P <= 1100 ->
        c = Z.to_nat (train_iters P))
    /\ (task = 0%nat ->
        forall d0,
          datasets P !! 0%nat = Some d0 ->
          (0 < first_task_iters P d0 -> (1 <= c)%nat)
          /\ (first_task_iters P d0 <= 0 -> c = 0%nat)).
Proof.
  unfold run_task. rewrite task_setup_eq.
  set (tr0 := if 0 <? Z.of_nat task then _ else _).
  assert (H0 : ops_of tr0 = []).
  { subst tr0. by destruct (0 <? Z.of_nat task). }
  destruct (assemble_task C P runid (Z.of_nat task) st)
    as [[env st1]|ex] eqn:Hsetup; [|done].
  apply assemble_task_iters in Hsetup as [Hfixed Hfirst].
  cbn [bind].
  destruct (train_loop C P runid (Z.of_nat task) (task_based_memory st1) env
              (py_range (num_iters env)) _) as [tr1 [[ls brk]|ex]] eqn:Hloop;
    cbn [fst snd]; [|done].
  pose proof (train_loop_ewc_Ok runid (Z.of_nat task) (task_based_memory st1)
                env (py_range (num_iters env)) _ ls brk
                ltac:(by rewrite Hloop)) as (c & Hc & Hops & Hone & Hend).
  rewrite Hloop in Hops. cbn [fst] in Hops.
  rewrite take_py_range in Hops by done.
  rewrite length_py_range in Hc, Hend.
  pose proof (after_training_silent C P runid (Z.of_nat task) st1 ls) as Hs.
  apply ops_of_silent in Hs.
  cbn [bind fst snd] in *.
  destruct (after_training _ _ _ _ _ _) as [tr2 r2].
  cbn [fst snd] in *.
  intros _. exists c. split.
  { unfold ewc_task_ops. rewrite !ops_of_app, H0, Hops, Hs, app_nil_r.
    done. }
  split.
  - intros Hmode Hshort. rewrite <- (Hfixed Hmode). apply Hend.
    eapply (train_loop_short_runs_to_end C P runid (Z.of_nat task)
              (task_based_memory st1) env (num_iters env)).
    + rewrite (Hfixed Hmode). done.
    + by rewrite Hloop.
  - intros Htask d0 Hd0. rewrite <- (Hfirst Htask d0 Hd0). split.
    + intros Hpos. apply Hone. intros Hnil.
      apply (f_equal length) in Hnil. rewrite length_py_range in Hnil.
      simpl in Hnil. lia.
    + intros Hneg. lia.
Qed.

(** The steps of the tasks [k, k+1, ...] when all of them complete. *)
Lemma run_tasks_ewc_Ok (runid : Z) :
  forall (n k : nat) (st st' : run_state),
    (run_tasks C P runid (map Z.of_nat (seq k n)) st).2 = Ok st' ->
    exists counts : list nat,
      length counts = n
      /\ ops_of (run_tasks C P runid (map Z.of_nat (seq k n)) st).1
         = concat (imap (fun j c => ewc_task_ops runid (k + j) c) counts)
      /\ (train_single_epoch P = false ->
          train_iters P <= 1100 ->
          counts = replicate n (Z.to_nat (train_iters P)))
      /\ (k = 0%nat ->
          forall d0 c,
            datasets P !! 0%nat = Some d0 ->
            counts !! 0%nat = Some c ->
            (0 < first_task_iters P d0 -> (1 <= c)%nat)
            /\ (first_task_iters P d0 <= 0 -> c = 0%nat)).
Proof.
  unfold run_tasks.
  induction n as [|n IH]; intros k st st' H.
  - exists []. repeat split; done.
  - cbn [seq map for_range] in *.
    apply bind_Ok_inv in H as (st1 & H1 & H & Htr).
    destruct (run_task_ewc_Ok runid k st st1 H1) as (c & Hc & Hfix & Hfirst).
    destruct (IH (S k) st1 st' H) as (counts & Hlen & Hops & Hfixs & _).
    exists (c :: counts). split; [simpl; lia|]. split.
    { rewrite Htr, ops_of_app, Hc, Hops. cbn [imap concat].
      rewrite Nat.add_0_r. f_equal. f_equal.
      apply imap_ext. intros j c' _. simpl. f_equal. lia. }
    split.
    + intros Hmode Hshort. cbn [replicate].
      by rewrite (Hfix Hmode Hshort), (Hfixs Hmode Hshort).
    + intros Hk d0 c0 Hd0 [= <-]. by apply Hfirst.
Qed.

Lemma one_run_ewc_Ok (runid : Z) (st : run_state) :
  (one_run C P runid).2 = Ok st ->
  exists counts : list nat,
    length counts = length (datasets P)
    /\ ops_of (one_run C P runid).1
       = concat (imap (ewc_task_ops runid) counts)
    /\ (train_single_epoch P = false ->
        train_iters P <= 1100 ->
        counts = replicate (length (datasets P)) (Z.to_nat (train_iters P)))
    /\ (forall d0 c,
          datasets P !! 0%nat = Some d0 ->
          counts !! 0%nat = Some c ->
          (0 < first_task_iters P d0 -> (1 <= c)%nat)
          /\ (first_task_iters P d0 <= 0 -> c = 0%nat)).
Proof.
  unfold one_run. rewrite bind_emit. cbn [fst snd].
  unfold len_datasets. rewrite py_range_seq. intros H.
  destruct (run_tasks_ewc_Ok runid (length (datasets P)) 0
              initial_run_state st H)
    as (counts & Hlen & Hops & Hfix & Hfirst).
  exists counts. split; [done|]. split.
  { change (init_run runid :: ?l) with ([init_run runid] ++ l).
    rewrite ops_of_app. cbn [ops_of flat_map step_fetches app].
    exact Hops. }
  split; [done|]. by apply Hfirst.
Qed.

End EwcCompleted.

(** ** The Evaluator: claims *)

(** C6. The attribute mask of task [t] has the size of the class-attribute
    matrix, carries the rows of the matrix on the class range
    [t * num_classes_per_task, (t+1) * num_classes_per_task) and a row of
    zeros everywhere else.  The training loop and the multi-head Evaluator
    build it by the same three statements, [attr_mask]. *)
Theorem attr_mask_task_rows (class_attrs : matrix)
    (task num_classes_per_task : Z) :
  0 <= task ->
  0 <= num_classes_per_task ->
  length (attr_mask class_attrs task num_classes_per_task)
  = length class_attrs
  /\ forall (r : nat) (row : list Q),
       class_attrs !! r = Some row ->
       attr_mask class_attrs task num_classes_per_task !! r
       = Some (if (task * num_classes_per_task <=? Z.of_nat r)
                  && (Z.of_nat r <? (task + 1) * num_classes_per_task)
               then row
               else map (fun _ => 0%Q) row).
Proof.
  intros Ht Hc. split.
  - by apply length_attr_mask.
  - intros r row Hrow. by apply lookup_attr_mask.
Qed.

Lemma attr_mask_task_rows_witness :
  attr_mask attrs4 1 2 = [[0; 0]; [0; 0]; [5; 6]; [7; 8]]%Q
  /\ (length (attr_mask attrs4 1 2) = length attrs4
      /\ forall (r : nat) (row : list Q),
           attrs4 !! r = Some row ->
           attr_mask attrs4 1 2 !! r
           = Some (if (1 * 2 <=? Z.of_nat r) && (Z.of_nat r <? (1 + 1) * 2)
                   then row
                   else map (fun _ => 0%Q) row)).
Proof.
  split; [reflexivity|].
  apply (attr_mask_task_rows attrs4 1 2); lia.
Defined.

(** C2. With single-head evaluation selected the Evaluator never assigns
    [masked_class_attrs]: on any non-empty task list it raises instead of
    scoring with the full class-attribute matrix.  On a first task with a
    full chunk the exception is the unbound [masked_class_attrs]. *)
Theorem single_head_evaluation_raises :
  (forall (predict : matrix -> image -> label -> bool)
          (test_data : list task_data) (class_attrs : matrix)
          (num_classes_per_task : Z) (labels : list label)
          (rest : list (list label)) (cross_validate_mode : bool),
      exists e,
        test_task_sequence predict test_data class_attrs num_classes_per_task
          (labels :: rest) cross_validate_mode true = Raise e
        /\ (e = IndexError \/ e = UnboundLocalError "i"
            \/ e = UnboundLocalError "masked_class_attrs"))
  /\ test_task_sequence always_correct [ten_examples] attrs4 4 [[0; 1; 2; 3]]
       false true
     = Raise (UnboundLocalError "masked_class_attrs").
Proof.
  split; [|reflexivity].
  intros predict test_data class_attrs cpt labels rest cv.
  unfold test_task_sequence. cbn [eval_tasks]. unfold eval_one_task.
  cbn [negb var_masked_class_attrs var_i].
  destruct (py_getitem test_data 0) as [d|e] eqn:Hd; cbn [rbind].
  2: { exists e. split; [done|]. left.
       unfold py_getitem in Hd. simpl in Hd.
       destruct (test_data !! Z.to_nat 0); by inversion Hd. }
  destruct (py_range _) as [|i0 chunks]; cbn [score_chunks rbind read_local].
  - exists (UnboundLocalError "i"). auto.
  - exists (UnboundLocalError "masked_class_attrs"). auto.
Qed.

(** C4. On a test set smaller than one chunk the residual step reads the
    loop variable [i] of a loop that did not run: on the first task it is
    unbound, on a later task it still holds the last chunk of the task
    before, and the three examples are skipped although all are correct. *)
Theorem chunked_scoring_below_one_chunk :
  test_task_sequence always_correct [three_examples] attrs4 4 [[0; 1; 2; 3]]
    false false
  = Raise (UnboundLocalError "i")
  /\ test_task_sequence always_correct [ten_examples; three_examples] attrs4 2
       [[0; 1]; [2; 3]] false false
     = Ok [(10, 10); (0, 3)]
  /\ whole_pass always_correct (attr_mask attrs4 1 2) (test three_examples)
     = (3, 3).
Proof. repeat split; reflexivity. Qed.

(** C1 (amended). Whichever task was just trained, the sequencer hands the
    Evaluator the whole task list: under multi-head evaluation, with at
    least one full chunk in every set, the call returns exactly one
    accuracy per task of [task_labels], in task order, each the whole-set
    score of its task under the mask of the task; the tasks not yet
    trained are scored as well. *)
Theorem evaluator_scores_every_task (C : collaborators) (P : params)
    (runid task : Z) (iters : option Z) (cross_validate : bool) :
  let key := if cross_validate then TrainKey else TestKey in
  eval_single_head P = false ->
  (length (task_labels P) <= length (datasets P))%nat ->
  Forall (fun d => 10 <= Z.of_nat (length (images (get_split d key))))
    (datasets P) ->
  exists accs,
    (call_test_task_sequence C P runid task iters cross_validate).2 = Ok accs
    /\ length accs = length (task_labels P)
    /\ accs
       = imap (fun k d =>
                 whole_pass (predict_at C runid task iters)
                   (attr_mask (class_attrs P) (Z.of_nat k)
                      (num_classes_per_task P))
                   (get_split d key))
           (take (length (task_labels P)) (datasets P)).
Proof.
  intros key Hhead Hlen Hall.
  unfold call_test_task_sequence. rewrite bind_emit. cbn [snd lift].
  unfold test_task_sequence. rewrite Hhead.
  fold key.
  rewrite (eval_tasks_multi_head _ _ _ _ _ Hall _ 0%nat) by (simpl; lia).
  rewrite drop_0. cbn [app].
  eexists. split; [reflexivity|]. split; [|reflexivity].
  rewrite length_imap, length_take. lia.
Qed.

Lemma evaluator_scores_every_task_witness :
  let C := example_collaborators (constant_loss (Fin 1)) in
  let P := example_params VAN 2 false false in
  exists accs,
    (call_test_task_sequence C P 0 0 None false).2 = Ok accs
    /\ length accs = length (task_labels P)
    /\ accs
       = imap (fun k d =>
                 whole_pass (predict_at C 0 0 None)
                   (attr_mask (class_attrs P) (Z.of_nat k)
                      (num_classes_per_task P))
                   (get_split d TestKey))
           (take (length (task_labels P)) (datasets P)).
Proof.
  intros C P.
  apply (evaluator_scores_every_task C P 0 0 None false).
  - reflexivity.
  - vm_compute. lia.
  - repeat constructor; vm_compute; discriminate.
Defined.

(** C1, as stated, fails: after training task 0 of three tasks the
    Evaluator returns three accuracies, not one. *)
Lemma evaluator_after_first_task :
  let C := example_collaborators (constant_loss (Fin 1)) in
  let P := example_params VAN 2 false false in
  (call_test_task_sequence C P 0 0 None false).2
  = Ok [(20, 20); (20, 20); (20, 20)]
  /\ ~ (forall t accs,
          0 <= t < 3 ->
          (call_test_task_sequence C P 0 t None false).2 = Ok accs ->
          Z.of_nat (length accs) = t + 1).
Proof.
  intros C P. split; [reflexivity|].
  intros H. specialize (H 0 [(20, 20); (20, 20); (20, 20)]).
  cbn in H. discriminate H; [lia|reflexivity].
Qed.

(** ** The batches of a training step: claims *)

(** C9. For the training set assembled for a task and a batch size that is
    a count: when the set has more examples than the batch size, the
    offset of every step lies in [0, num_train_examples - batch_size) and
    the slices of images, labels and sample weights fed to the step hold
    exactly [batch_size] entries; when the set has exactly [batch_size]
    examples, the offset is a modulo by zero and the step raises. *)
Theorem batch_slices_have_batch_size (C : collaborators) (P : params)
    (runid task : Z) (st st' : run_state) (env : task_env) (iters : Z) :
  assemble_task C P runid task st = Ok (env, st') ->
  0 <= batch_size P ->
  (batch_size P < num_train_examples env ->
   exists offset,
     batch_offset P iters (num_train_examples env) = Ok offset
     /\ 0 <= offset < num_train_examples env - batch_size P
     /\ match batch_feed_dict P env iters offset with
        | batch_feed x y_ _ sample_weights _ _ _ =>
            Z.of_nat (length x) = batch_size P
            /\ Z.of_nat (length y_) = batch_size P
            /\ Z.of_nat (length sample_weights) = batch_size P
        | _ => False
        end)
  /\ (num_train_examples env = batch_size P ->
      batch_offset P iters (num_train_examples env) = Raise ZeroDivisionError
      /\ forall (memory : list task_memory) (ls : loop_state),
           exists e,
             (train_iteration C P runid task memory env iters ls).2 = Raise e).
Proof.
  intros Hsetup Hbs.
  apply assemble_task_Ok in Hsetup as [(Hn & Hx & Hy & Hw) _].
  split.
  - intros Hlt. unfold batch_offset, py_mod.
    destruct (Z.eqb_spec (num_train_examples env - batch_size P) 0) as [?|_];
      [lia|].
    eexists. split; [reflexivity|].
    pose proof (Z.mod_pos_bound (iters * batch_size P)
                  (num_train_examples env - batch_size P)) as Hm.
    split; [lia|]. cbn [batch_feed_dict].
    rewrite !length_py_slice by lia. lia.
  - intros Heq.
    assert (Hoff : batch_offset P iters (num_train_examples env)
                   = Raise ZeroDivisionError).
    { unfold batch_offset, py_mod.
      by destruct (Z.eqb_spec (num_train_examples env - batch_size P) 0);
        [|lia]. }
    split; [done|].
    intros memory ls. unfold train_iteration, train_step. rewrite Hoff.
    match goal with
    | |- context [bind (bind ?m _) _] => destruct m as [tr [ft|e]]
    end.
    + rewrite bind_ret || idtac. simpl. eauto.
    + simpl. eauto.
Qed.

Lemma batch_slices_have_batch_size_witness :
  let C := example_collaborators (constant_loss (Fin 1)) in
  let P := example_params VAN 10 false false in
  let P' := with_batch_size P 24 in
  (exists env st',
     assemble_task C P 0 0 initial_run_state = Ok (env, st')
     /\ num_train_examples env = 24
     /\ exists offset,
          batch_offset P 7 (num_train_examples env) = Ok offset
          /\ 0 <= offset < num_train_examples env - batch_size P
          /\ match batch_feed_dict P env 7 offset with
             | batch_feed x y_ _ sample_weights _ _ _ =>
                 Z.of_nat (length x) = batch_size P
                 /\ Z.of_nat (length y_) = batch_size P
                 /\ Z.of_nat (length sample_weights) = batch_size P
             | _ => False
             end)
  /\ (exists env st',
        assemble_task C P' 0 0 initial_run_state = Ok (env, st')
        /\ batch_offset P' 0 (num_train_examples env) = Raise ZeroDivisionError
        /\ exists e,
             (train_iteration C P' 0 0 [] env 0
                {| ftask := []; ls_loss_world := replicate 4 PosInf;
                   ls_i_am_increasing := 0 |}).2 = Raise e).
Proof.
  intros C P P'. split.
  - destruct (assemble_task C P 0 0 initial_run_state) as [[env st']|e] eqn:E;
      [|vm_compute in E; discriminate E].
    exists env, st'. split; [reflexivity|].
    assert (Hn : num_train_examples env = 24).
    { vm_compute in E. by injection E as <- _. }
    split; [exact Hn|].
    apply (proj1 (batch_slices_have_batch_size C P 0 0 initial_run_state st'
                    env 7 E ltac:(vm_compute; discriminate))).
    rewrite Hn. reflexivity.
  - destruct (assemble_task C P' 0 0 initial_run_state) as [[env st']|e] eqn:E;
      [|vm_compute in E; discriminate E].
    exists env, st'. split; [reflexivity|].
    assert (Hn : num_train_examples env = 24).
    { vm_compute in E. by injection E as <- _. }
    destruct (proj2 (batch_slices_have_batch_size C P' 0 0 initial_run_state
                       st' env 0 E ltac:(vm_compute; discriminate)) Hn)
      as [Hoff Hraise].
    split; [exact Hoff|]. apply Hraise.
Defined.

(** ** A non-finite loss: claims *)

(** C3 (amended). When the loss fetched at step [iters] of a task is NaN,
    the process ends in [sys.exit(0)] within that step: whatever follows
    the fetch in the trace is a [sess.run] of the same step, so neither a
    later step, nor an update between tasks, nor an evaluation runs.  The
    test of line 327 is [math.isnan]; an infinite loss is not caught. *)
Theorem nan_loss_terminates (C : collaborators) (P : params)
    (pre post : list event) (e : event) (runid task iters : Z) :
  (train_task_sequence C P).1 = pre ++ e :: post ->
  fetches_loss e = Some (runid, task, iters) ->
  isnan (loss_at C runid task iters) = true ->
  (train_task_sequence C P).2 = Raise (SystemExit 0)
  /\ Forall (of_step runid task iters) post.
Proof.
  intros Htr He Hnan.
  pose proof (train_task_sequence_stops_at_nan C P) as H.
  unfold stops_at_nan in H.
  assert (Hev : nan_loss_event C e = true).
  { unfold nan_loss_event. by rewrite He. }
  destruct (train_task_sequence C P).2 as [runs|ex].
  - rewrite Htr in H. apply Forall_app in H as [_ H].
    apply Forall_cons in H as [H _]. congruence.
  - destruct (H pre e post Htr Hev) as (-> & r & t & i & He' & Hpost).
    split; [done|]. rewrite He in He'. by inversion He'; subst.
Qed.

Lemma nan_loss_terminates_witness :
  let C := example_collaborators (nan_at 0 1 0) in
  let P := example_params GEM 1 false false in
  (train_task_sequence C P).2 = Raise (SystemExit 0)
  /\ Forall (of_step 0 1 0) (drop 9 (train_task_sequence C P).1).
Proof.
  intros C P.
  apply (nan_loss_terminates C P (take 8 (train_task_sequence C P).1)
           (drop 9 (train_task_sequence C P).1)
           (sess_run 0 1 0
              [model.task_grads; model.store_task_gradients; model.reg_loss]
              (batch_feed [200; 201; 202; 203] [2; 2; 2; 2]
                 (attr_mask attrs6 1 2) [1; 1; 1; 1]%Q 1 0 (Some 1)))
           0 1 0).
  - vm_compute. reflexivity.
  - reflexivity.
  - reflexivity.
Defined.

(** C3, as stated, fails for an infinite loss: with a loss of +inf at
    every step the run goes on to step 1, to the updates between tasks and
    to the evaluation, and returns. *)
Lemma infinite_loss_goes_on :
  let C := example_collaborators (constant_loss PosInf) in
  let P := example_params VAN 2 false false in
  isnan (loss_at C 0 0 0) = false
  /\ exists pre e post fd runs,
       (train_task_sequence C P).1 = pre ++ e :: post
       /\ fetches_loss e = Some (0, 0, 0)
       /\ In (sess_run 0 0 1 [model.train; model.reg_loss] fd) post
       /\ In (task_updates 0 0) post
       /\ In (evaluate 0 0 None false) post
       /\ (train_task_sequence C P).2 = Ok runs.
Proof.
  intros C P. split; [reflexivity|].
  exists (take 1 (train_task_sequence C P).1).
  exists (sess_run 0 0 0 [model.train; model.reg_loss]
            (batch_feed [0; 1; 2; 3] [0; 0; 0; 0] (attr_mask attrs6 0 2)
               [1; 1; 1; 1]%Q 2 0 None)).
  exists (drop 2 (train_task_sequence C P).1).
  exists (batch_feed [4; 5; 6; 7] [0; 0; 0; 0] (attr_mask attrs6 0 2)
            [1; 1; 1; 1]%Q 2 1 None).
  eexists.
  split; [vm_compute; reflexivity|].
  split; [reflexivity|].
  split; [apply (nth_error_In _ 0); vm_compute; reflexivity|].
  split; [apply (nth_error_In _ 1); vm_compute; reflexivity|].
  split; [apply (nth_error_In _ 3); vm_compute; reflexivity|].
  vm_compute. reflexivity.
Qed.

(** ** The Fisher estimates under EWC: claims *)

(** C7, as stated, fails: in a single epoch over a first task of three
    examples with a batch size of four, the loop of the first task has
    [3 // 4 = 0] turns; the run completes, the second task performs its
    six steps under EWC, and the running Fisher estimate is never set
    up. *)
Lemma ewc_run_without_initialisation :
  let C := example_collaborators (constant_loss (Fin 1)) in
  let P := short_first_task_params in
  (imp_method P = EWC /\ fisher_update_after P = 50)
  /\ (exists st, (one_run C P 0).2 = Ok st)
  /\ ops_of (one_run C P 0).1 = concat (imap (ewc_task_ops 0) [0; 6]%nat)
  /\ times_initialised (ops_of (one_run C P 0).1) = 0%nat.
Proof.
  intros C P. split; [by split|]. split.
  - destruct (one_run C P 0).2 as [st|e] eqn:E; [by exists st|].
    vm_compute in E. discriminate E.
  - split; vm_compute; reflexivity.
Qed.

(** C7 (amended). Under EWC with [fisher_update_after = 50] the
    [sess.run]s of a run are, task after task and step after step, those
    of [ewc_step_ops] for the steps the run performs ([counts] gives
    their number per task): the running Fisher estimate is set up at step
    0 of task 0 and nowhere else, hence at most once; the temporary
    estimate is committed into the running one and then reset exactly at
    the steps 49, 99, 149, ... of every task, before the step trains; and
    every step accumulates the temporary estimate.  In a run that
    completes, every task is counted; with a fixed number of at most 1100
    steps every task performs all of them; and the running estimate is
    set up exactly once if the loop of the first task has at least one
    turn, and never if it has none. *)
Theorem ewc_fisher_schedule (C : collaborators) (P : params) (runid : Z) :
  imp_method P = EWC ->
  fisher_update_after P = 50 ->
  exists counts : list nat,
    (length counts <= length (datasets P))%nat
    /\ ops_of (one_run C P runid).1
       = concat (imap (ewc_task_ops runid) counts)
    /\ times_initialised (ops_of (one_run C P runid).1)
       = match counts with
         | S _ :: _ => 1%nat
         | _ => 0%nat
         end
    /\ forall st,
         (one_run C P runid).2 = Ok st ->
         length counts = length (datasets P)
         /\ (train_single_epoch P = false ->
             train_iters P <= 1100 ->
             counts = replicate (length (datasets P))
                        (Z.to_nat (train_iters P)))
         /\ forall d0,
              datasets P !! 0%nat = Some d0 ->
              (0 < first_task_iters P d0 ->
               times_initialised (ops_of (one_run C P runid).1) = 1%nat)
              /\ (first_task_iters P d0 <= 0 ->
                  times_initialised (ops_of (one_run C P runid).1) = 0%nat).
Proof.
  intros Hmethod Hafter.
  destruct (one_run C P runid).2 as [st|e] eqn:Hrun.
  - destruct (one_run_ewc_Ok C P Hmethod Hafter runid st Hrun)
      as (counts & Hlen & Hops & Hfix & Hfirst).
    exists counts. split; [lia|]. split; [done|].
    assert (Htimes : times_initialised (ops_of (one_run C P runid).1)
                     = match counts with
                       | S _ :: _ => 1%nat
                       | _ => 0%nat
                       end)
      by (rewrite Hops; apply times_initialised_run).
    split; [done|]. intros _ _. split; [done|]. split; [done|].
    intros d0 Hd0. rewrite Htimes.
    pose proof (lookup_lt_Some _ _ _ Hd0) as Hlt.
    destruct counts as [|c counts]; [simpl in Hlen; lia|].
    destruct (Hfirst d0 c Hd0 eq_refl) as [Hpos Hneg]. split.
    + intros H. specialize (Hpos H). destruct c; [lia|done].
    + intros H. by rewrite (Hneg H).
  - destruct (one_run_ewc C P Hmethod Hafter runid)
      as (counts & Hlen & Hops).
    exists counts. split; [done|]. split; [done|].
    split; [rewrite Hops; apply times_initialised_run|done].
Qed.

Lemma ewc_fisher_schedule_witness :
  let C := example_collaborators (constant_loss (Fin 1)) in
  let P := example_params EWC 100 false false in
  ops_of (one_run C P 0).1
  = concat (imap (ewc_task_ops 0) [100; 100; 100]%nat)
  /\ times_initialised (ops_of (one_run C P 0).1) = 1%nat.
Proof.
  intros C P.
  destruct (ewc_fisher_schedule C P 0 eq_refl eq_refl)
    as (counts & _ & Hops & _ & Hdone).
  destruct (one_run C P 0).2 as [st|e] eqn:Hrun;
    [|vm_compute in Hrun; discriminate Hrun].
  destruct (Hdone st eq_refl) as (_ & Hfix & Hfirst).
  rewrite (Hfix eq_refl ltac:(vm_compute; discriminate)) in Hops.
  split; [exact Hops|].
  apply (Hfirst (two_class_task 0) eq_refl). reflexivity.
Defined.

(** ** The episodic memory and the replay buffer: claims *)

(** C10. Under GEM, when the training of task [t] begins (the tasks before
    it are done and the task is set up), the episodic memory holds exactly
    [t] entries, entry [k] being the one sampled after task [k]; the
    gradient loop over the previous tasks then runs one [sess.run] per
    entry, in task order, and raises nothing. *)
Theorem gem_memory_one_entry_per_task (C : collaborators) (P : params)
    (runid : Z) (t : nat) (st st1 : run_state) (env : task_env) (iters : Z) :
  imp_method P = GEM ->
  (run_tasks C P runid (py_range (Z.of_nat t)) initial_run_state).2 = Ok st ->
  (task_setup C P runid (Z.of_nat t) st).2 = Ok (env, st1) ->
  length (task_based_memory st1) = t
  /\ (forall k, (k < t)%nat ->
                task_based_memory st1 !! k = gem_entry C P runid k)
  /\ gem_prev_task_grads runid (Z.of_nat t) iters (task_based_memory st1)
     = (imap (fun k entry =>
                sess_run runid (Z.of_nat t) iters
                  [model.task_grads; model.store_task_gradients]
                  (memory_feed entry (Z.of_nat k)))
          (task_based_memory st1),
        Ok tt).
Proof.
  intros Hgem Hrun Hsetup.
  rewrite task_setup_eq in Hsetup. cbn [snd] in Hsetup.
  pose proof (assemble_task_lookup _ _ _ _ _ _ Hsetup) as [Hd _].
  apply lookup_lt_is_Some_1 in Hd.
  apply assemble_task_Ok in Hsetup as (_ & -> & _).
  pose proof (run_tasks_lookup C P runid t st Hrun) as Hlook.
  apply run_tasks_Ok in Hrun as (-> & _ & _).
  rewrite Hgem.
  rewrite (flat_map_ext_seq _ (fun k => option_list (gem_entry C P runid k)));
    cycle 1.
  { intros k Hk. unfold len_datasets.
    by destruct (Z.ltb_spec (Z.of_nat k) (Z.of_nat (length (datasets P)) - 1));
      [|lia]. }
  destruct (flat_map_option_list_seq (gem_entry C P runid) t) as [Hlen Hk].
  { intros k Hk. destruct (Hlook k Hk). by apply gem_entry_is_Some. }
  split; [done|]. split; [done|].
  rewrite gem_prev_task_grads_Ok by lia.
  by rewrite take_ge by lia.
Qed.

Lemma gem_memory_one_entry_per_task_witness :
  let C := example_collaborators (constant_loss (Fin 1)) in
  let P := example_params GEM 2 false false in
  exists st env st1,
    (run_tasks C P 0 (py_range 2) initial_run_state).2 = Ok st
    /\ (task_setup C P 0 2 st).2 = Ok (env, st1)
    /\ length (task_based_memory st1) = 2%nat
    /\ (forall k, (k < 2)%nat ->
                  task_based_memory st1 !! k = gem_entry C P 0 k)
    /\ gem_prev_task_grads 0 2 0 (task_based_memory st1)
       = (imap (fun k entry =>
                  sess_run 0 2 0
                    [model.task_grads; model.store_task_gradients]
                    (memory_feed entry (Z.of_nat k)))
            (task_based_memory st1),
          Ok tt).
Proof.
  intros C P.
  destruct (run_tasks C P 0 (py_range 2) initial_run_state).2
    as [st|e] eqn:Hrun; [|vm_compute in Hrun; discriminate Hrun].
  destruct (task_setup C P 0 2 st).2 as [[env st1]|e] eqn:Hsetup.
  - exists st, env, st1. split; [reflexivity|]. split; [exact Hsetup|].
    exact (gem_memory_one_entry_per_task C P 0 2 st st1 env 0 eq_refl
             Hrun Hsetup).
  - exfalso. vm_compute in Hrun. injection Hrun as <-.
    vm_compute in Hsetup. discriminate Hsetup.
Defined.

(** C5, as stated, fails: with three tasks of two classes and a budget of
    three examples per class, the replay buffer holds 6 images after the
    first task and 12 after the second and after the third, whichever way
    the tasks are counted in [k * samples_per_class * classes so far]. *)
Lemma replay_buffer_after_each_task :
  let C := example_collaborators (constant_loss (Fin 1)) in
  let P := example_params VAN 2 false true in
  let size t :=
    match (run_tasks C P 0 (py_range t) initial_run_state).2 with
    | Ok st => Some (Z.of_nat (length (replay_buffer st)))
    | Raise _ => None
    end in
  (size 1 = Some 6 /\ size 2 = Some 12 /\ size 3 = Some 12)
  /\ ~ (forall k, 0 <= k < 3 ->
          size (k + 1)
          = Some (k * samples_per_class P
                  * ((k + 1) * num_classes_per_task P)))
  /\ ~ (forall k, 1 <= k <= 3 ->
          size k
          = Some (k * samples_per_class P * (k * num_classes_per_task P))).
Proof.
  intros C P size. split.
  - repeat split; vm_compute; reflexivity.
  - split.
    + intros H. specialize (H 0 ltac:(lia)).
      vm_compute in H. discriminate H.
    + intros H. specialize (H 2 ltac:(lia)).
      vm_compute in H. discriminate H.
Qed.

(** C5 (amended). With sampling, and a sampler that keeps to its budget
    of [samples_per_class] images for each of the [num_classes_per_task]
    classes of a task: after [t] tasks the replay buffer holds
    [min t (K - 1)] times that budget, [K] being the number of tasks (the
    last task adds nothing), and the buffer after [t] tasks is an initial
    part of the buffer after any later task: it only grows. *)
Theorem replay_buffer_size_and_growth (C : collaborators) (P : params)
    (runid : Z) (t t' : nat) (st st' : run_state) :
  do_sampling P = true ->
  (forall k : nat,
     Z.of_nat k < len_datasets P - 1 ->
     Z.of_nat (length (replay_sample C P runid k))
     = samples_per_class P * num_classes_per_task P) ->
  (t <= t')%nat ->
  (run_tasks C P runid (py_range (Z.of_nat t)) initial_run_state).2 = Ok st ->
  (run_tasks C P runid (py_range (Z.of_nat t')) initial_run_state).2
  = Ok st' ->
  Z.of_nat (length (replay_buffer st))
  = Z.of_nat (Nat.min t (length (datasets P) - 1))
    * (samples_per_class P * num_classes_per_task P)
  /\ replay_buffer st `prefix_of` replay_buffer st'.
Proof.
  intros Hsampling Hbudget Hle Hrun Hrun'.
  apply run_tasks_Ok in Hrun as (_ & -> & _).
  apply run_tasks_Ok in Hrun' as (_ & -> & _).
  rewrite Hsampling. split.
  - clear Hle. induction t as [|t IH]; [simpl; lia|].
    rewrite seq_S, flat_map_app, length_app, Nat2Z.inj_add, IH.
    cbn [flat_map Nat.add]. rewrite app_nil_r, andb_true_r.
    unfold len_datasets in *.
    destruct (Z.ltb_spec (Z.of_nat t) (Z.of_nat (length (datasets P)) - 1))
      as [Hlt|Hge].
    + rewrite Hbudget by done.
      rewrite !Nat.min_l by lia. lia.
    + rewrite !Nat.min_r by lia. simpl. lia.
  - replace t' with (t + (t' - t))%nat by lia.
    rewrite seq_app, flat_map_app. by eexists.
Qed.

Lemma replay_buffer_size_and_growth_witness :
  let C := example_collaborators (constant_loss (Fin 1)) in
  let P := example_params VAN 2 false true in
  exists st st',
    (run_tasks C P 0 (py_range 2) initial_run_state).2 = Ok st
    /\ (run_tasks C P 0 (py_range 3) initial_run_state).2 = Ok st'
    /\ Z.of_nat (length (replay_buffer st)) = 2 * (3 * 2)
    /\ replay_buffer st `prefix_of` replay_buffer st'.
Proof.
  intros C P.
  destruct (run_tasks C P 0 (py_range 2) initial_run_state).2
    as [st|e] eqn:Hrun; [|vm_compute in Hrun; discriminate Hrun].
  destruct (run_tasks C P 0 (py_range 3) initial_run_state).2
    as [st'|e] eqn:Hrun'; [|vm_compute in Hrun'; discriminate Hrun'].
  exists st, st'. split; [reflexivity|]. split; [reflexivity|].
  apply (replay_buffer_size_and_growth C P 0 2 3 st st').
  - reflexivity.
  - intros k Hk. assert (Hk' : Z.of_nat k < 2) by exact Hk.
    assert (k = 0 \/ k = 1)%nat as [-> | ->] by lia.
    + vm_compute. reflexivity.
    + vm_compute. reflexivity.
  - lia.
  - exact Hrun.
  - exact Hrun'.
Defined.

(** ** Early stopping: claims *)



(** ** More on the Evaluator *)

Section EvaluatorEdge.

Variable predict : matrix -> image -> label -> bool.

Lemma np_sum_bounds (bs : list bool) : 0 <= np_sum bs <= Z.of_nat (length bs).
Proof. induction bs as [|[|] bs IH]; simpl length; simpl np_sum; lia. Qed.

Lemma whole_pass_bounds (m : matrix) (s : split) :
  0 <= (whole_pass predict m s).1 <= (whole_pass predict m s).2.
Proof.
  unfold whole_pass, correct_predictions. cbn [fst snd].
  pose proof (np_sum_bounds (zip_with (predict m) (images s) (labels s))).
  rewrite length_zip_with in H. lia.
Qed.

(** A set below one chunk, scored when [i] still holds the last chunk of
    an earlier set: the residual slice starts past the end. *)
Lemma eval_one_task_stale (test_data : list task_data)
    (class_attrs : matrix) (num_classes_per_task : Z) (key : test_set_key)
    (task : Z) (loc : eval_locals) (d : task_data) (i : Z) :
  py_getitem test_data task = Ok d ->
  var_i loc = Some i ->
  0 <= i ->
  Z.of_nat (length (images (get_split d key))) < 10 ->
  eval_one_task predict test_data class_attrs num_classes_per_task key
    false task loc
  = Ok ({| var_i := Some i;
           var_masked_class_attrs :=
             Some (attr_mask class_attrs task num_classes_per_task) |},
        (0, Z.of_nat (length (images (get_split d key))))).
Proof.
  intros Hd Hi Hi0 Hn. unfold eval_one_task. rewrite Hd. cbn [rbind negb].
  unfold samples_at_a_time.
  rewrite Z.div_small by lia. change (py_range 0) with (@nil Z).
  cbn [score_chunks]. rewrite Hi. cbn [rbind read_local].
  unfold correct_predictions.
  rewrite py_slice_beyond.
  - done.
  - lia.
  - pose proof (Z.mod_pos_bound
                  (Z.of_nat (length (images (get_split d key)))) 10).
    lia.
Qed.

(** A set below one chunk at a point where [i] was never assigned. *)
Lemma eval_one_task_unbound (test_data : list task_data)
    (class_attrs : matrix) (num_classes_per_task : Z) (key : test_set_key)
    (task : Z) (loc : eval_locals) (d : task_data) :
  py_getitem test_data task = Ok d ->
  var_i loc = None ->
  Z.of_nat (length (images (get_split d key))) < 10 ->
  eval_one_task predict test_data class_attrs num_classes_per_task key
    false task loc
  = Raise (UnboundLocalError "i").
Proof.
  intros Hd Hi Hn. unfold eval_one_task. rewrite Hd. cbn [rbind negb].
  unfold samples_at_a_time.
  rewrite Z.div_small by lia. change (py_range 0) with (@nil Z).
  cbn [score_chunks]. by rewrite Hi.
Qed.

Lemma eval_one_task_bound (test_data : list task_data)
    (class_attrs : matrix) (num_classes_per_task : Z) (key : test_set_key)
    (task : nat) (loc : eval_locals) (d : task_data) (i : Z) :
  test_data !! task = Some d ->
  var_i loc = Some i ->
  0 <= i ->
  exists i',
    0 <= i'
    /\ eval_one_task predict test_data class_attrs num_classes_per_task key
         false (Z.of_nat task) loc
       = Ok ({| var_i := Some i';
                var_masked_class_attrs :=
                  Some (attr_mask class_attrs (Z.of_nat task)
                          num_classes_per_task) |},
             score_after_first predict class_attrs num_classes_per_task key task d).
Proof.
  intros Hd Hi Hi0. unfold score_after_first.
  destruct (Z.leb_spec 10 (Z.of_nat (length (images (get_split d key)))))
    as [Hn|Hn].
  - eexists. split;
      [|apply eval_one_task_multi_head; [by apply py_getitem_Some|done]].
    assert (1 <= Z.of_nat (length (images (get_split d key))) / 10)
      by (apply Z.div_le_lower_bound; lia).
    lia.
  - exists i. split; [done|].
    by apply eval_one_task_stale; [apply py_getitem_Some|..].
Qed.

Lemma eval_tasks_bound (test_data : list task_data) (class_attrs : matrix)
    (num_classes_per_task : Z) (key : test_set_key) :
  forall (test_tasks : list (list label)) (k : nat) (loc : eval_locals)
         (i : Z) (list_acc : list accuracy),
    var_i loc = Some i ->
    0 <= i ->
    (k <= length test_data)%nat ->
    eval_tasks predict test_data class_attrs num_classes_per_task key false
      test_tasks (Z.of_nat k) loc list_acc
    = if decide (k + length test_tasks <= length test_data)%nat
      then Ok (list_acc ++
               imap (fun j d =>
                       score_after_first predict class_attrs
                         num_classes_per_task key (k + j) d)
                 (take (length test_tasks) (drop k test_data)))
      else Raise IndexError.
Proof.
  induction test_tasks as [|labels rest IH];
    intros k loc i list_acc Hi Hi0 Hk.
  - simpl. rewrite decide_True by lia. by rewrite app_nil_r.
  - cbn [eval_tasks length].
    destruct (test_data !! k) as [d|] eqn:Hd.
    + pose proof (lookup_lt_Some _ _ _ Hd) as Hlt.
      destruct (eval_one_task_bound test_data class_attrs
                  num_classes_per_task key k loc d i Hd Hi Hi0)
        as (i' & Hi' & ->).
      cbn [rbind].
      replace (Z.of_nat k + 1) with (Z.of_nat (S k)) by lia.
      rewrite (IH (S k) _ i') by (done || lia).
      destruct (decide (S k + length rest <= length test_data)%nat)
        as [Hle|Hgt].
      * rewrite decide_True by lia.
        rewrite (drop_S _ _ _ Hd). cbn [take imap].
        rewrite <- app_assoc. cbn [app]. do 3 f_equal.
        -- by rewrite Nat.add_0_r.
        -- apply imap_ext. intros j d' _. simpl. f_equal. lia.
      * by rewrite decide_False by lia.
    + apply lookup_ge_None in Hd.
      rewrite decide_False by lia.
      unfold eval_one_task. rewrite py_getitem_nat.
      assert (Hnone : test_data !! k = None) by (apply lookup_ge_None; lia).
      by rewrite Hnone.
Qed.

End EvaluatorEdge.

Section EvaluatorRuns.

Variable predict : matrix -> image -> label -> bool.

(** The multi-head Evaluator from its first task on, when the first set
    has a full chunk. *)
Lemma eval_tasks_from_start (test_data : list task_data)
    (class_attrs : matrix) (num_classes_per_task : Z) (key : test_set_key)
    (test_tasks : list (list label)) (d0 : task_data) :
  test_data !! 0%nat = Some d0 ->
  10 <= Z.of_nat (length (images (get_split d0 key))) ->
  eval_tasks predict test_data class_attrs num_classes_per_task key false
    test_tasks 0 {| var_i := None; var_masked_class_attrs := None |} []
  = if decide (length test_tasks <= length test_data)%nat
    then Ok (imap (score_after_first predict class_attrs
                     num_classes_per_task key)
               (take (length test_tasks) test_data))
    else Raise IndexError.
Proof.
  intros Hd Hn. destruct test_tasks as [|labels rest].
  - cbn [eval_tasks length]. by rewrite decide_True by lia.
  - cbn [eval_tasks length].
    rewrite (eval_one_task_multi_head predict _ _ _ _ 0 _ d0);
      [|by apply (py_getitem_Some _ 0%nat)|done].
    cbn [rbind]. change (0 + 1) with (Z.of_nat 1).
    pose proof (lookup_lt_Some _ _ _ Hd) as Hlt.
    assert (1 <= Z.of_nat (length (images (get_split d0 key))) / 10)
      by (apply Z.div_le_lower_bound; lia).
    rewrite (eval_tasks_bound predict _ _ _ _ _ 1%nat _
               (Z.of_nat (length (images (get_split d0 key))) / 10 - 1))
      by (done || lia).
    destruct (decide (1 + length rest <= length test_data)%nat) as [Hle|Hgt].
    + rewrite decide_True by lia.
      destruct test_data as [|d test_data]; [done|].
      injection Hd as ->. cbn [take drop imap app]. rewrite drop_0.
      do 2 f_equal. unfold score_after_first.
      by destruct (Z.leb_spec 10 (Z.of_nat (length (images (get_split d0 key)))));
        [|lia].
    + by rewrite decide_False by lia.
Qed.

Lemma score_after_first_bounds (class_attrs : matrix)
    (num_classes_per_task : Z) (key : test_set_key) (task : nat)
    (d : task_data) :
  let acc :=
    score_after_first predict class_attrs num_classes_per_task key task d in
  0 <= acc.1 <= acc.2.
Proof.
  unfold score_after_first.
  destruct (10 <=? _); [apply whole_pass_bounds|]. cbn. lia.
Qed.

(** Under single-head evaluation no task is ever scored. *)
Lemma eval_tasks_single_head (test_data : list task_data)
    (class_attrs : matrix) (num_classes_per_task : Z) (key : test_set_key)
    (labels : list label) (rest : list (list label)) :
  exists e,
    eval_tasks predict test_data class_attrs num_classes_per_task key true
      (labels :: rest) 0
      {| var_i := None; var_masked_class_attrs := None |} []
    = Raise e.
Proof.
  cbn [eval_tasks]. unfold eval_one_task.
  cbn [negb var_masked_class_attrs var_i].
  destruct (py_getitem test_data 0) as [d|e]; cbn [rbind]; [|by eexists].
  destruct (py_range _) as [|i0 chunks]; cbn [score_chunks rbind read_local];
    by eexists.
Qed.

End EvaluatorRuns.

(** X1. Multi-head evaluation when the first set has at least one full
    chunk of 10: with no more tasks than sets, the Evaluator returns, for
    every task in order, the whole-set score if its set has a full chunk
    and 0 correct out of [n] if it has not (the residual step then reads
    the loop variable of an earlier task and slices past the end); with
    more tasks than sets it raises [IndexError]. *)
Theorem evaluator_result_after_full_first_set
    (predict : matrix -> image -> label -> bool)
    (test_data : list task_data) (class_attrs : matrix)
    (num_classes_per_task : Z) (test_tasks : list (list label))
    (cross_validate_mode : bool) (d0 : task_data) :
  let key := if cross_validate_mode then TrainKey else TestKey in
  test_data !! 0%nat = Some d0 ->
  10 <= Z.of_nat (length (images (get_split d0 key))) ->
  test_task_sequence predict test_data class_attrs num_classes_per_task
    test_tasks cross_validate_mode false
  = if decide (length test_tasks <= length test_data)%nat
    then Ok (imap (score_after_first predict class_attrs
                     num_classes_per_task key)
               (take (length test_tasks) test_data))
    else Raise IndexError.
Proof.
  intros key Hd Hn. unfold test_task_sequence.
  by apply eval_tasks_from_start with (d0 := d0).
Qed.

Lemma evaluator_result_after_full_first_set_witness :
  test_task_sequence always_correct [ten_examples; three_examples] attrs4 2
    [[0; 1]; [2; 3]] false false
  = Ok [(10, 10); (0, 3)]
  /\ test_task_sequence always_correct [ten_examples] attrs4 2
       [[0; 1]; [2; 3]] false false
     = Raise IndexError.
Proof.
  split.
  - rewrite (evaluator_result_after_full_first_set always_correct
               [ten_examples; three_examples] attrs4 2 [[0; 1]; [2; 3]] false
               ten_examples eq_refl); [reflexivity|].
    vm_compute. discriminate.
  - rewrite (evaluator_result_after_full_first_set always_correct
               [ten_examples] attrs4 2 [[0; 1]; [2; 3]] false
               ten_examples eq_refl); [reflexivity|].
    vm_compute. discriminate.
Defined.

(** X2. Multi-head evaluation when the first set is below one chunk (the
    empty set included): the chunk loop of the first task does not run,
    the residual step reads [i] before any assignment, and the call raises
    [UnboundLocalError] whatever the network and the other tasks are. *)
Theorem evaluator_short_first_set_raises
    (predict : matrix -> image -> label -> bool)
    (test_data : list task_data) (class_attrs : matrix)
    (num_classes_per_task : Z) (labels : list label)
    (rest : list (list label)) (cross_validate_mode : bool)
    (d0 : task_data) :
  let key := if cross_validate_mode then TrainKey else TestKey in
  test_data !! 0%nat = Some d0 ->
  Z.of_nat (length (images (get_split d0 key))) < 10 ->
  test_task_sequence predict test_data class_attrs num_classes_per_task
    (labels :: rest) cross_validate_mode false
  = Raise (UnboundLocalError "i").
Proof.
  intros key Hd Hn. unfold test_task_sequence. cbn [eval_tasks].
  rewrite (eval_one_task_unbound predict _ _ _ _ 0 _ d0);
    [done|by apply (py_getitem_Some _ 0%nat)|done|done].
Qed.

Lemma evaluator_short_first_set_raises_witness :
  test_task_sequence always_correct [three_examples; ten_examples] attrs4 2
    [[0; 1]; [2; 3]] true false
  = Raise (UnboundLocalError "i").
Proof.
  apply (evaluator_short_first_set_raises always_correct
           [three_examples; ten_examples] attrs4 2 [0; 1] [[2; 3]] true
           three_examples eq_refl).
  vm_compute. reflexivity.
Defined.

(** The shape of what the Evaluator returns. *)
Lemma test_task_sequence_Ok_shape
    (predict : matrix -> image -> label -> bool)
    (test_data : list task_data) (class_attrs : matrix)
    (num_classes_per_task : Z) (test_tasks : list (list label))
    (cross_validate_mode eval_single_head : bool)
    (list_acc : list accuracy) :
  test_task_sequence predict test_data class_attrs num_classes_per_task
    test_tasks cross_validate_mode eval_single_head = Ok list_acc ->
  length list_acc = length test_tasks
  /\ Forall (fun acc : accuracy => 0 <= acc.1 <= acc.2) list_acc.
Proof.
  unfold test_task_sequence.
  set (key := if cross_validate_mode then TrainKey else TestKey).
  destruct test_tasks as [|labels rest]; [by intros [= <-]|].
  destruct eval_single_head.
  { destruct (eval_tasks_single_head predict test_data class_attrs
                num_classes_per_task key labels rest) as [e ->].
    done. }
  destruct (test_data !! 0%nat) as [d0|] eqn:Hd.
  2: { cbn [eval_tasks]. unfold eval_one_task.
       rewrite (py_getitem_nat _ 0%nat), Hd. done. }
  destruct (Z.le_gt_cases 10 (Z.of_nat (length (images (get_split d0 key)))))
    as [Hn|Hn].
  - rewrite (eval_tasks_from_start predict _ _ _ _ _ d0 Hd Hn).
    destruct (decide _) as [Hle|]; [|done]. intros [= <-]. split.
    + rewrite length_imap, length_take. cbn [length] in *. lia.
    + apply Forall_lookup. intros j acc Hacc.
      rewrite list_lookup_imap in Hacc.
      destruct (take _ _ !! j) as [d|]; [|done].
      injection Hacc as <-. apply score_after_first_bounds.
  - cbn [eval_tasks].
    rewrite (eval_one_task_unbound predict _ _ _ _ 0 _ d0);
      [done|by apply (py_getitem_Some _ 0%nat)|done|lia].
Qed.


(** X3. Whenever the Evaluator returns, in either mode and on any data,
    it returns one entry per task of [test_tasks]; the entry of task [k]
    is the pair of a count of correct examples and the size [n] of the
    set of task [k] that line 455 divides it by, with
    [0 <= corrects <= n]; and the set of the first task has at least 10
    examples.  The accuracy [corrects / float(n)] is thus a number
    between 0 and 1 for every set that is not empty; the set of a later
    task may be empty, and its entry is then [0 / float(0)]. *)
Theorem evaluator_counts_within_set_size
    (predict : matrix -> image -> label -> bool)
    (test_data : list task_data) (class_attrs : matrix)
    (num_classes_per_task : Z) (test_tasks : list (list label))
    (cross_validate_mode eval_single_head : bool)
    (list_acc : list accuracy) :
  let key := if cross_validate_mode then TrainKey else TestKey in
  test_task_sequence predict test_data class_attrs num_classes_per_task
    test_tasks cross_validate_mode eval_single_head = Ok list_acc ->
  length list_acc = length test_tasks
  /\ forall (k : nat) (acc : accuracy),
       list_acc !! k = Some acc ->
       exists d,
         test_data !! k = Some d
         /\ acc.2 = Z.of_nat (length (images (get_split d key)))
         /\ 0 <= acc.1 <= acc.2
         /\ (k = 0%nat -> 10 <= acc.2).
Proof.
  intros key H.
  split; [by apply test_task_sequence_Ok_shape in H as [H _]|].
  revert H. unfold test_task_sequence. fold key.
  destruct test_tasks as [|labels rest]; [by intros [= <-] k acc ?|].
  destruct eval_single_head.
  { destruct (eval_tasks_single_head predict test_data class_attrs
                num_classes_per_task key labels rest) as [e ->].
    done. }
  destruct (test_data !! 0%nat) as [d0|] eqn:Hd.
  2: { cbn [eval_tasks]. unfold eval_one_task.
       rewrite (py_getitem_nat _ 0%nat), Hd. done. }
  destruct (Z.le_gt_cases 10 (Z.of_nat (length (images (get_split d0 key)))))
    as [Hn|Hn].
  - rewrite (eval_tasks_from_start predict _ _ _ _ _ d0 Hd Hn).
    destruct (decide _) as [Hle|]; [|done]. intros [= <-] k acc Hacc.
    rewrite list_lookup_imap in Hacc.
    destruct (take _ _ !! k) as [d|] eqn:Hk; [|done].
    injection Hacc as <-.
    apply lookup_take_Some in Hk as [Hk _].
    exists d. split; [done|].
    pose proof (score_after_first_bounds predict class_attrs
                  num_classes_per_task key k d) as Hb.
    cbv zeta in Hb. split.
    { unfold score_after_first, whole_pass. by destruct (10 <=? _). }
    split; [done|]. intros ->. rewrite Hd in Hk. injection Hk as <-.
    unfold score_after_first, whole_pass.
    by destruct (Z.leb_spec 10 (Z.of_nat (length (images (get_split d0 key)))));
      [|lia].
  - cbn [eval_tasks].
    rewrite (eval_one_task_unbound predict _ _ _ _ 0 _ d0);
      [done|by apply (py_getitem_Some _ 0%nat)|done|lia].
Qed.

Lemma evaluator_counts_within_set_size_witness :
  test_task_sequence always_correct [ten_examples; three_examples; no_examples]
    attrs4 1 [[0]; [1]; [2]] false false
  = Ok [(10, 10); (0, 3); (0, 0)]
  /\ length [(10, 10); (0, 3); (0, 0)] = length [[0]; [1]; [2]]
  /\ forall (k : nat) (acc : accuracy),
       [(10, 10); (0, 3); (0, 0)] !! k = Some acc ->
       exists d,
         [ten_examples; three_examples; no_examples] !! k = Some d
         /\ acc.2 = Z.of_nat (length (images (get_split d TestKey)))
         /\ 0 <= acc.1 <= acc.2
         /\ (k = 0%nat -> 10 <= acc.2).
Proof.
  split; [reflexivity|].
  apply (evaluator_counts_within_set_size always_correct
           [ten_examples; three_examples; no_examples] attrs4 1
           [[0]; [1]; [2]] false false).
  reflexivity.
Defined.

Lemma eval_tasks_ignores_labels
    (predict : matrix -> image -> label -> bool)
    (test_data : list task_data) (class_attrs : matrix)
    (num_classes_per_task : Z) (key : test_set_key) (single_head : bool) :
  forall (tasks tasks' : list (list label)) (task : Z) (loc : eval_locals)
         (list_acc : list accuracy),
    length tasks = length tasks' ->
    eval_tasks predict test_data class_attrs num_classes_per_task key
      single_head tasks task loc list_acc
    = eval_tasks predict test_data class_attrs num_classes_per_task key
        single_head tasks' task loc list_acc.
Proof.
  induction tasks as [|l tasks IH]; intros [|l' tasks'] task loc list_acc Hlen;
    try done.
  cbn [eval_tasks].
  destruct (eval_one_task _ _ _ _ _ _ _ _) as [[loc' acc]|e]; [|done].
  cbn [rbind]. apply IH. by injection Hlen.
Qed.

(** X4. The Evaluator never looks at the labels of the tasks it is given:
    two task lists of the same length give the same result, so the
    classes a task is scored on are fixed by its position and
    [num_classes_per_task] alone. *)
Theorem evaluator_ignores_task_labels
    (predict : matrix -> image -> label -> bool)
    (test_data : list task_data) (class_attrs : matrix)
    (num_classes_per_task : Z) (tasks tasks' : list (list label))
    (cross_validate_mode eval_single_head : bool) :
  length tasks = length tasks' ->
  test_task_sequence predict test_data class_attrs num_classes_per_task
    tasks cross_validate_mode eval_single_head
  = test_task_sequence predict test_data class_attrs num_classes_per_task
      tasks' cross_validate_mode eval_single_head.
Proof. intros H. unfold test_task_sequence. by apply eval_tasks_ignores_labels. Qed.

Lemma evaluator_ignores_task_labels_witness :
  test_task_sequence always_correct [ten_examples; three_examples] attrs4 2
    [[0; 1]; [2; 3]] false false
  = test_task_sequence always_correct [ten_examples; three_examples] attrs4 2
      [[3]; []] false false.
Proof.
  by apply (evaluator_ignores_task_labels always_correct
              [ten_examples; three_examples] attrs4 2 [[0; 1]; [2; 3]]
              [[3]; []] false false).
Defined.

(** ** More on the set-up of a task *)

Lemma insert_cons_Permutation {A} (l : list A) (j : nat) (b x : A) :
  l !! j = Some b -> b :: <[j := x]> l ≡ₚ x :: l.
Proof.
  revert j. induction l as [|y l IH]; intros [|j] H; try done.
  - injection H as ->. apply perm_swap.
  - cbn in H. cbn [insert list_insert].
    change (list_insert j x l) with (<[j := x]> l).
    rewrite (perm_swap y b), (IH j H). apply perm_swap.
Qed.

Lemma swap_Permutation {A} (l : list A) (i j : nat) : swap l i j ≡ₚ l.
Proof.
  unfold swap.
  destruct (l !! i) as [a|] eqn:Hi; [|done].
  destruct (l !! j) as [b|] eqn:Hj; [|done].
  revert i j Hi Hj. induction l as [|x l IH]; intros [|i] [|j] Hi Hj;
    try done; cbn in Hi, Hj; cbn [insert list_insert].
  - by injection Hi as ->; injection Hj as ->.
  - injection Hi as ->.
    change (list_insert j a l) with (<[j := a]> l).
    by apply insert_cons_Permutation.
  - injection Hj as ->.
    change (list_insert i b l) with (<[i := b]> l).
    by apply insert_cons_Permutation.
  - change (list_insert i b (list_insert j a l))
      with (<[i := b]> (<[j := a]> l)).
    by rewrite (IH i j).
Qed.

Lemma shuffle_down_Permutation {A} (draw : nat -> nat) (i : nat) (l : list A) :
  shuffle_down draw i l ≡ₚ l.
Proof.
  revert l. induction i as [|i IH]; intros l; simpl; [done|].
  by rewrite IH, swap_Permutation.
Qed.

Lemma np_random_shuffle_Permutation {A} (draw : nat -> nat) (l : list A) :
  np_random_shuffle draw l ≡ₚ l.
Proof. apply shuffle_down_Permutation. Qed.

(** Indexing by a rearranged index list rearranges the result. *)
Lemma np_take_Permutation {A} (arr : list A) (p q : list Z) :
  p ≡ₚ q ->
  forall l, np_take arr p = Ok l ->
            exists l', np_take arr q = Ok l' /\ l ≡ₚ l'.
Proof.
  induction 1 as [|i p q Hpq IH|i j p|p q r Hpq IH1 Hqr IH2]; intros l Hl.
  - exists l. by split.
  - cbn [np_take] in *.
    destruct (py_getitem arr i) as [a|]; cbn [rbind] in *; [|done].
    destruct (np_take arr p) as [lp|]; cbn [rbind] in *; [|done].
    injection Hl as <-.
    destruct (IH lp eq_refl) as (lq & -> & Hperm).
    cbn [rbind]. eexists. split; [done|]. by constructor.
  - cbn [np_take] in *.
    destruct (py_getitem arr j) as [b|]; cbn [rbind] in *; [|done].
    destruct (py_getitem arr i) as [a|]; cbn [rbind] in *; [|done].
    destruct (np_take arr p) as [lp|]; cbn [rbind] in *; [|done].
    injection Hl as <-. eexists. split; [done|]. apply perm_swap.
  - destruct (IH1 l Hl) as (l1 & H1 & Hp1).
    destruct (IH2 l1 H1) as (l2 & H2 & Hp2).
    exists l2. split; [done|]. by etrans.
Qed.

Lemma np_take_seq {A} (arr : list A) (m k : nat) :
  (k + m <= length arr)%nat ->
  np_take arr (map Z.of_nat (seq k m)) = Ok (take m (drop k arr)).
Proof.
  revert k. induction m as [|m IH]; intros k Hk; [by rewrite take_0|].
  cbn [seq map np_take]. rewrite py_getitem_nat.
  destruct (lookup_lt_is_Some_2 arr k) as [a Ha]; [lia|].
  rewrite Ha. cbn [rbind]. rewrite IH by lia. cbn [rbind].
  by rewrite (drop_S _ _ _ Ha).
Qed.

Lemma np_take_range {A} (arr : list A) :
  np_take arr (py_range (Z.of_nat (length arr))) = Ok arr.
Proof.
  rewrite py_range_seq, np_take_seq by lia.
  by rewrite drop_0, take_ge.
Qed.

Lemma py_getitem_zip {A B} (a : list A) (b : list B) (i : Z) (x : A) (y : B) :
  length a = length b ->
  py_getitem a i = Ok x -> py_getitem b i = Ok y ->
  py_getitem (zip a b) i = Ok (x, y).
Proof.
  unfold py_getitem. intros Hlen. rewrite length_zip_with, <- Hlen, Nat.min_id.
  cbv zeta. set (j := if i <? 0 then i + Z.of_nat (length a) else i).
  destruct (j <? 0); [done|].
  destruct (a !! Z.to_nat j) as [x'|] eqn:Ha; [|done].
  destruct (b !! Z.to_nat j) as [y'|] eqn:Hb; [|done].
  intros [= ->] [= ->].
  assert (H : zip a b !! Z.to_nat j = Some (x, y))
    by (apply lookup_zip_with_Some; eauto).
  by rewrite H.
Qed.

Lemma np_take_zip {A B} (a : list A) (b : list B) (p : list Z)
    (la : list A) (lb : list B) :
  length a = length b ->
  np_take a p = Ok la -> np_take b p = Ok lb ->
  np_take (zip a b) p = Ok (zip la lb).
Proof.
  intros Hlen. revert la lb. induction p as [|i p IH]; intros la lb.
  - by intros [= <-] [= <-].
  - cbn [np_take].
    destruct (py_getitem a i) as [x|] eqn:Hx; cbn [rbind]; [|done].
    destruct (np_take a p) as [la'|]; cbn [rbind]; [|done].
    destruct (py_getitem b i) as [y|] eqn:Hy; cbn [rbind]; [|done].
    destruct (np_take b p) as [lb'|]; cbn [rbind]; [|done].
    intros [= <-] [= <-].
    rewrite (py_getitem_zip _ _ _ _ _ Hlen Hx Hy). cbn [rbind].
    by rewrite (IH la' lb').
Qed.

(** Indexing by a shuffle of [range(len(arr))] rearranges [arr]. *)
Lemma np_take_shuffle {A} (draw : nat -> nat) (arr l : list A) :
  np_take arr (np_random_shuffle draw (py_range (Z.of_nat (length arr))))
  = Ok l ->
  l ≡ₚ arr.
Proof.
  intros H.
  destruct (np_take_Permutation arr _ _
              (np_random_shuffle_Permutation draw
                 (py_range (Z.of_nat (length arr)))) l H) as (l' & Hl' & Hp).
  rewrite np_take_range in Hl'. by injection Hl' as <-.
Qed.

(** What lines 200-235 make of the training data. *)
Lemma assemble_task_shuffle (C : collaborators) (P : params)
    (runid task : Z) (st st' : run_state) (env : task_env) :
  assemble_task C P runid task st = Ok (env, st') ->
  num_train_examples env = Z.of_nat (length (task_train_images env))
  /\ np_take (task_train_images env)
       (np_random_shuffle (shuffle_draw C runid task)
          (py_range (num_train_examples env))) = Ok (train_x env)
  /\ np_take (task_train_labels env)
       (np_random_shuffle (shuffle_draw C runid task)
          (py_range (num_train_examples env))) = Ok (train_y env).
Proof.
  unfold assemble_task. intros H.
  destruct (py_getitem (datasets P) task) as [d|]; cbn [rbind] in H; [|done].
  destruct (if do_sampling P && (0 <? task) then _ else _)
    as [imgs lbls] in H.
  destruct (py_getitem (task_labels P) task) as [labels_t|];
    cbn [rbind] in H; [|done].
  destruct (if train_single_epoch P then _ else _) as [n|] in H;
    cbn [rbind] in H; [|done].
  destruct (np_take imgs _) as [x|] eqn:Hx; cbn [rbind] in H; [|done].
  destruct (np_take lbls _) as [y|] eqn:Hy; cbn [rbind] in H; [|done].
  destruct (np_take _ _) as [w|] eqn:Hw in H; cbn [rbind] in H; [|done].
  inversion H; subst; clear H. cbn. done.
Qed.

(** X5. The shuffle of lines 231-234 loses nothing and keeps every image
    with its label: when the assembled set has as many labels as images,
    the shuffled pairs [(train_x[j], train_y[j])] are a rearrangement of
    the assembled pairs, whatever the draws of the shuffle are. *)
Theorem shuffle_keeps_examples_aligned (C : collaborators) (P : params)
    (runid task : Z) (st st' : run_state) (env : task_env) :
  assemble_task C P runid task st = Ok (env, st') ->
  length (task_train_labels env) = length (task_train_images env) ->
  zip (train_x env) (train_y env)
  ≡ₚ zip (task_train_images env) (task_train_labels env).
Proof.
  intros H Hlen.
  apply assemble_task_shuffle in H as (Hn & Hx & Hy).
  pose proof (np_take_zip _ _ _ _ _ (eq_sym Hlen) Hx Hy) as Hzip.
  rewrite Hn in Hzip.
  replace (length (task_train_images env))
    with (length (zip (task_train_images env) (task_train_labels env)))
    in Hzip by (rewrite length_zip_with; lia).
  by apply np_take_shuffle in Hzip.
Qed.

Lemma shuffle_keeps_examples_aligned_witness :
  let C :=
    with_shuffle_draw (example_collaborators (constant_loss (Fin 1)))
      (fun _ _ _ => 0%nat) in
  let P := example_params VAN 2 false false in
  exists env st',
    assemble_task C P 0 0 initial_run_state = Ok (env, st')
    /\ take 3 (zip (train_x env) (train_y env)) = [(1, 0); (2, 0); (3, 0)]
    /\ zip (train_x env) (train_y env)
       ≡ₚ zip (task_train_images env) (task_train_labels env).
Proof.
  intros C P.
  destruct (assemble_task C P 0 0 initial_run_state) as [[env st']|e] eqn:E;
    [|vm_compute in E; discriminate E].
  exists env, st'. split; [reflexivity|].
  assert (Henv : env = match assemble_task C P 0 0 initial_run_state with
                       | Ok r => r.1
                       | Raise _ => env
                       end) by (by rewrite E).
  vm_compute in Henv.
  split; [by rewrite Henv|].
  apply (shuffle_keeps_examples_aligned C P 0 0 initial_run_state st' env E).
  by rewrite Henv.
Defined.

(** A slice that reaches the end of the sequence is a tail of it. *)
Lemma py_slice_to_end {A} (l : list A) (lo hi : Z) :
  Z.of_nat (length l) <= hi ->
  py_slice l lo hi
  = drop (Z.to_nat (clamp_index (Z.of_nat (length l)) lo)) l.
Proof.
  intros Hhi. unfold py_slice.
  assert (Hc : clamp_index (Z.of_nat (length l)) hi = Z.of_nat (length l)).
  { unfold clamp_index. destruct (Z.ltb_spec hi 0); lia. }
  rewrite Hc. apply take_ge. rewrite length_drop. lia.
Qed.

(** X11. A training set smaller than the batch size: the modulus of
    line 254 is negative, the offset lies in (num_train_examples -
    batch_size, 0], and the three slices of the step are tails of the
    shuffled arrays: every batch then holds fewer than [batch_size]
    examples, and nothing is raised. *)
Theorem small_set_gives_short_batches (C : collaborators) (P : params)
    (runid task : Z) (st st' : run_state) (env : task_env) (iters : Z) :
  assemble_task C P runid task st = Ok (env, st') ->
  num_train_examples env < batch_size P ->
  exists offset,
    batch_offset P iters (num_train_examples env) = Ok offset
    /\ num_train_examples env - batch_size P < offset <= 0
    /\ match batch_feed_dict P env iters offset with
       | batch_feed x y_ _ sample_weights _ _ _ =>
           x `suffix_of` train_x env
           /\ y_ `suffix_of` train_y env
           /\ sample_weights `suffix_of` task_sample_weights env
           /\ Z.of_nat (length x) < batch_size P
           /\ Z.of_nat (length y_) < batch_size P
           /\ Z.of_nat (length sample_weights) < batch_size P
       | _ => False
       end.
Proof.
  intros Hsetup Hlt.
  apply assemble_task_Ok in Hsetup as [(Hn & Hx & Hy & Hw) _].
  unfold batch_offset, py_mod.
  destruct (Z.eqb_spec (num_train_examples env - batch_size P) 0) as [?|_];
    [lia|].
  eexists. split; [reflexivity|].
  pose proof (Z.mod_neg_bound (iters * batch_size P)
                (num_train_examples env - batch_size P) ltac:(lia)) as Hm.
  split; [lia|]. cbn [batch_feed_dict].
  rewrite !py_slice_to_end by lia.
  repeat split; try (eexists; symmetry; apply take_drop);
    rewrite length_drop; lia.
Qed.

Lemma small_set_gives_short_batches_witness :
  let C := example_collaborators (constant_loss (Fin 1)) in
  let P := with_batch_size (example_params VAN 10 false false) 29 in
  exists env st' offset x y_ a w n i t,
    assemble_task C P 0 0 initial_run_state = Ok (env, st')
    /\ batch_offset P 3 (num_train_examples env) = Ok offset
    /\ offset = -3
    /\ batch_feed_dict P env 3 offset = batch_feed x y_ a w n i t
    /\ length x = 3%nat
    /\ x `suffix_of` train_x env.
Proof.
  intros C P.
  destruct (assemble_task C P 0 0 initial_run_state) as [[env st']|e] eqn:E;
    [|vm_compute in E; discriminate E].
  assert (Henv : env = match assemble_task C P 0 0 initial_run_state with
                       | Ok r => r.1
                       | Raise _ => env
                       end) by (by rewrite E).
  vm_compute in Henv.
  destruct (small_set_gives_short_batches C P 0 0 initial_run_state st' env 3
              E) as (offset & Hoff & Hrange & Hfeed).
  { by rewrite Henv. }
  assert (Hoffset : offset = -3).
  { assert (Hoff' := Hoff). rewrite Henv in Hoff'. vm_compute in Hoff'.
    injection Hoff' as Hoff'. symmetry. exact Hoff'. }
  exists env, st', offset. cbn [batch_feed_dict] in *.
  do 7 eexists. split; [reflexivity|]. split; [exact Hoff|].
  split; [exact Hoffset|]. split; [reflexivity|].
  split; [rewrite Hoffset, Henv; vm_compute; reflexivity|].
  exact (proj1 Hfeed).
Defined.

(** X12. Training for a single epoch with a batch size of 0: the number
    of steps is [num_train_examples // batch_size], and the run raises
    [ZeroDivisionError] while it sets up its first task, after the model
    has been initialised and before any [sess.run] or evaluation. *)
Theorem single_epoch_zero_batch_raises (C : collaborators) (P : params)
    (d : task_data) (labels_0 : list label) :
  train_single_epoch P = true ->
  batch_size P = 0 ->
  0 < num_runs P ->
  datasets P !! 0%nat = Some d ->
  task_labels P !! 0%nat = Some labels_0 ->
  train_task_sequence C P = ([init_run 0], Raise ZeroDivisionError).
Proof.
  intros Hepoch Hbs Hruns Hd Hl. unfold train_task_sequence.
  rewrite (py_range_split 1 (num_runs P)) by lia.
  change (py_range 1) with [0]. cbn [app for_range].
  unfold one_run. rewrite bind_emit. cbn [fst snd].
  pose proof (lookup_lt_Some _ _ _ Hd) as Hlen.
  unfold run_tasks, len_datasets.
  rewrite (py_range_split 1 (Z.of_nat (length (datasets P)))) by lia.
  change (py_range 1) with [0]. cbn [app for_range].
  unfold run_task. rewrite task_setup_eq. cbn [Z.ltb Z.compare].
  unfold assemble_task.
  pose proof (py_getitem_Some _ 0%nat _ Hd) as Hd'.
  pose proof (py_getitem_Some _ 0%nat _ Hl) as Hl'.
  change (Z.of_nat 0) with 0 in Hd', Hl'. rewrite Hd', Hl'.
  cbn [rbind]. rewrite Hepoch, Hbs. rewrite andb_false_r.
  unfold py_floordiv. cbn [Z.eqb rbind bind]. done.
Qed.

Lemma single_epoch_zero_batch_raises_witness :
  let C := example_collaborators (constant_loss (Fin 1)) in
  let P :=
    {| imp_method := EWC; fisher_update_after := 50;
       datasets := [two_class_task 0; two_class_task 2];
       class_attrs := attrs4; num_classes_per_task := 2;
       task_labels := [[0; 1]; [2; 3]];
       cross_validate_mode := false; train_single_epoch := true;
       eval_single_head := false; do_sampling := false;
       samples_per_class := 3; train_iters := 10; batch_size := 0;
       num_runs := 2 |} in
  train_task_sequence C P = ([init_run 0], Raise ZeroDivisionError).
Proof.
  intros C P.
  apply (single_epoch_zero_batch_raises C P (two_class_task 0) [0; 1]);
    reflexivity.
Defined.

(** ** More on a run *)

Section RunShape.

Variable C : collaborators.
Variable P : params.

(** What a task adds to the labels seen so far. *)
Lemma assemble_task_test_labels (runid : Z) (k : nat) (st st' : run_state)
    (env : task_env) :
  assemble_task C P runid (Z.of_nat k) st = Ok (env, st') ->
  exists labels_k,
    task_labels P !! k = Some labels_k
    /\ test_labels st' = test_labels st ++ labels_k.
Proof.
  unfold assemble_task. rewrite !py_getitem_nat. intros H.
  destruct (datasets P !! k) as [d|]; cbn [rbind] in H; [|done].
  destruct (if do_sampling P && (0 <? Z.of_nat k) then _ else _)
    as [imgs lbls] in H.
  destruct (task_labels P !! k) as [labels_k|]; cbn [rbind] in H; [|done].
  destruct (if train_single_epoch P then _ else _) as [n|] in H;
    cbn [rbind] in H; [|done].
  destruct (np_take imgs _) as [x|] in H; cbn [rbind] in H; [|done].
  destruct (np_take lbls _) as [y|] in H; cbn [rbind] in H; [|done].
  destruct (np_take _ _) as [w|] in H; cbn [rbind] in H; [|done].
  inversion H; subst; clear H. cbn. eauto.
Qed.

Lemma task_boundary_test_labels (runid task : Z) (st st' : run_state) :
  (task_boundary C P runid task st).2 = Ok st' ->
  test_labels st' = test_labels st.
Proof.
  unfold task_boundary.
  destruct (task <? len_datasets P - 1); [|by intros [= <-]].
  rewrite bind_lift.
  destruct (py_getitem (task_labels P) task) as [l|]; [|done].
  rewrite bind_emit. cbn [snd]. rewrite bind_lift.
  destruct (py_getitem (datasets P) task) as [d|]; [|done].
  destruct (if do_sampling P then _ else _) as [x y].
  by intros [= <-].
Qed.

Lemma task_evaluation_test_labels (runid task : Z)
    (ft : list (list accuracy)) (st st' : run_state) :
  (task_evaluation C P runid task ft st).2 = Ok st' ->
  test_labels st' = test_labels st.
Proof.
  unfold task_evaluation. intros H.
  apply bind_Ok_inv in H as (fv & _ & H & _).
  rewrite bind_emit in H. cbn in H. by injection H as <-.
Qed.

Lemma run_task_test_labels (runid : Z) (k : nat) (st st' : run_state) :
  (run_task C P runid (Z.of_nat k) st).2 = Ok st' ->
  exists labels_k,
    task_labels P !! k = Some labels_k
    /\ test_labels st' = test_labels st ++ labels_k.
Proof.
  unfold run_task. intros H.
  apply bind_Ok_inv in H as ([env st0] & Hsetup & H & _).
  rewrite task_setup_eq in Hsetup. cbn [snd] in Hsetup.
  apply assemble_task_test_labels in Hsetup as (labels_k & Hk & Hl).
  apply bind_Ok_inv in H as ([ls brk] & _ & H & _).
  unfold after_training in H.
  apply bind_Ok_inv in H as (st1 & Hb & H & _).
  apply task_boundary_test_labels in Hb.
  apply task_evaluation_test_labels in H.
  exists labels_k. split; [done|]. rewrite H, Hb. cbn. done.
Qed.

Lemma run_tasks_test_labels (runid : Z) :
  forall (t : nat) (st : run_state),
    (run_tasks C P runid (py_range (Z.of_nat t)) initial_run_state).2
    = Ok st ->
    (t <= length (task_labels P))%nat
    /\ test_labels st = concat (take t (task_labels P)).
Proof.
  unfold run_tasks. induction t as [|t IH]; intros st H.
  - cbn in H. injection H as <-. split; [lia|done].
  - rewrite py_range_S, for_range_app in H.
    apply bind_Ok_inv in H as (st0 & H0 & H & _).
    cbn [for_range] in H.
    apply bind_Ok_inv in H as (st1 & H1 & H & _).
    cbn in H. injection H as <-.
    apply IH in H0 as (Hle & Hl0).
    apply run_task_test_labels in H1 as (labels_t & Ht & Hl1).
    pose proof (lookup_lt_Some _ _ _ Ht).
    split; [lia|].
    rewrite Hl1, Hl0, (take_S_r _ _ _ Ht), concat_app. cbn.
    by rewrite app_nil_r.
Qed.

(** The accuracies a loop over runs collects. *)
Lemma runs_shape (K : nat) :
  (forall runid st, (one_run C P runid).2 = Ok st -> length (evals st) = K) ->
  forall (range : list Z) (acc runs : list (list ftask_val)),
    (for_range
       (fun runid runs =>
          let+ st := one_run C P runid in
          ret (runs ++ [evals st]))
       range acc).2 = Ok runs ->
    exists new,
      runs = acc ++ new
      /\ length new = length range
      /\ Forall (fun r => length r = K) new.
Proof.
  intros HK. induction range as [|runid range IH]; intros acc runs H.
  - cbn in H. injection H as <-. exists []. by rewrite app_nil_r.
  - cbn [for_range] in H.
    apply bind_Ok_inv in H as (acc' & Hbody & H & _).
    apply bind_Ok_inv in Hbody as (st & Hrun & Hbody & _).
    cbn in Hbody. injection Hbody as <-.
    apply IH in H as (new & -> & Hlen & Hall).
    exists (evals st :: new). rewrite <- app_assoc. split; [done|].
    split; [simpl; lia|]. constructor; [|done]. by apply (HK runid).
Qed.

Lemma one_run_evals (runid : Z) (st : run_state) :
  (one_run C P runid).2 = Ok st -> length (evals st) = length (datasets P).
Proof.
  unfold one_run. rewrite bind_emit. cbn [snd]. unfold len_datasets.
  intros H. by apply run_tasks_Ok in H as (_ & _ & H).
Qed.

End RunShape.

(** X6. The shape of the result: when [train_task_sequence] returns, it
    returns one list per run, [num_runs] in all, and each holds one entry
    per task of [datasets]; a run is never cut short without an
    exception. *)
Theorem runs_have_one_entry_per_task (C : collaborators) (P : params)
    (runs : list (list ftask_val)) :
  (train_task_sequence C P).2 = Ok runs ->
  length runs = Z.to_nat (num_runs P)
  /\ Forall (fun r => length r = length (datasets P)) runs.
Proof.
  unfold train_task_sequence. intros H.
  apply (runs_shape C P (length (datasets P)) (one_run_evals C P)) in H
    as (new & -> & Hlen & Hall).
  rewrite length_py_range in Hlen. by cbn.
Qed.

Lemma runs_have_one_entry_per_task_witness :
  let C := example_collaborators (constant_loss (Fin 1)) in
  let P := example_params GEM 3 false true in
  exists runs,
    (train_task_sequence C P).2 = Ok runs
    /\ length runs = 1%nat
    /\ Forall (fun r => length r = 3%nat) runs.
Proof.
  intros C P.
  destruct (train_task_sequence C P).2 as [runs|e] eqn:E;
    [|vm_compute in E; discriminate E].
  exists runs. split; [reflexivity|].
  apply (runs_have_one_entry_per_task C P runs E).
Defined.

(** X7. The labels seen so far: after the first [t] tasks of a run,
    [test_labels] is the concatenation of the label lists of these tasks,
    in task order (and a run gets that far only if [task_labels] has that
    many entries). *)
Theorem test_labels_accumulate (C : collaborators) (P : params) (runid : Z)
    (t : nat) (st : run_state) :
  (run_tasks C P runid (py_range (Z.of_nat t)) initial_run_state).2 = Ok st ->
  (t <= length (task_labels P))%nat
  /\ test_labels st = concat (take t (task_labels P)).
Proof. apply run_tasks_test_labels. Qed.

Lemma test_labels_accumulate_witness :
  let C := example_collaborators (constant_loss (Fin 1)) in
  let P := example_params VAN 3 false false in
  exists st,
    (run_tasks C P 0 (py_range 2) initial_run_state).2 = Ok st
    /\ (2 <= length (task_labels P))%nat
    /\ test_labels st = [0; 1; 2; 3].
Proof.
  intros C P.
  destruct (run_tasks C P 0 (py_range 2) initial_run_state).2
    as [st|e] eqn:E; [|vm_compute in E; discriminate E].
  exists st. split; [reflexivity|].
  apply (test_labels_accumulate C P 0 2 st E).
Defined.

(** ** The frame of the tasks *)



Section Frame.

Variable C : collaborators.
Variable P : params.








End Frame.



(** ** More on early stopping *)

Lemma checks_upto_1500 (n : Z) :
  n <= 1500 -> (length (List.filter checks_loss (py_range n)) <= 4)%nat.
Proof.
  intros Hn.
  assert (H4 : length (List.filter checks_loss (py_range 1500)) = 4%nat)
    by (vm_compute; reflexivity).
  destruct (Z.le_gt_cases 0 n) as [H0|H0].
  - rewrite (py_range_split n 1500), List.filter_app, length_app in H4
      by lia.
    lia.
  - unfold py_range. replace (Z.to_nat n) with 0%nat by lia. simpl. lia.
Qed.

Section StopFacts.

Variable C : collaborators.
Variable P : params.
Variables runid task : Z.
Variable memory : list task_memory.
Variable env : task_env.

(** The counter never exceeds its start by more than the number of
    checks made, and a [break] means it is above the threshold. *)
Lemma train_loop_counter (ls0 : loop_state) :
  forall (m : nat) (ls : loop_state) (brk : bool),
    (train_loop C P runid task memory env (py_range (Z.of_nat m)) ls0).2
    = Ok (ls, brk) ->
    (ls_i_am_increasing ls
     <= ls_i_am_increasing ls0
        + length (List.filter checks_loss (py_range (Z.of_nat m))))%nat
    /\ (brk = true -> (my_threshold < ls_i_am_increasing ls)%nat).
Proof.
  unfold train_loop. induction m as [|m IH]; intros ls brk H.
  - cbn in H. injection H as <- <-. split; [simpl; lia|done].
  - rewrite py_range_S in *. rewrite for_iters_app in H.
    rewrite List.filter_app, length_app.
    apply bind_Ok_inv in H as ([s b] & Hpre & H & _).
    apply IH in Hpre as [Hc Hb]. destruct b.
    + cbn in H. injection H as <- <-. split; [lia|done].
    + rewrite for_iters_one in H.
      apply train_iteration_Ok_inv in H as (loss & ft & Hesc & _).
      pose proof (early_stopping_check_counts (Z.of_nat m) loss
                    (ls_loss_world s) (ls_i_am_increasing s)) as Hcount.
      rewrite Hesc in Hcount. destruct Hcount as [Hle Hbrk].
      cbn [List.filter]. split; [|by intros ?; apply Hbrk].
      destruct (checks_loss (Z.of_nat m)); simpl length; lia.
Qed.

(** Steps at which the loss is not looked at leave the record and the
    counter alone. *)
Lemma train_loop_quiet (range : list Z) :
  Forall (fun i => checks_loss i = false) range ->
  (forall i ft,
     In i range ->
     exists r, (train_step C P runid task memory env i ft).2 = Ok r) ->
  (forall i, In i range -> isnan (loss_at C runid task i) = false) ->
  forall ls,
    exists ls',
      (train_loop C P runid task memory env range ls).2 = Ok (ls', false)
      /\ ls_loss_world ls' = ls_loss_world ls
      /\ ls_i_am_increasing ls' = ls_i_am_increasing ls.
Proof.
  unfold train_loop.
  induction range as [|i range IH]; intros Hquiet Hstep Hnan ls.
  - exists ls. by cbn.
  - apply Forall_cons in Hquiet as [Hi Hquiet].
    destruct (Hstep i (ftask ls)) as [r Hr]; [by left|].
    pose proof (train_iteration_Ok C P runid task memory env i ls r Hr
                  (Hnan i (or_introl eq_refl))) as Hit.
    rewrite early_stopping_check_skip in Hit by done.
    set (ls1 := {| ftask := r.1; ls_loss_world := ls_loss_world ls;
                   ls_i_am_increasing := ls_i_am_increasing ls |}).
    destruct (IH Hquiet) with (ls := ls1) as (ls' & Hrun & Hw & Hc).
    { intros j ft Hj. apply Hstep. by right. }
    { intros j Hj. apply Hnan. by right. }
    exists ls'. split; [|done].
    assert (Hone : (for_iters (train_iteration C P runid task memory env)
                      [i] ls).2 = Ok (ls1, false))
      by (by rewrite for_iters_one).
    change (i :: range) with ([i] ++ range).
    by rewrite (for_iters_continue _ [i] range ls ls1 Hone).
Qed.

End StopFacts.

(** X9. A loop that starts with the counter at 0, as the first task of a
    run does, cannot leave by [break] before step 1500: the counter has to
    pass the threshold of 4, and the checks are at the steps 1100, 1200,
    ... only.  A task of at most 1500 steps is never stopped early. *)
Theorem no_early_stop_before_step_1500 (C : collaborators) (P : params)
    (runid task : Z) (memory : list task_memory) (env : task_env)
    (ls0 ls : loop_state) (n : Z) :
  ls_i_am_increasing ls0 = 0%nat ->
  (train_loop C P runid task memory env (py_range n) ls0).2 = Ok (ls, true) ->
  1500 < n.
Proof.
  intros H0 H.
  assert (Hn : py_range n = py_range (Z.of_nat (Z.to_nat n))).
  { unfold py_range. by rewrite Nat2Z.id. }
  rewrite Hn in H. apply train_loop_counter in H as [Hc Hb].
  rewrite <- Hn, H0 in Hc. specialize (Hb eq_refl).
  destruct (Z.le_gt_cases n 1500) as [Hle|]; [|lia].
  pose proof (checks_upto_1500 n Hle). unfold my_threshold in Hb. lia.
Qed.

Lemma no_early_stop_before_step_1500_witness :
  let C := example_collaborators (constant_loss PosInf) in
  let P := example_params VAN 1501 false false in
  exists env st1 ls,
    (task_setup C P 0 0 initial_run_state).2 = Ok (env, st1)
    /\ (train_loop C P 0 0 (task_based_memory st1) env (py_range 1501)
          (loop_start st1)).2 = Ok (ls, true)
    /\ 1500 < 1501.
Proof.
  intros C P.
  destruct (task_setup C P 0 0 initial_run_state).2
    as [[env st1]|e] eqn:Hsetup; [|vm_compute in Hsetup; discriminate Hsetup].
  assert (Henv : (env, st1)
                 = match (task_setup C P 0 0 initial_run_state).2 with
                   | Ok r => r
                   | Raise _ => (env, st1)
                   end) by (by rewrite Hsetup).
  vm_compute in Henv. injection Henv as Henv Hst1.
  destruct (train_loop C P 0 0 (task_based_memory st1) env (py_range 1501)
              (loop_start st1)).2 as [[ls brk]|e] eqn:Hloop.
  2: { exfalso. subst env st1. vm_compute in Hloop. discriminate Hloop. }
  assert (Hbrk : brk = true).
  { subst env st1. vm_compute in Hloop. by injection Hloop as _ <-. }
  subst brk. exists env, st1, ls. split; [reflexivity|]. split; [exact Hloop|].
  apply (no_early_stop_before_step_1500 C P 0 0 (task_based_memory st1) env
           (loop_start st1) ls 1501); [by rewrite Hst1|exact Hloop].
Defined.

(** X10. The record of losses and the counter of checks without
    improvement belong to the run, not to the task: a task is set up with
    the counter its predecessor left.  If that counter is at the
    threshold or above, as after a task that was stopped early, the loop
    of the task leaves at step 1100, its first check, as soon as the loss
    there is not below the largest recorded loss. *)
Theorem early_stop_counter_carries_over (C : collaborators) (P : params)
    (runid task : Z) (st st1 : run_state) (env : task_env) :
  let loop := train_loop C P runid task (task_based_memory st1) env in
  (task_setup C P runid task st).2 = Ok (env, st1) ->
  (my_threshold <= i_am_increasing st)%nat ->
  1100 < num_iters env ->
  (forall i ft,
     0 <= i <= 1100 ->
     exists r,
       (train_step C P runid task (task_based_memory st1) env i ft).2
       = Ok r) ->
  (forall i, 0 <= i <= 1100 -> isnan (loss_at C runid task i) = false) ->
  float_ltb (loss_at C runid task 1100) (np_max (loss_world st)) = false ->
  exists ls',
    loop (py_range (num_iters env)) (loop_start st1)
    = loop (py_range 1101) (loop_start st1)
    /\ (loop (py_range (num_iters env)) (loop_start st1)).2 = Ok (ls', true).
Proof.
  intros loop Hsetup Hthr Hn Hstep Hnan Hflat.
  rewrite task_setup_eq in Hsetup. cbn [snd] in Hsetup.
  apply assemble_task_Ok in Hsetup as (_ & _ & _ & _ & Hw & Hc & _).
  destruct (train_loop_quiet C P runid task (task_based_memory st1) env
              (py_range 1100)) with (ls := loop_start st1)
    as (ls & Hquiet & Hlw & Hlc).
  { apply Forall_forall. intros i Hi. apply no_check_before_1100.
    unfold py_range in Hi. apply list_elem_of_In, in_map_iff in Hi
      as (j & <- & Hj). apply in_seq in Hj. lia. }
  { intros i ft Hi. apply Hstep. unfold py_range in Hi.
    apply in_map_iff in Hi as (j & <- & Hj). apply in_seq in Hj. lia. }
  { intros i Hi. apply Hnan. unfold py_range in Hi.
    apply in_map_iff in Hi as (j & <- & Hj). apply in_seq in Hj. lia. }
  destruct (Hstep 1100 (ftask ls)) as [r Hr]; [lia|].
  pose proof (train_iteration_Ok C P runid task (task_based_memory st1) env
                1100 ls r Hr (Hnan 1100 ltac:(lia))) as Hit.
  rewrite early_stopping_check_flat in Hit;
    [|reflexivity|by rewrite Hlw; cbn; rewrite Hw].
  assert (Hbrk : (my_threshold <? S (ls_i_am_increasing ls))%nat = true).
  { apply Nat.ltb_lt. rewrite Hlc. cbn. rewrite Hc. lia. }
  rewrite Hbrk in Hit.
  assert (Hprefix : (loop (py_range 1101) (loop_start st1)).2
                    = Ok ({| ftask := r.1;
                             ls_loss_world := ls_loss_world ls;
                             ls_i_am_increasing :=
                               S (ls_i_am_increasing ls) |}, true)).
  { change (py_range 1101) with (py_range (Z.of_nat 1101)).
    rewrite py_range_S. unfold loop, train_loop in *.
    rewrite (for_iters_continue _ _ _ _ _ Hquiet). cbn [snd].
    by rewrite for_iters_one. }
  eexists.
  assert (Hfull : loop (py_range (num_iters env)) (loop_start st1)
                  = loop (py_range 1101) (loop_start st1)).
  { rewrite (py_range_split 1101 (num_iters env)) by lia.
    unfold loop, train_loop in *.
    by rewrite (for_iters_break_prefix _ _ _ _ _ Hprefix). }
  split; [exact Hfull|]. rewrite Hfull. exact Hprefix.
Qed.

Lemma early_stop_counter_carries_over_witness :
  let C := example_collaborators (constant_loss (Fin 1)) in
  let P := example_params VAN 2000 false false in
  exists st env st1 ls',
    (run_tasks C P 0 (py_range 1) initial_run_state).2 = Ok st
    /\ i_am_increasing st = 5%nat
    /\ (task_setup C P 0 1 st).2 = Ok (env, st1)
    /\ train_loop C P 0 1 (task_based_memory st1) env (py_range 2000)
         (loop_start st1)
       = train_loop C P 0 1 (task_based_memory st1) env (py_range 1101)
           (loop_start st1)
    /\ (train_loop C P 0 1 (task_based_memory st1) env (py_range 2000)
          (loop_start st1)).2 = Ok (ls', true).
Proof.
  intros C P.
  destruct (run_tasks C P 0 (py_range 1) initial_run_state).2
    as [st|e] eqn:Hrun; [|vm_compute in Hrun; discriminate Hrun].
  assert (Hst : st = match (run_tasks C P 0 (py_range 1)
                              initial_run_state).2 with
                     | Ok r => r
                     | Raise _ => st
                     end) by (by rewrite Hrun).
  vm_compute in Hst.
  destruct (task_setup C P 0 1 st).2 as [[env st1]|e] eqn:Hsetup.
  2: { exfalso. rewrite Hst in Hsetup. vm_compute in Hsetup.
       discriminate Hsetup. }
  assert (Henv : (env, st1) = match (task_setup C P 0 1 st).2 with
                              | Ok r => r
                              | Raise _ => (env, st1)
                              end) by (by rewrite Hsetup).
  rewrite Hst in Henv. vm_compute in Henv. injection Henv as Henv Hst1.
  destruct (early_stop_counter_carries_over C P 0 1 st st1 env Hsetup)
    as (ls' & Hfull & Hbrk).
  - rewrite Hst. vm_compute. lia.
  - rewrite Henv. reflexivity.
  - intros i ft _. rewrite Henv, Hst1. eexists. reflexivity.
  - reflexivity.
  - rewrite Hst. reflexivity.
  - exists st, env, st1, ls'. split; [reflexivity|].
    split; [by rewrite Hst|]. split; [exact Hsetup|].
    rewrite Henv in Hfull, Hbrk |- *. split; [exact Hfull|exact Hbrk].
Defined.

(** ** The accuracies a task stores *)

Section Snapshots.

Variable C : collaborators.
Variable P : params.

Lemma call_test_task_sequence_length (runid task : Z) (iters : option Z)
    (cv : bool) (accs : list accuracy) :
  (call_test_task_sequence C P runid task iters cv).2 = Ok accs ->
  length accs = length (task_labels P).
Proof.
  unfold call_test_task_sequence. rewrite bind_emit. cbn [snd lift].
  intros H. by apply test_task_sequence_Ok_shape in H as [H _].
Qed.

(** What a step does to the snapshots of the task. *)
Lemma train_step_ftask (runid task : Z) (memory : list task_memory)
    (env : task_env) (iters : Z) (ft : list (list accuracy))
    (r : list (list accuracy) * float_val) :
  (train_step C P runid task memory env iters ft).2 = Ok r ->
  if snapshot_mode P && snapshot_step iters
  then exists fbatch,
         r.1 = ft ++ [fbatch] /\ length fbatch = length (task_labels P)
  else r.1 = ft.
Proof.
  unfold train_step, snapshot_mode. fold (snapshot_step iters). intros H.
  apply bind_Ok_inv in H as (ft' & Hft & H & _).
  apply bind_Ok_inv in H as (offset & _ & H & _).
  apply bind_Ok_inv in H as (loss & _ & H & _).
  cbn in H. injection H as <-. cbn [fst].
  destruct (train_single_epoch P && negb (cross_validate_mode P));
    cbn [andb]; [|by injection Hft].
  destruct (snapshot_step iters); [|by injection Hft].
  apply bind_Ok_inv in Hft as (fbatch & Hcall & Hft & _).
  cbn in Hft. injection Hft as <-.
  apply call_test_task_sequence_length in Hcall. eauto.
Qed.

Lemma train_iteration_ftask (runid task : Z) (memory : list task_memory)
    (env : task_env) (iters : Z) (ls ls' : loop_state) (brk : bool) :
  (train_iteration C P runid task memory env iters ls).2 = Ok (ls', brk) ->
  if snapshot_mode P && snapshot_step iters
  then exists fbatch,
         ftask ls' = ftask ls ++ [fbatch]
         /\ length fbatch = length (task_labels P)
  else ftask ls' = ftask ls.
Proof.
  unfold train_iteration. intros H.
  apply bind_Ok_inv in H as ([ft loss] & Hstep & H & _).
  apply train_step_ftask in Hstep. cbn [fst] in Hstep.
  apply bind_Ok_inv in H as (_ & _ & H & _).
  destruct (early_stopping_check _ _ _ _) as [[w c] b].
  cbn in H. by injection H as <- <-.
Qed.


(** The snapshots of a loop, whether it runs to its end or not. *)
Lemma train_loop_ftask_wide (runid task : Z) (memory : list task_memory)
    (env : task_env) :
  forall (range : list Z) (ls ls' : loop_state) (brk : bool),
    (train_loop C P runid task memory env range ls).2 = Ok (ls', brk) ->
    Forall (fun row => length row = length (task_labels P)) (ftask ls) ->
    Forall (fun row => length row = length (task_labels P)) (ftask ls').
Proof.
  unfold train_loop. induction range as [|i range IH]; intros ls ls' brk H Hw.
  - cbn in H. by injection H as <- <-.
  - cbn [for_iters] in H.
    apply bind_Ok_inv in H as ([s b] & Hit & H & _).
    apply train_iteration_ftask in Hit.
    assert (Hs : Forall (fun row => length row = length (task_labels P))
                   (ftask s)).
    { destruct (snapshot_mode P && snapshot_step i); [|by rewrite Hit].
      destruct Hit as (fbatch & -> & Hfb).
      apply Forall_app. split; [done|]. by constructor. }
    destruct b; [cbn in H; by injection H as <- <-|].
    by apply (IH s ls' brk).
Qed.

Lemma task_evaluation_entry (runid task : Z) (ft : list (list accuracy))
    (st st' : run_state) :
  (task_evaluation C P runid task ft st).2 = Ok st' ->
  Forall (fun row => length row = length (task_labels P)) ft ->
  exists entry,
    evals st' = evals st ++ [entry]
    /\ entry_covers (length (task_labels P)) entry.
Proof.
  unfold task_evaluation. intros H Hw.
  apply bind_Ok_inv in H as (entry & Hentry & H & _).
  rewrite bind_emit in H. cbn in H. injection H as <-. cbn [evals].
  exists entry. split; [done|].
  destruct (train_single_epoch P && negb (cross_validate_mode P)).
  - apply bind_Ok_inv in Hentry as (fbatch & Hcall & Hentry & _).
    cbn in Hentry. injection Hentry as <-.
    apply call_test_task_sequence_length in Hcall. cbn. split.
    + by destruct ft.
    + apply Forall_app. split; [done|]. by constructor.
  - apply bind_Ok_inv in Hentry as (accs0 & _ & Hentry & _).
    apply bind_Ok_inv in Hentry as (accs & Hcall & Hentry & _).
    cbn in Hentry. injection Hentry as <-.
    by apply call_test_task_sequence_length in Hcall.
Qed.

Lemma task_boundary_evals (runid task : Z) (st st' : run_state) :
  (task_boundary C P runid task st).2 = Ok st' -> evals st' = evals st.
Proof.
  unfold task_boundary.
  destruct (task <? len_datasets P - 1); [|by intros [= <-]].
  rewrite bind_lift.
  destruct (py_getitem (task_labels P) task) as [l|]; [|done].
  rewrite bind_emit. cbn [snd]. rewrite bind_lift.
  destruct (py_getitem (datasets P) task) as [d|]; [|done].
  destruct (if do_sampling P then _ else _) as [x y].
  by intros [= <-].
Qed.

Lemma run_task_entry (runid task : Z) (st st' : run_state) :
  (run_task C P runid task st).2 = Ok st' ->
  exists entry,
    evals st' = evals st ++ [entry]
    /\ entry_covers (length (task_labels P)) entry.
Proof.
  unfold run_task. intros H.
  apply bind_Ok_inv in H as ([env st0] & Hsetup & H & _).
  rewrite task_setup_eq in Hsetup. cbn [snd] in Hsetup.
  apply assemble_task_Ok in Hsetup as (_ & _ & _ & _ & _ & _ & Hev).
  apply bind_Ok_inv in H as ([ls brk] & Hloop & H & _).
  apply train_loop_ftask_wide in Hloop; [|by constructor].
  unfold after_training in H.
  apply bind_Ok_inv in H as (st1 & Hb & H & _).
  apply task_boundary_evals in Hb. cbn [evals] in Hb.
  apply task_evaluation_entry in H as (entry & Hentry & Hcov); [|done].
  exists entry. split; [|done]. by rewrite Hentry, Hb, Hev.
Qed.

Lemma run_tasks_entries (runid : Z) :
  forall (range : list Z) (st st' : run_state),
    (run_tasks C P runid range st).2 = Ok st' ->
    Forall (entry_covers (length (task_labels P))) (evals st) ->
    Forall (entry_covers (length (task_labels P))) (evals st').
Proof.
  unfold run_tasks. induction range as [|task range IH]; intros st st' H Hall.
  - cbn in H. by injection H as <-.
  - cbn [for_range] in H.
    apply bind_Ok_inv in H as (st1 & H1 & H & _).
    apply run_task_entry in H1 as (entry & Hentry & Hcov).
    apply (IH st1 st' H). rewrite Hentry.
    apply Forall_app. split; [done|]. by constructor.
Qed.

Lemma runs_entries :
  forall (range : list Z) (acc runs : list (list ftask_val)),
    (for_range
       (fun runid runs =>
          let+ st := one_run C P runid in
          ret (runs ++ [evals st]))
       range acc).2 = Ok runs ->
    Forall (Forall (entry_covers (length (task_labels P)))) acc ->
    Forall (Forall (entry_covers (length (task_labels P)))) runs.
Proof.
  induction range as [|runid range IH]; intros acc runs H Hall.
  - cbn in H. by injection H as <-.
  - cbn [for_range] in H.
    apply bind_Ok_inv in H as (acc' & Hbody & H & _).
    apply bind_Ok_inv in Hbody as (st & Hrun & Hbody & _).
    cbn in Hbody. injection Hbody as <-.
    apply (IH _ _ H). apply Forall_app. split; [done|].
    constructor; [|done].
    unfold one_run in Hrun. rewrite bind_emit in Hrun. cbn [snd] in Hrun.
    apply run_tasks_entries in Hrun; [done|constructor].
Qed.

End Snapshots.

(** X17. Every accuracy list that [train_task_sequence] returns covers
    every task: an entry is either the list of accuracies after the task,
    with one accuracy per entry of [task_labels], or, in single-epoch
    mode, a non-empty list of snapshots with one accuracy per entry of
    [task_labels] each; the tasks not yet trained are always included. *)
Theorem stored_accuracies_cover_every_task (C : collaborators) (P : params)
    (runs : list (list ftask_val)) :
  (train_task_sequence C P).2 = Ok runs ->
  Forall (Forall (entry_covers (length (task_labels P)))) runs.
Proof.
  unfold train_task_sequence. intros H.
  apply runs_entries in H; [done|constructor].
Qed.

Lemma stored_accuracies_cover_every_task_witness :
  let C := example_collaborators (constant_loss (Fin 1)) in
  let P := example_params PI 3 false true in
  exists runs,
    (train_task_sequence C P).2 = Ok runs
    /\ Forall (Forall (entry_covers 3)) runs.
Proof.
  intros C P.
  destruct (train_task_sequence C P).2 as [runs|e] eqn:E;
    [|vm_compute in E; discriminate E].
  exists runs. split; [reflexivity|].
  apply (stored_accuracies_cover_every_task C P runs E).
Defined.



(** ** The entry point *)

Lemma lookup_py_range (n : Z) (i : nat) :
  Z.of_nat i < n -> py_range n !! i = Some (Z.of_nat i).
Proof.
  intros Hi. unfold py_range.
  change (map Z.of_nat (seq 0 (Z.to_nat n)))
    with (Z.of_nat <$> seq 0 (Z.to_nat n)).
  rewrite list_lookup_fmap, lookup_seq_lt by lia. done.
Qed.

(** A slice of [range(total)] inside its bounds. *)
Lemma py_slice_py_range (total a c : Z) :
  0 <= a -> 0 <= c -> a + c <= total ->
  py_slice (py_range total) a (a + c)
  = map (fun j => a + Z.of_nat j) (seq 0 (Z.to_nat c)).
Proof.
  intros Ha Hc Htotal.
  rewrite (py_range_split (a + c) total), (py_range_split a (a + c)) by lia.
  replace (a + c - a) with c by lia.
  rewrite py_slice_nonneg by lia.
  rewrite <- app_assoc, drop_app_length' by (rewrite length_py_range; lia).
  rewrite take_app_length'; [done|].
  rewrite length_map, length_seq. lia.
Qed.

Lemma concat_task_slices (total c : Z) (n : nat) :
  0 <= c -> Z.of_nat n * c <= total ->
  concat (map (fun i => py_slice (py_range total) (i * c) (i * c + c))
            (py_range (Z.of_nat n)))
  = py_range (Z.of_nat n * c).
Proof.
  intros Hc. induction n as [|n IH]; intros Hn; [done|].
  rewrite py_range_S, map_app, concat_app, IH by lia.
  cbn [map concat]. rewrite app_nil_r, py_slice_py_range by lia.
  rewrite (py_range_split (Z.of_nat n * c) (Z.of_nat (S n) * c)) by lia.
  do 3 f_equal. lia.
Qed.

(** The labels of the tasks, as lines 509-516 compute them. *)
Lemma task_labels_split_the_classes_aux (total_classes num_tasks : Z) :
  main_task_labels total_classes 0 = Raise ZeroDivisionError
  /\ (0 < num_tasks ->
      0 <= total_classes ->
      let c := total_classes / num_tasks in
      exists task_labels,
        main_task_labels total_classes num_tasks = Ok (c, task_labels)
        /\ length task_labels = Z.to_nat num_tasks
        /\ (forall i : nat,
              Z.of_nat i < num_tasks ->
              task_labels !! i
              = Some (map (fun j => Z.of_nat i * c + Z.of_nat j)
                        (seq 0 (Z.to_nat c))))
        /\ concat task_labels = py_range (num_tasks * c)).
Proof.
  split; [done|]. intros Hn Htotal c.
  assert (Hc : 0 <= c) by (apply Z.div_pos; lia).
  assert (Hle : num_tasks * c <= total_classes)
    by (apply Z.mul_div_le; lia).
  unfold main_task_labels, py_floordiv.
  destruct (Z.eqb_spec num_tasks 0) as [?|_]; [lia|].
  cbn [rbind]. fold c. eexists. split; [reflexivity|].
  split; [by rewrite length_map, length_py_range|]. split.
  - intros i Hi.
    change (map ?f (py_range num_tasks)) with (f <$> py_range num_tasks).
    rewrite list_lookup_fmap, lookup_py_range by done. cbn [fmap option_fmap option_map].
    f_equal. apply py_slice_py_range; nia.
  - rewrite <- (Z2Nat.id num_tasks) by lia.
    apply concat_task_slices; [done|]. rewrite Z2Nat.id by lia. done.
Qed.


(** X13. The task labels [main] builds (lines 509-516): with at least one
    task, every task gets [total_classes // num_tasks] labels, task [i]
    the classes [i * c, ..., (i + 1) * c - 1] in order; together the
    tasks hold the classes below [num_tasks * c], each once, so the last
    [total_classes mod num_tasks] classes belong to no task.  With no
    task at all the division raises. *)
Theorem task_labels_split_the_classes (total_classes num_tasks : Z) :
  main_task_labels total_classes 0 = Raise ZeroDivisionError
  /\ (0 < num_tasks ->
      0 <= total_classes ->
      let c := total_classes / num_tasks in
      exists task_labels,
        main_task_labels total_classes num_tasks = Ok (c, task_labels)
        /\ length task_labels = Z.to_nat num_tasks
        /\ (forall i : nat,
              Z.of_nat i < num_tasks ->
              task_labels !! i
              = Some (map (fun j => Z.of_nat i * c + Z.of_nat j)
                        (seq 0 (Z.to_nat c))))
        /\ concat task_labels = py_range (num_tasks * c)).
Proof. apply task_labels_split_the_classes_aux. Qed.

Lemma task_labels_split_the_classes_witness :
  main_task_labels 7 3 = Ok (2, [[0; 1]; [2; 3]; [4; 5]])
  /\ exists task_labels,
       main_task_labels 7 3 = Ok (7 / 3, task_labels)
       /\ length task_labels = Z.to_nat 3
       /\ (forall i : nat,
             Z.of_nat i < 3 ->
             task_labels !! i
             = Some (map (fun j => Z.of_nat i * (7 / 3) + Z.of_nat j)
                       (seq 0 (Z.to_nat (7 / 3)))))
       /\ concat task_labels = py_range (3 * (7 / 3)).
Proof.
  split; [reflexivity|].
  apply (proj2 (task_labels_split_the_classes 7 3)); lia.
Defined.

(** X14. The mask and the labels agree: for the task labels and the
    [num_classes_per_task] that [main] computes, the attribute mask of
    task [i] keeps row [r] of the class-attribute matrix exactly when
    class [r] is one of the labels of task [i], and zeroes it otherwise. *)
Theorem attr_mask_keeps_the_task_labels (total_classes num_tasks c : Z)
    (task_labels : list (list label)) (class_attrs : matrix) (i r : nat)
    (labels_i : list label) (row : list Q) :
  0 < num_tasks ->
  0 <= total_classes ->
  main_task_labels total_classes num_tasks = Ok (c, task_labels) ->
  task_labels !! i = Some labels_i ->
  class_attrs !! r = Some row ->
  attr_mask class_attrs (Z.of_nat i) c !! r
  = Some (if bool_decide (Z.of_nat r ∈ labels_i)
          then row
          else map (fun _ => 0%Q) row).
Proof.
  intros Hn Htotal Hmain Hi Hrow.
  destruct (proj2 (task_labels_split_the_classes_aux total_classes num_tasks)
              Hn Htotal) as (tl & Htl & Hlen & Hlook & _).
  rewrite Hmain in Htl. injection Htl as -> <-.
  assert (Hc : 0 <= total_classes / num_tasks) by (apply Z.div_pos; lia).
  set (c := total_classes / num_tasks) in *.
  pose proof (lookup_lt_Some _ _ _ Hi) as Hlt.
  rewrite Hlook in Hi by lia. injection Hi as <-.
  rewrite (lookup_attr_mask _ _ _ _ row) by (done || lia).
  f_equal.
  destruct (Z.leb_spec (Z.of_nat i * c) (Z.of_nat r)) as [Hlo|Hlo];
    destruct (Z.ltb_spec (Z.of_nat r) ((Z.of_nat i + 1) * c)) as [Hhi|Hhi];
    cbn [andb].
  - rewrite bool_decide_true; [done|].
    apply list_elem_of_In, in_map_iff.
    exists (Z.to_nat (Z.of_nat r - Z.of_nat i * c)).
    split; [lia|]. apply in_seq. lia.
  - rewrite bool_decide_false; [done|].
    intros H. apply list_elem_of_In, in_map_iff in H as (j & Hj & Hin).
    apply in_seq in Hin. lia.
  - rewrite bool_decide_false; [done|].
    intros H. apply list_elem_of_In, in_map_iff in H as (j & Hj & Hin).
    apply in_seq in Hin. lia.
  - rewrite bool_decide_false; [done|].
    intros H. apply list_elem_of_In, in_map_iff in H as (j & Hj & Hin).
    apply in_seq in Hin. lia.
Qed.

Lemma attr_mask_keeps_the_task_labels_witness :
  attr_mask attrs6 1 2 !! 3%nat = Some [7; 8]%Q
  /\ attr_mask attrs6 1 2 !! 4%nat = Some [0; 0]%Q.
Proof.
  split.
  - exact (attr_mask_keeps_the_task_labels 7 3 2 [[0; 1]; [2; 3]; [4; 5]]
             attrs6 1 3 [2; 3] [7; 8]%Q ltac:(lia) ltac:(lia)
             eq_refl eq_refl eq_refl).
  - exact (attr_mask_keeps_the_task_labels 7 3 2 [[0; 1]; [2; 3]; [4; 5]]
             attrs6 1 4 [2; 3] [9; 10]%Q ltac:(lia) ltac:(lia)
             eq_refl eq_refl eq_refl).
Defined.




(** X16. The MOMENTUM optimiser is in the list of valid optimisers, but
    its branch (lines 549-552) reads [train_step], a name that neither
    [main] nor the module defines: with an accepted architecture and
    method, [main] raises [NameError] after it has snapshotted the meta
    data and loaded the data set, and before it creates the model or
    trains. *)
Theorem momentum_optimizer_raises (E : environment) (a : args.t) :
  args.arch a ∈ VALID_ARCHS ->
  args.imp_method a ∈ MODELS ->
  args.optim a = "MOMENTUM" ->
  main E a
  = ((if log_dir_exists E then [] else [makedirs (args.log_dir a)])
     ++ [snapshot_experiment_meta_data;
         construct_split_cub [py_range TOTAL_CLASSES]],
     Some (NameError "train_step")).
Proof.
  intros Harch Hmethod Hoptim. unfold main, main_with.
  rewrite Hoptim, !bool_decide_true
    by (done || (apply (bool_decide_unpack _); vm_compute; exact I)).
  cbn [negb].
  replace (main_task_labels TOTAL_CLASSES NUM_TASKS)
    with (Ok (TOTAL_CLASSES, [py_range TOTAL_CLASSES]))
    by (vm_compute; reflexivity).
  destruct (split_cub E _) as [ds attrs].
  change (choose_optimizer "MOMENTUM") with (@inl main_exn string (NameError "train_step")).
  by rewrite <- app_assoc.
Qed.

Lemma momentum_optimizer_raises_witness :
  let E :=
    {| log_dir_exists := true;
       split_cub := fun _ => ([two_class_task 0], attrs6);
       pretrained_keys := 4;
       network := example_collaborators (constant_loss (Fin 1)) |} in
  let a :=
    {| args.cross_validate_mode := false; args.train_single_epoch := false;
       args.eval_single_head := false; args.arch := "CNN";
       args.num_runs := 1; args.train_iters := 1; args.batch_size := 4;
       args.optim := "MOMENTUM"; args.imp_method := "GEM";
       args.fisher_update_after := 50; args.do_sampling := false;
       args.mem_size := 1; args.log_dir := "logs" |} in
  main E a
  = ([snapshot_experiment_meta_data;
      construct_split_cub [py_range TOTAL_CLASSES]],
     Some (NameError "train_step")).
Proof.
  intros E a.
  apply (momentum_optimizer_raises E a);
    [apply (bool_decide_unpack _); vm_compute; exact I
    |apply (bool_decide_unpack _); vm_compute; exact I
    |reflexivity].
Defined.

Lemma load_pretrained_no_report (E : environment) (arch : string) :
  snapshot_experiment_eval ∉ load_pretrained E arch.
Proof.
  unfold load_pretrained. repeat case_bool_decide.
  - by intros [=]%list_elem_of_singleton.
  - change (map ?f ?l) with (f <$> l).
    by intros (i & [=] & _)%list_elem_of_fmap.
  - by intros ?%elem_of_nil.
Qed.

Lemma train_events_no_report (tr : list event) :
  snapshot_experiment_eval ∉ map train_event tr.
Proof.
  change (map ?f ?l) with (f <$> l).
  by intros (i & [=] & _)%list_elem_of_fmap.
Qed.

Ltac split_membership H :=
  repeat first
    [ apply elem_of_app in H as [H|H]
    | apply elem_of_cons in H as [H|H] ];
  try discriminate H; try (by apply elem_of_nil in H); try done.

Lemma method_of_string_MODELS (s : string) :
  s ∈ MODELS -> exists m, method_of_string s = Some m.
Proof.
  intros H. apply list_elem_of_In in H. simpl in H.
  destruct H as [<-|[<-|[<-|[<-|[<-|[<-|[]]]]]]];
    eexists; vm_compute; reflexivity.
Qed.

Lemma train_task_sequence_no_run (C : collaborators) (P : params) :
  num_runs P <= 0 -> train_task_sequence C P = ([], Ok []).
Proof.
  intros H. unfold train_task_sequence, py_range.
  by replace (Z.to_nat (num_runs P)) with 0%nat by lia.
Qed.

(** X19. The results are written exactly when [main] gets to its end:
    [snapshot_experiment_eval] is called if and only if [main] returns
    without an exception.  For that it is not enough that the training
    returns: in cross-validation mode the statistics are indexed by
    [acc_mean[-1,:]], and with [num_runs <= 0], an accepted configuration
    and the SGD or ADAM optimiser, [main] trains nothing, closes the
    session and raises [IndexError] without writing a result. *)
Theorem main_reports_iff_it_returns (E : environment) (a : args.t) :
  (snapshot_experiment_eval ∈ (main E a).1 <-> (main E a).2 = None)
  /\ (args.arch a ∈ VALID_ARCHS ->
      args.imp_method a ∈ MODELS ->
      args.optim a = "SGD" \/ args.optim a = "ADAM" ->
      args.cross_validate_mode a = true ->
      args.num_runs a <= 0 ->
      (main E a).2 = Some (Uncaught IndexError)
      /\ last (main E a).1 = Some sess_close
      /\ snapshot_experiment_eval ∉ (main E a).1).
Proof.
  assert (Hiff : snapshot_experiment_eval ∈ (main E a).1
                 <-> (main E a).2 = None).
  { unfold main, main_with.
    pose proof (load_pretrained_no_report E (args.arch a)) as Hload.
    destruct (negb _); [by split; [intros ?%elem_of_nil|]|].
    destruct (negb _); [by split; [intros ?%elem_of_nil|]|].
    destruct (negb _); [by split; [intros ?%elem_of_nil|]|].
    destruct (main_task_labels _ _) as [[c tl]|e].
    2: { cbn [fst snd]. split; [|done]. intros H.
         destruct (log_dir_exists E); split_membership H. }
    destruct (split_cub E tl) as [ds attrs].
    destruct (choose_optimizer _) as [e|opt].
    { cbn [fst snd]. split; [|done]. intros H.
      destruct (log_dir_exists E); split_membership H. }
    destruct (method_of_string _) as [m|].
    2: { cbn [fst snd]. split; [|done]. intros H.
         destruct (log_dir_exists E); split_membership H. }
    destruct (train_task_sequence _ _) as [tr_train [runs|e]].
    - pose proof (train_events_no_report tr_train) as Htrain.
      unfold report. destruct (args.cross_validate_mode a).
      + destruct runs as [|[|ft evals] runs]; cbn [fst snd].
        * split; [|done]. intros H.
          destruct (log_dir_exists E); split_membership H.
        * split; [|done]. intros H.
          destruct (log_dir_exists E); split_membership H.
        * split; [done|]. intros _.
          rewrite !elem_of_app, !elem_of_cons. right. right. right. by left.
      + cbn [fst snd]. split; [done|]. intros _.
        rewrite !elem_of_app, !elem_of_cons. right. right. by left.
    - pose proof (train_events_no_report tr_train) as Htrain.
      cbn [fst snd]. split; [|done]. intros H.
      destruct (log_dir_exists E); split_membership H. }
  split; [exact Hiff|].
  intros Harch Hmethod Hoptim Hcv Hruns.
  assert (Hresult : (main E a).2 = Some (Uncaught IndexError)
                    /\ last (main E a).1 = Some sess_close).
  { unfold main, main_with.
    rewrite (bool_decide_true _ Harch), (bool_decide_true _ Hmethod).
    assert (Hvalid : args.optim a ∈ VALID_OPTIMS)
      by (destruct Hoptim as [-> | ->];
          apply (bool_decide_unpack _); vm_compute; exact I).
    rewrite (bool_decide_true _ Hvalid). cbn [negb].
    destruct (main_task_labels TOTAL_CLASSES NUM_TASKS) as [[c tl]|e] eqn:Hl;
      [|vm_compute in Hl; discriminate Hl].
    destruct (split_cub E tl) as [ds attrs].
    destruct (method_of_string_MODELS _ Hmethod) as [m ->].
    assert (Hopt : exists opt, choose_optimizer (args.optim a) = inr opt)
      by (destruct Hoptim as [-> | ->]; eexists; vm_compute; reflexivity).
    destruct Hopt as [opt ->].
    rewrite train_task_sequence_no_run by done.
    unfold report. rewrite Hcv. cbn [fst snd map]. split; [done|].
    rewrite !app_nil_r, !app_assoc. apply last_snoc. }
  destruct Hresult as [Hres Hlast]. split; [done|]. split; [done|].
  intros Hin. apply Hiff in Hin. by rewrite Hres in Hin.
Qed.

Lemma main_reports_iff_it_returns_witness :
  let E :=
    {| log_dir_exists := true;
       split_cub := fun _ => ([two_class_task 0], attrs6);
       pretrained_keys := 4;
       network := example_collaborators (constant_loss (Fin 1)) |} in
  let a :=
    {| args.cross_validate_mode := true; args.train_single_epoch := false;
       args.eval_single_head := false; args.arch := "CNN";
       args.num_runs := 0; args.train_iters := 1; args.batch_size := 4;
       args.optim := "SGD"; args.imp_method := "VAN";
       args.fisher_update_after := 50; args.do_sampling := false;
       args.mem_size := 1; args.log_dir := "logs" |} in
  (main E a).2 = Some (Uncaught IndexError)
  /\ last (main E a).1 = Some sess_close
  /\ snapshot_experiment_eval ∉ (main E a).1.
Proof.
  intros E a.
  apply (proj2 (main_reports_iff_it_returns E a));
    [apply (bool_decide_unpack _); vm_compute; exact I
    |apply (bool_decide_unpack _); vm_compute; exact I
    |by left|reflexivity|vm_compute; discriminate].
Defined.
